(** * Hybrid rendering: the reflections denoiser's per-frame command recording

    A shallow embedding of [RayTracedReflections] (clear, ray trace, reset
    args, temporal accumulation, A-Trous filter, upsample, output selection)
    and of the frame bookkeeping of [HybridRendering::update].

    The host code records Vulkan commands into a command buffer and mutates
    the fields of the denoiser object while doing so.  Both are modelled: the
    recording functions live in a small state-and-writer monad over the
    object's fields, and the recorded command list is given a semantics on
    an abstract GPU memory whose shaders are parameters. *)

From Stdlib Require Import ZArith List Bool Lia.
Import ListNotations.
Open Scope Z_scope.

(** ** Machine integers *)

(** [uint32_t] arithmetic wraps modulo 2^32. *)
Definition wrap_u32 (z : Z) : Z := z mod 2 ^ 32.

(** [int32_t] / [int]: two's complement wrap-around. *)
Definition wrap_s32 (z : Z) : Z := (z + 2 ^ 31) mod 2 ^ 32 - 2 ^ 31.

(** [a << i] on [int].  The value is the mathematical shift reduced to 32
    bits two's complement; C++ leaves shift counts of 32 and more undefined,
    for those this is the truncating reading. *)
Definition shl_i32 (a i : Z) : Z := wrap_s32 (Z.shiftl a i).

(** [static_cast<uint32_t>(ceil(float(a) / float(b)))]: for extents below
    2^24 the float quotient is exact enough that this is the integer
    ceiling of [a / b]. *)
Definition ceil_div (a b : Z) : Z := (a + b - 1) / b.

(** A [float] is carried as its IEEE-754 bit pattern; the host code only
    copies such values into push constants. *)
Definition float32 : Type := Z.

(** ** Vulkan vocabulary used by the denoiser *)

Module Vk.

Definition ACCESS_INDIRECT_COMMAND_READ_BIT : Z := 0x1.
Definition ACCESS_SHADER_READ_BIT : Z := 0x20.
Definition ACCESS_SHADER_WRITE_BIT : Z := 0x40.

Definition PIPELINE_STAGE_DRAW_INDIRECT_BIT : Z := 0x2.
Definition PIPELINE_STAGE_FRAGMENT_SHADER_BIT : Z := 0x80.
Definition PIPELINE_STAGE_COMPUTE_SHADER_BIT : Z := 0x800.
Definition PIPELINE_STAGE_RAY_TRACING_SHADER_BIT_KHR : Z := 0x200000.

Definition SHADER_STAGE_COMPUTE_BIT : Z := 0x20.
Definition SHADER_STAGE_RAYGEN_BIT_KHR : Z := 0x100.
Definition SHADER_STAGE_CLOSEST_HIT_BIT_KHR : Z := 0x400.

Definition WHOLE_SIZE : Z := 2 ^ 64 - 1.

Inductive ImageLayout : Type :=
| LAYOUT_UNDEFINED
| LAYOUT_GENERAL
| LAYOUT_SHADER_READ_ONLY_OPTIMAL
| LAYOUT_TRANSFER_SRC_OPTIMAL
| LAYOUT_TRANSFER_DST_OPTIMAL.

Inductive BindPoint : Type :=
| BIND_POINT_COMPUTE
| BIND_POINT_RAY_TRACING_KHR.

End Vk.

Import Vk.

(** ** Resources owned by one denoiser instance *)

(** Images made by [create_images]; the two-element arrays are indexed by
    an integer as in the source. *)
Inductive Image : Type :=
| RayTraceImage
| CurrentOutputImage (i : Z)
| CurrentMomentsImage (i : Z)
| PrevImage
| ATrousImage (i : Z)
| UpsampleImage.

(** Buffers made by [create_buffers]. *)
Inductive Buffer : Type :=
| DenoiseTileCoordsBuffer
| DenoiseDispatchArgsBuffer
| CopyTileCoordsBuffer
| CopyDispatchArgsBuffer.

(** Descriptor sets allocated by [create_descriptor_sets], and the sets of
    collaborators that the passes bind. *)
Inductive DescriptorSet : Type :=
| RayTraceWriteDs
| RayTraceReadDs
| CurrentWriteDs (i : Z)
| CurrentReadDs (i : Z)
| PrevReadDs (i : Z)
| OutputOnlyReadDs (i : Z)
| IndirectBufferDs
| ATrousReadDs (i : Z)
| ATrousWriteDs (i : Z)
| UpsampleWriteDs
| UpsampleReadDs
| SceneDs
| PerFrameDs
| GBufferOutputDs
| GBufferHistoryDs
| SkyboxDs
| BlueNoiseDs
| DDGIReadDs.

(** Pipelines made by [create_pipelines]. *)
Inductive Pipeline : Type :=
| RayTracePipeline
| ResetArgsPipeline
| TemporalAccumulationPipeline
| CopyTilesPipeline
| ATrousPipeline
| UpsamplePipeline.

Definition Image_eq_dec (a b : Image) : {a = b} + {a <> b}.
Proof. decide equality; apply Z.eq_dec. Defined.

Definition Buffer_eq_dec (a b : Buffer) : {a = b} + {a <> b}.
Proof. decide equality. Defined.

Definition DescriptorSet_eq_dec (a b : DescriptorSet) : {a = b} + {a <> b}.
Proof. decide equality; apply Z.eq_dec. Defined.

Definition Pipeline_eq_dec (a b : Pipeline) : {a = b} + {a <> b}.
Proof. decide equality. Defined.

Definition Pipeline_eqb (a b : Pipeline) : bool :=
  if Pipeline_eq_dec a b then true else false.

(** [write_descriptor_sets]: the storage images a set binds, by binding. *)
Definition ds_storage_images (ds : DescriptorSet) : list Image :=
  match ds with
  | RayTraceWriteDs => [RayTraceImage]
  | CurrentWriteDs i => [CurrentOutputImage i; CurrentMomentsImage i]
  | ATrousWriteDs i => [ATrousImage i]
  | UpsampleWriteDs => [UpsampleImage]
  | _ => []
  end.

(** [write_descriptor_sets]: the sampled images a set binds, by binding.
    The previous-frame set pairs the one [prev_view] with the moments of
    slot [i]. *)
Definition ds_sampled_images (ds : DescriptorSet) : list Image :=
  match ds with
  | RayTraceReadDs => [RayTraceImage]
  | OutputOnlyReadDs i => [CurrentOutputImage i]
  | CurrentReadDs i => [CurrentOutputImage i; CurrentMomentsImage i]
  | PrevReadDs i => [PrevImage; CurrentMomentsImage i]
  | ATrousReadDs i => [ATrousImage i]
  | UpsampleReadDs => [UpsampleImage]
  | _ => []
  end.

(** [write_descriptor_sets]: the storage buffers of the indirect set. *)
Definition ds_storage_buffers (ds : DescriptorSet) : list Buffer :=
  match ds with
  | IndirectBufferDs =>
      [DenoiseTileCoordsBuffer; DenoiseDispatchArgsBuffer;
       CopyTileCoordsBuffer; CopyDispatchArgsBuffer]
  | _ => []
  end.

(** [create_pipelines]: number of descriptor set layouts of a pipeline
    layout, and whether it declares a push constant range. *)
Definition pipeline_set_count (p : Pipeline) : nat :=
  match p with
  | RayTracePipeline => 7
  | ResetArgsPipeline => 1
  | TemporalAccumulationPipeline => 7
  | CopyTilesPipeline => 3
  | ATrousPipeline => 4
  | UpsamplePipeline => 3
  end%nat.

Definition pipeline_has_push_constants (p : Pipeline) : bool :=
  match p with
  | ResetArgsPipeline | CopyTilesPipeline => false
  | _ => true
  end.

(** ** Push constant blocks *)

Record RayTracePushConstants : Type := {
  rt_bias : float32;
  rt_trim : float32;
  rt_num_frames : Z;
  rt_g_buffer_mip : Z;
  rt_sample_gi : Z;
  rt_approximate_with_ddgi : Z;
  rt_gi_intensity : float32;
  rt_rough_ddgi_intensity : float32;
  rt_ibl_indirect_specular_intensity : float32
}.

Record TemporalAccumulationPushConstants : Type := {
  ta_camera_delta : float32 * float32 * float32;
  ta_frame_time : float32;
  ta_alpha : float32;
  ta_moments_alpha : float32;
  ta_g_buffer_mip : Z;
  ta_approximate_with_ddgi : Z
}.

Record ATrousFilterPushConstants : Type := {
  at_radius : Z;
  at_step_size : Z;
  at_phi_color : float32;
  at_phi_normal : float32;
  at_sigma_depth : float32;
  at_g_buffer_mip : Z;
  at_approximate_with_ddgi : Z
}.

Record UpsamplePushConstants : Type := {
  up_g_buffer_mip : Z
}.

Inductive PushConstants : Type :=
| PushRayTrace (pc : RayTracePushConstants)
| PushTemporalAccumulation (pc : TemporalAccumulationPushConstants)
| PushATrous (pc : ATrousFilterPushConstants)
| PushUpsample (pc : UpsamplePushConstants).

(** ** Commands *)

Record VkMemoryBarrier : Type := {
  mb_src_access : Z;
  mb_dst_access : Z
}.

Record VkImageMemoryBarrier : Type := {
  ib_image : Image;
  ib_old_layout : ImageLayout;
  ib_new_layout : ImageLayout;
  ib_src_access : Z;
  ib_dst_access : Z
}.

Record VkBufferMemoryBarrier : Type := {
  bb_buffer : Buffer;
  bb_offset : Z;
  bb_size : Z;
  bb_src_access : Z;
  bb_dst_access : Z
}.

(** The barrier helpers are declared in [utilities.h], which is not among
    the sources; their argument order (source access, then destination
    access) is the one every call site uses. *)
Definition memory_barrier (src dst : Z) : VkMemoryBarrier :=
  {| mb_src_access := src; mb_dst_access := dst |}.

Definition image_memory_barrier (img : Image) (old_layout new_layout : ImageLayout)
  (src dst : Z) : VkImageMemoryBarrier :=
  {| ib_image := img; ib_old_layout := old_layout; ib_new_layout := new_layout;
     ib_src_access := src; ib_dst_access := dst |}.

Definition buffer_memory_barrier (buf : Buffer) (offset size src dst : Z)
  : VkBufferMemoryBarrier :=
  {| bb_buffer := buf; bb_offset := offset; bb_size := size;
     bb_src_access := src; bb_dst_access := dst |}.

(** What lands in the command buffer.  [SetImageLayout] stands for the
    framework's [dw::vk::utilities::set_image_layout], a layout transition
    of one image.  Profiler scopes ([DW_SCOPED_SAMPLE]) are left out. *)
Inductive Cmd : Type :=
| PipelineBarrier (mem : list VkMemoryBarrier) (img : list VkImageMemoryBarrier)
    (buf : list VkBufferMemoryBarrier) (src_stage dst_stage : Z)
| SetImageLayout (img : Image) (old_layout new_layout : ImageLayout)
| ClearColorImage (img : Image) (layout : ImageLayout)
    (color : float32 * float32 * float32 * float32)
| BindPipeline (bp : BindPoint) (p : Pipeline)
| PushConstantsCmd (stages : Z) (pc : PushConstants)
| BindDescriptorSets (bp : BindPoint) (sets : list DescriptorSet)
    (dynamic_offsets : list Z)
| Dispatch (x y z : Z)
| DispatchIndirect (buf : Buffer) (offset : Z)
| TraceRays (width height depth : Z)
| CopyImage (src : Image) (src_layout : ImageLayout)
    (dst : Image) (dst_layout : ImageLayout) (width height depth : Z).

(** ** The denoiser object *)

(** [RayTraceScale]: the combo box of [main.cpp] lists the values in enum
    order (Full-Res, Half-Res, Quarter-Res) and casts the index. *)
Inductive RayTraceScale : Type :=
| RAY_TRACE_SCALE_FULL_RES
| RAY_TRACE_SCALE_HALF_RES
| RAY_TRACE_SCALE_QUARTER_RES.

Definition scale_value (s : RayTraceScale) : Z :=
  match s with
  | RAY_TRACE_SCALE_FULL_RES => 0
  | RAY_TRACE_SCALE_HALF_RES => 1
  | RAY_TRACE_SCALE_QUARTER_RES => 2
  end.

Definition scale_eqb (a b : RayTraceScale) : bool :=
  scale_value a =? scale_value b.

(** [kOutputTypeEnums]. *)
Inductive OutputType : Type :=
| OUTPUT_RAY_TRACE
| OUTPUT_TEMPORAL_ACCUMULATION
| OUTPUT_ATROUS
| OUTPUT_UPSAMPLE.

Record RayTrace : Type := {
  sample_gi : bool;
  approximate_with_ddgi : bool;
  bias : float32;
  trim : float32;
  gi_intensity : float32;
  rough_ddgi_intensity : float32;
  ibl_indirect_specular_intensity : float32
}.

Record TemporalAccumulation : Type := {
  blur_as_input : bool;
  alpha : float32;
  moments_alpha : float32
}.

Record ATrous : Type := {
  radius : Z;
  filter_iterations : Z;
  feedback_iteration : Z;
  read_idx : Z;
  phi_color : float32;
  phi_normal : float32;
  sigma_depth : float32
}.

Record RayTracedReflections : Type := {
  m_scale : RayTraceScale;
  m_g_buffer_mip : Z;
  m_width : Z;
  m_height : Z;
  m_first_frame : bool;
  m_denoise : bool;
  m_current_output : OutputType;
  m_ray_trace : RayTrace;
  m_temporal_accumulation : TemporalAccumulation;
  m_a_trous : ATrous
}.

(** The part of [CommonResources] the denoiser and the frame loop use. *)
Record CommonResources : Type := {
  ping_pong : bool;
  first_frame : bool;
  num_frames : Z;
  camera_delta : float32 * float32 * float32;
  frame_time : float32;
  ubo_size : Z
}.

(** What the passes ask of the backend and of the DDGI collaborator. *)
Record Backend : Type := {
  swap_chain_width : Z;
  swap_chain_height : Z;
  current_frame_idx : Z
}.

Record DDGI : Type := {
  current_ubo_offset : Z
}.

(** ** Recording monad: the object's fields as state, the command buffer
    as output *)

Definition M (A : Type) : Type :=
  RayTracedReflections -> A * RayTracedReflections * list Cmd.

Definition ret {A : Type} (a : A) : M A := fun self => (a, self, []).

Definition bind {A B : Type} (m : M A) (k : A -> M B) : M B :=
  fun self =>
    let '(a, self1, c1) := m self in
    let '(b, self2, c2) := k a self1 in
    (b, self2, c1 ++ c2).

Definition this : M RayTracedReflections := fun self => (self, self, []).

Definition assign (f : RayTracedReflections -> RayTracedReflections) : M unit :=
  fun self => (tt, f self, []).

Definition record (c : Cmd) : M unit := fun self => (tt, self, [c]).

Declare Scope rec_scope.
Delimit Scope rec_scope with rec.
Notation "x <- m ;; k" := (bind m (fun x => k))
  (at level 61, m at next level, right associativity) : rec_scope.
Notation "m ;; k" := (bind m (fun _ => k))
  (at level 61, right associativity) : rec_scope.
Open Scope rec_scope.

Definition result {A : Type} (r : A * RayTracedReflections * list Cmd) : A :=
  fst (fst r).

Definition object {A : Type} (r : A * RayTracedReflections * list Cmd)
  : RayTracedReflections := snd (fst r).

Definition commands {A : Type} (r : A * RayTracedReflections * list Cmd)
  : list Cmd := snd r.

(** Field updates written [m_first_frame = ...], [m_a_trous.read_idx = ...]
    in the source. *)
Definition set_first_frame (b : bool) (self : RayTracedReflections)
  : RayTracedReflections :=
  {| m_scale := m_scale self; m_g_buffer_mip := m_g_buffer_mip self;
     m_width := m_width self; m_height := m_height self;
     m_first_frame := b; m_denoise := m_denoise self;
     m_current_output := m_current_output self;
     m_ray_trace := m_ray_trace self;
     m_temporal_accumulation := m_temporal_accumulation self;
     m_a_trous := m_a_trous self |}.

Definition set_read_idx (i : Z) (self : RayTracedReflections)
  : RayTracedReflections :=
  {| m_scale := m_scale self; m_g_buffer_mip := m_g_buffer_mip self;
     m_width := m_width self; m_height := m_height self;
     m_first_frame := m_first_frame self; m_denoise := m_denoise self;
     m_current_output := m_current_output self;
     m_ray_trace := m_ray_trace self;
     m_temporal_accumulation := m_temporal_accumulation self;
     m_a_trous :=
       {| radius := radius (m_a_trous self);
          filter_iterations := filter_iterations (m_a_trous self);
          feedback_iteration := feedback_iteration (m_a_trous self);
          read_idx := i;
          phi_color := phi_color (m_a_trous self);
          phi_normal := phi_normal (m_a_trous self);
          sigma_depth := sigma_depth (m_a_trous self) |} |}.

Definition set_current_output (t : OutputType) (self : RayTracedReflections)
  : RayTracedReflections :=
  {| m_scale := m_scale self; m_g_buffer_mip := m_g_buffer_mip self;
     m_width := m_width self; m_height := m_height self;
     m_first_frame := m_first_frame self; m_denoise := m_denoise self;
     m_current_output := t;
     m_ray_trace := m_ray_trace self;
     m_temporal_accumulation := m_temporal_accumulation self;
     m_a_trous := m_a_trous self |}.

(** ** Construction *)

(** The default member initialisers of [ray_traced_reflections.h]; the
    header is not among the sources, so they are taken as given. *)
Record HeaderDefaults : Type := {
  default_denoise : bool;
  default_current_output : OutputType;
  default_ray_trace : RayTrace;
  default_temporal_accumulation : TemporalAccumulation;
  default_a_trous : ATrous
}.

(** Modelled from the spec: the initial value of [m_first_frame] is set in
    the absent header; a newly constructed instance is in the state
    Constructed, [first_frame = true].  The rest is the constructor of the
    source: the working extent is the swap chain extent divided by
    [2^scale], and the G-buffer mip is the scale. *)
Definition RayTracedReflections_new (backend : Backend) (h : HeaderDefaults)
  (scale : RayTraceScale) : RayTracedReflections :=
  let scale_divisor := 2 ^ scale_value scale in
  {| m_scale := scale;
     m_g_buffer_mip := scale_value scale;
     m_width := swap_chain_width backend / scale_divisor;
     m_height := swap_chain_height backend / scale_divisor;
     m_first_frame := true;
     m_denoise := default_denoise h;
     m_current_output := default_current_output h;
     m_ray_trace := default_ray_trace h;
     m_temporal_accumulation := default_temporal_accumulation h;
     m_a_trous := default_a_trous h |}.

(** ** The passes *)

Definition pipeline_barrier (mem : list VkMemoryBarrier)
  (img : list VkImageMemoryBarrier) (buf : list VkBufferMemoryBarrier)
  (src_stage dst_stage : Z) : M unit :=
  record (PipelineBarrier mem img buf src_stage dst_stage).

Definition set_image_layout (img : Image) (old_layout new_layout : ImageLayout)
  : M unit :=
  record (SetImageLayout img old_layout new_layout).

(** [cond ? 1 : 0] *)
Definition flag (b : bool) : Z := if b then 1 else 0.

Definition TEMPORAL_ACCUMULATION_NUM_THREADS_X : Z := 8.
Definition TEMPORAL_ACCUMULATION_NUM_THREADS_Y : Z := 8.

Definition clear_images (cr : CommonResources) : M unit :=
  self <- this ;;
  if m_first_frame self then
    let color : float32 * float32 * float32 * float32 := (0, 0, 0, 0) in
    let prev_image := PrevImage in
    let output_image := CurrentOutputImage (Z.b2z (negb (ping_pong cr))) in
    let moments_image := CurrentMomentsImage (Z.b2z (negb (ping_pong cr))) in
    set_image_layout prev_image LAYOUT_UNDEFINED LAYOUT_GENERAL ;;
    set_image_layout output_image LAYOUT_UNDEFINED LAYOUT_GENERAL ;;
    set_image_layout moments_image LAYOUT_UNDEFINED LAYOUT_GENERAL ;;
    record (ClearColorImage prev_image LAYOUT_GENERAL color) ;;
    record (ClearColorImage output_image LAYOUT_GENERAL color) ;;
    record (ClearColorImage moments_image LAYOUT_GENERAL color) ;;
    set_image_layout prev_image LAYOUT_GENERAL LAYOUT_SHADER_READ_ONLY_OPTIMAL ;;
    set_image_layout output_image LAYOUT_GENERAL LAYOUT_SHADER_READ_ONLY_OPTIMAL ;;
    set_image_layout moments_image LAYOUT_GENERAL LAYOUT_SHADER_READ_ONLY_OPTIMAL ;;
    assign (set_first_frame false)
  else ret tt.

Definition ray_trace (cr : CommonResources) (backend : Backend) (ddgi : DDGI)
  : M unit :=
  self <- this ;;
  pipeline_barrier
    [memory_barrier ACCESS_SHADER_WRITE_BIT ACCESS_SHADER_READ_BIT]
    [image_memory_barrier RayTraceImage LAYOUT_UNDEFINED LAYOUT_GENERAL
       ACCESS_SHADER_READ_BIT ACCESS_SHADER_WRITE_BIT]
    []
    PIPELINE_STAGE_FRAGMENT_SHADER_BIT
    PIPELINE_STAGE_RAY_TRACING_SHADER_BIT_KHR ;;
  record (BindPipeline BIND_POINT_RAY_TRACING_KHR RayTracePipeline) ;;
  let push_constants :=
    {| rt_bias := bias (m_ray_trace self);
       rt_trim := trim (m_ray_trace self);
       rt_num_frames := num_frames cr;
       rt_g_buffer_mip := m_g_buffer_mip self;
       rt_sample_gi :=
         flag (sample_gi (m_ray_trace self) && negb (m_first_frame self));
       rt_approximate_with_ddgi :=
         flag (approximate_with_ddgi (m_ray_trace self)
               && negb (m_first_frame self));
       rt_gi_intensity := gi_intensity (m_ray_trace self);
       rt_rough_ddgi_intensity := rough_ddgi_intensity (m_ray_trace self);
       rt_ibl_indirect_specular_intensity :=
         ibl_indirect_specular_intensity (m_ray_trace self) |} in
  record (PushConstantsCmd
            (Z.lor SHADER_STAGE_RAYGEN_BIT_KHR SHADER_STAGE_CLOSEST_HIT_BIT_KHR)
            (PushRayTrace push_constants)) ;;
  let dynamic_offsets :=
    [wrap_u32 (ubo_size cr * current_frame_idx backend);
     current_ubo_offset ddgi] in
  record (BindDescriptorSets BIND_POINT_RAY_TRACING_KHR
            [SceneDs; RayTraceWriteDs; PerFrameDs; GBufferOutputDs; SkyboxDs;
             BlueNoiseDs; DDGIReadDs]
            dynamic_offsets) ;;
  record (TraceRays (m_width self) (m_height self) 1) ;;
  set_image_layout RayTraceImage LAYOUT_GENERAL LAYOUT_SHADER_READ_ONLY_OPTIMAL.

Definition reset_args : M unit :=
  pipeline_barrier [] []
    [buffer_memory_barrier DenoiseTileCoordsBuffer 0 WHOLE_SIZE
       ACCESS_SHADER_READ_BIT ACCESS_SHADER_WRITE_BIT;
     buffer_memory_barrier DenoiseDispatchArgsBuffer 0 WHOLE_SIZE
       (Z.lor ACCESS_SHADER_READ_BIT ACCESS_INDIRECT_COMMAND_READ_BIT)
       ACCESS_SHADER_WRITE_BIT;
     buffer_memory_barrier CopyTileCoordsBuffer 0 WHOLE_SIZE
       ACCESS_SHADER_READ_BIT ACCESS_SHADER_WRITE_BIT;
     buffer_memory_barrier CopyDispatchArgsBuffer 0 WHOLE_SIZE
       (Z.lor ACCESS_SHADER_READ_BIT ACCESS_INDIRECT_COMMAND_READ_BIT)
       ACCESS_SHADER_WRITE_BIT]
    (Z.lor PIPELINE_STAGE_COMPUTE_SHADER_BIT PIPELINE_STAGE_DRAW_INDIRECT_BIT)
    PIPELINE_STAGE_COMPUTE_SHADER_BIT ;;
  record (BindPipeline BIND_POINT_COMPUTE ResetArgsPipeline) ;;
  record (BindDescriptorSets BIND_POINT_COMPUTE [IndirectBufferDs] []) ;;
  record (Dispatch 1 1 1).

Definition temporal_accumulation (cr : CommonResources) (backend : Backend)
  : M unit :=
  self <- this ;;
  let cur := Z.b2z (ping_pong cr) in
  let prev := Z.b2z (negb (ping_pong cr)) in
  pipeline_barrier
    [memory_barrier ACCESS_SHADER_READ_BIT ACCESS_SHADER_WRITE_BIT]
    [image_memory_barrier (CurrentOutputImage cur) LAYOUT_UNDEFINED
       LAYOUT_GENERAL ACCESS_SHADER_READ_BIT ACCESS_SHADER_WRITE_BIT;
     image_memory_barrier (CurrentMomentsImage cur) LAYOUT_UNDEFINED
       LAYOUT_GENERAL ACCESS_SHADER_READ_BIT ACCESS_SHADER_WRITE_BIT]
    [buffer_memory_barrier DenoiseTileCoordsBuffer 0 WHOLE_SIZE
       ACCESS_SHADER_WRITE_BIT ACCESS_SHADER_WRITE_BIT;
     buffer_memory_barrier DenoiseDispatchArgsBuffer 0 WHOLE_SIZE
       ACCESS_SHADER_WRITE_BIT ACCESS_SHADER_WRITE_BIT;
     buffer_memory_barrier CopyTileCoordsBuffer 0 WHOLE_SIZE
       ACCESS_SHADER_WRITE_BIT ACCESS_SHADER_WRITE_BIT;
     buffer_memory_barrier CopyDispatchArgsBuffer 0 WHOLE_SIZE
       ACCESS_SHADER_WRITE_BIT ACCESS_SHADER_WRITE_BIT]
    PIPELINE_STAGE_COMPUTE_SHADER_BIT
    PIPELINE_STAGE_COMPUTE_SHADER_BIT ;;
  record (BindPipeline BIND_POINT_COMPUTE TemporalAccumulationPipeline) ;;
  let push_constants :=
    {| ta_camera_delta := camera_delta cr;
       ta_frame_time := frame_time cr;
       ta_alpha := alpha (m_temporal_accumulation self);
       ta_moments_alpha := moments_alpha (m_temporal_accumulation self);
       ta_g_buffer_mip := m_g_buffer_mip self;
       ta_approximate_with_ddgi :=
         flag (approximate_with_ddgi (m_ray_trace self)
               && negb (m_first_frame self)) |} in
  record (PushConstantsCmd SHADER_STAGE_COMPUTE_BIT
            (PushTemporalAccumulation push_constants)) ;;
  let dynamic_offset := wrap_u32 (ubo_size cr * current_frame_idx backend) in
  record (BindDescriptorSets BIND_POINT_COMPUTE
            [CurrentWriteDs cur;
             GBufferOutputDs;
             GBufferHistoryDs;
             RayTraceReadDs;
             (if blur_as_input (m_temporal_accumulation self)
              then PrevReadDs prev else CurrentReadDs prev);
             PerFrameDs;
             IndirectBufferDs]
            [dynamic_offset]) ;;
  record (Dispatch
            (ceil_div (m_width self) TEMPORAL_ACCUMULATION_NUM_THREADS_X)
            (ceil_div (m_height self) TEMPORAL_ACCUMULATION_NUM_THREADS_Y)
            1) ;;
  pipeline_barrier
    [memory_barrier ACCESS_SHADER_WRITE_BIT ACCESS_SHADER_READ_BIT]
    [image_memory_barrier (CurrentOutputImage cur) LAYOUT_GENERAL
       LAYOUT_SHADER_READ_ONLY_OPTIMAL ACCESS_SHADER_WRITE_BIT
       ACCESS_SHADER_READ_BIT;
     image_memory_barrier (CurrentMomentsImage cur) LAYOUT_GENERAL
       LAYOUT_SHADER_READ_ONLY_OPTIMAL ACCESS_SHADER_WRITE_BIT
       ACCESS_SHADER_READ_BIT]
    [buffer_memory_barrier DenoiseTileCoordsBuffer 0 WHOLE_SIZE
       ACCESS_SHADER_WRITE_BIT ACCESS_SHADER_READ_BIT;
     buffer_memory_barrier DenoiseDispatchArgsBuffer 0 WHOLE_SIZE
       ACCESS_SHADER_WRITE_BIT ACCESS_INDIRECT_COMMAND_READ_BIT;
     buffer_memory_barrier CopyTileCoordsBuffer 0 WHOLE_SIZE
       ACCESS_SHADER_WRITE_BIT ACCESS_SHADER_READ_BIT;
     buffer_memory_barrier CopyDispatchArgsBuffer 0 WHOLE_SIZE
       ACCESS_SHADER_WRITE_BIT ACCESS_INDIRECT_COMMAND_READ_BIT]
    PIPELINE_STAGE_COMPUTE_SHADER_BIT
    (Z.lor PIPELINE_STAGE_COMPUTE_SHADER_BIT PIPELINE_STAGE_DRAW_INDIRECT_BIT).

(** The local variables [ping_pong], [read_idx], [write_idx] of
    [a_trous_filter]. *)
Record ATrousLocals : Type := {
  loc_ping_pong : bool;
  loc_read_idx : Z;
  loc_write_idx : Z
}.

Definition a_trous_locals_init : ATrousLocals :=
  {| loc_ping_pong := false; loc_read_idx := 0; loc_write_idx := 1 |}.

(** The feedback copy of one iteration's output into the history image. *)
Definition feedback_copy (write_idx : Z) : M unit :=
  self <- this ;;
  set_image_layout (ATrousImage write_idx) LAYOUT_GENERAL
    LAYOUT_TRANSFER_SRC_OPTIMAL ;;
  set_image_layout PrevImage LAYOUT_SHADER_READ_ONLY_OPTIMAL
    LAYOUT_TRANSFER_DST_OPTIMAL ;;
  record (CopyImage (ATrousImage write_idx) LAYOUT_TRANSFER_SRC_OPTIMAL
            PrevImage LAYOUT_TRANSFER_DST_OPTIMAL
            (m_width self) (m_height self) 1) ;;
  set_image_layout (ATrousImage write_idx) LAYOUT_TRANSFER_SRC_OPTIMAL
    LAYOUT_GENERAL ;;
  set_image_layout PrevImage LAYOUT_TRANSFER_DST_OPTIMAL
    LAYOUT_SHADER_READ_ONLY_OPTIMAL.

(** The barriers, the copy-tiles dispatch and the filter dispatch of
    iteration [i]: the loop body up to [ping_pong = !ping_pong]. *)
Definition a_trous_dispatches (cr : CommonResources) (i : Z)
  (read_idx write_idx : Z) : M unit :=
  self <- this ;;
  (if i =? 0 then
     pipeline_barrier
       [memory_barrier ACCESS_SHADER_WRITE_BIT ACCESS_SHADER_READ_BIT]
       [image_memory_barrier (ATrousImage write_idx) LAYOUT_UNDEFINED
          LAYOUT_GENERAL ACCESS_SHADER_READ_BIT ACCESS_SHADER_WRITE_BIT]
       []
       PIPELINE_STAGE_COMPUTE_SHADER_BIT PIPELINE_STAGE_COMPUTE_SHADER_BIT
   else
     pipeline_barrier
       [memory_barrier ACCESS_SHADER_WRITE_BIT ACCESS_SHADER_READ_BIT]
       [image_memory_barrier (ATrousImage read_idx) LAYOUT_GENERAL
          LAYOUT_SHADER_READ_ONLY_OPTIMAL ACCESS_SHADER_WRITE_BIT
          ACCESS_SHADER_READ_BIT;
        image_memory_barrier (ATrousImage write_idx) LAYOUT_UNDEFINED
          LAYOUT_GENERAL ACCESS_SHADER_READ_BIT ACCESS_SHADER_WRITE_BIT]
       []
       PIPELINE_STAGE_COMPUTE_SHADER_BIT PIPELINE_STAGE_COMPUTE_SHADER_BIT) ;;
  let input_ds :=
    if i =? 0 then OutputOnlyReadDs (Z.b2z (ping_pong cr))
    else ATrousReadDs read_idx in
  record (BindPipeline BIND_POINT_COMPUTE CopyTilesPipeline) ;;
  record (BindDescriptorSets BIND_POINT_COMPUTE
            [ATrousWriteDs write_idx; input_ds; IndirectBufferDs] []) ;;
  record (DispatchIndirect CopyDispatchArgsBuffer 0) ;;
  record (BindPipeline BIND_POINT_COMPUTE ATrousPipeline) ;;
  let push_constants :=
    {| at_radius := radius (m_a_trous self);
       at_step_size := shl_i32 1 i;
       at_phi_color := phi_color (m_a_trous self);
       at_phi_normal := phi_normal (m_a_trous self);
       at_sigma_depth := sigma_depth (m_a_trous self);
       at_g_buffer_mip := m_g_buffer_mip self;
       at_approximate_with_ddgi :=
         flag (approximate_with_ddgi (m_ray_trace self)
               && negb (m_first_frame self)) |} in
  record (PushConstantsCmd SHADER_STAGE_COMPUTE_BIT (PushATrous push_constants)) ;;
  record (BindDescriptorSets BIND_POINT_COMPUTE
            [ATrousWriteDs write_idx; input_ds; GBufferOutputDs;
             IndirectBufferDs] []) ;;
  record (DispatchIndirect DenoiseDispatchArgsBuffer 0).

(** One turn of the [for] loop of [a_trous_filter]. *)
Definition a_trous_iteration (cr : CommonResources) (i : Z) (loc : ATrousLocals)
  : M ATrousLocals :=
  self <- this ;;
  let read_idx := Z.b2z (loc_ping_pong loc) in
  let write_idx := Z.b2z (negb (loc_ping_pong loc)) in
  a_trous_dispatches cr i read_idx write_idx ;;
  let ping_pong' := negb (loc_ping_pong loc) in
  (if (feedback_iteration (m_a_trous self) =? i)
      && blur_as_input (m_temporal_accumulation self)
   then feedback_copy write_idx
   else ret tt) ;;
  ret {| loc_ping_pong := ping_pong';
         loc_read_idx := read_idx;
         loc_write_idx := write_idx |}.

(** [count] turns of the loop starting at loop variable [i]. *)
Fixpoint a_trous_loop (cr : CommonResources) (count : nat) (i : Z)
  (loc : ATrousLocals) : M ATrousLocals :=
  match count with
  | O => ret loc
  | S count' =>
      loc' <- a_trous_iteration cr i loc ;;
      a_trous_loop cr count' (i + 1) loc'
  end.

(** [for (int i = 0; i < m_a_trous.filter_iterations; i++)] runs
    [filter_iterations] turns, none when that is not positive. *)
Definition a_trous_filter (cr : CommonResources) : M unit :=
  self <- this ;;
  loc <- a_trous_loop cr (Z.to_nat (filter_iterations (m_a_trous self))) 0
           a_trous_locals_init ;;
  assign (set_read_idx (loc_write_idx loc)) ;;
  pipeline_barrier
    [memory_barrier ACCESS_SHADER_WRITE_BIT ACCESS_SHADER_READ_BIT]
    [image_memory_barrier (ATrousImage (loc_write_idx loc)) LAYOUT_GENERAL
       LAYOUT_SHADER_READ_ONLY_OPTIMAL ACCESS_SHADER_WRITE_BIT
       ACCESS_SHADER_READ_BIT]
    []
    PIPELINE_STAGE_COMPUTE_SHADER_BIT
    (Z.lor PIPELINE_STAGE_FRAGMENT_SHADER_BIT PIPELINE_STAGE_COMPUTE_SHADER_BIT).

Definition upsample (backend : Backend) : M unit :=
  self <- this ;;
  set_image_layout UpsampleImage LAYOUT_UNDEFINED LAYOUT_GENERAL ;;
  record (BindPipeline BIND_POINT_COMPUTE UpsamplePipeline) ;;
  let push_constants := {| up_g_buffer_mip := m_g_buffer_mip self |} in
  record (PushConstantsCmd SHADER_STAGE_COMPUTE_BIT (PushUpsample push_constants)) ;;
  record (BindDescriptorSets BIND_POINT_COMPUTE
            [UpsampleWriteDs; ATrousReadDs (read_idx (m_a_trous self));
             GBufferOutputDs] []) ;;
  let NUM_THREADS_X := 8 in
  let NUM_THREADS_Y := 8 in
  record (Dispatch (ceil_div (swap_chain_width backend) NUM_THREADS_X)
            (ceil_div (swap_chain_height backend) NUM_THREADS_Y) 1) ;;
  set_image_layout UpsampleImage LAYOUT_GENERAL LAYOUT_SHADER_READ_ONLY_OPTIMAL.

(** [RayTracedReflections::render] *)
Definition render (cr : CommonResources) (backend : Backend) (ddgi : DDGI)
  : M unit :=
  clear_images cr ;;
  ray_trace cr backend ddgi ;;
  self <- this ;;
  if m_denoise self then
    reset_args ;;
    temporal_accumulation cr backend ;;
    a_trous_filter cr ;;
    self' <- this ;;
    if negb (scale_eqb (m_scale self') RAY_TRACE_SCALE_FULL_RES)
    then upsample backend
    else ret tt
  else ret tt.

(** [RayTracedReflections::output_ds] *)
Definition output_ds (cr : CommonResources) (self : RayTracedReflections)
  : DescriptorSet :=
  if m_denoise self then
    match m_current_output self with
    | OUTPUT_RAY_TRACE => RayTraceReadDs
    | OUTPUT_TEMPORAL_ACCUMULATION => OutputOnlyReadDs (Z.b2z (ping_pong cr))
    | OUTPUT_ATROUS => ATrousReadDs (read_idx (m_a_trous self))
    | OUTPUT_UPSAMPLE =>
        if scale_eqb (m_scale self) RAY_TRACE_SCALE_FULL_RES
        then ATrousReadDs (read_idx (m_a_trous self))
        else UpsampleReadDs
    end
  else RayTraceReadDs.

(** ** The settings window *)

(** The values the widgets of [RayTracedReflections::gui] leave in the
    fields after one pass over the window. *)
Record GuiValues : Type := {
  gui_denoise : bool;
  gui_blur_as_input : bool;
  gui_sample_gi : bool;
  gui_gi_intensity : float32;
  gui_approximate_with_ddgi : bool;
  gui_rough_ddgi_intensity : float32;
  gui_ibl_indirect_specular_intensity : float32;
  gui_bias : float32;
  gui_trim : float32;
  gui_alpha : float32;
  gui_moments_alpha : float32;
  gui_phi_color : float32;
  gui_phi_normal : float32;
  gui_sigma_depth : float32
}.

(** [RayTracedReflections::gui]: the two intensity sliders are shown only
    while their checkbox is ticked. *)
Definition gui (g : GuiValues) (self : RayTracedReflections)
  : RayTracedReflections :=
  {| m_scale := m_scale self; m_g_buffer_mip := m_g_buffer_mip self;
     m_width := m_width self; m_height := m_height self;
     m_first_frame := m_first_frame self;
     m_denoise := gui_denoise g;
     m_current_output := m_current_output self;
     m_ray_trace :=
       {| sample_gi := gui_sample_gi g;
          approximate_with_ddgi := gui_approximate_with_ddgi g;
          bias := gui_bias g;
          trim := gui_trim g;
          gi_intensity :=
            if gui_sample_gi g then gui_gi_intensity g
            else gi_intensity (m_ray_trace self);
          rough_ddgi_intensity :=
            if gui_approximate_with_ddgi g then gui_rough_ddgi_intensity g
            else rough_ddgi_intensity (m_ray_trace self);
          ibl_indirect_specular_intensity :=
            gui_ibl_indirect_specular_intensity g |};
     m_temporal_accumulation :=
       {| blur_as_input := gui_blur_as_input g;
          alpha := gui_alpha g;
          moments_alpha := gui_moments_alpha g |};
     m_a_trous :=
       {| radius := radius (m_a_trous self);
          filter_iterations := filter_iterations (m_a_trous self);
          feedback_iteration := feedback_iteration (m_a_trous self);
          read_idx := read_idx (m_a_trous self);
          phi_color := gui_phi_color g;
          phi_normal := gui_phi_normal g;
          sigma_depth := gui_sigma_depth g |} |}.

(** ** Reading a command buffer: what each dispatch runs with *)

(** Binding state of a command buffer.  Pipelines and descriptor sets are
    bound per bind point; push constants are shared. *)
Record Bindings : Type := {
  compute_pipeline : option Pipeline;
  ray_tracing_pipeline : option Pipeline;
  compute_sets : list DescriptorSet;
  ray_tracing_sets : list DescriptorSet;
  pushed : option PushConstants
}.

Definition no_bindings : Bindings :=
  {| compute_pipeline := None; ray_tracing_pipeline := None;
     compute_sets := []; ray_tracing_sets := []; pushed := None |}.

Inductive Work : Type :=
| WorkDirect (x y z : Z)
| WorkIndirect (buf : Buffer) (offset : Z)
| WorkTrace (width height depth : Z).

(** One launched piece of GPU work: the pipeline, the descriptor sets its
    layout sees, the push constants its layout declares, the work size. *)
Record DispatchRecord : Type := {
  d_pipeline : option Pipeline;
  d_sets : list DescriptorSet;
  d_push : option PushConstants;
  d_work : Work
}.

(** [vkCmdBindDescriptorSets] with first set 0 replaces the leading sets. *)
Definition bind_sets (old new : list DescriptorSet) : list DescriptorSet :=
  new ++ skipn (length new) old.

Definition launch (b : Bindings) (bp : BindPoint) (w : Work) : DispatchRecord :=
  let p := match bp with
           | BIND_POINT_COMPUTE => compute_pipeline b
           | BIND_POINT_RAY_TRACING_KHR => ray_tracing_pipeline b
           end in
  let sets := match bp with
              | BIND_POINT_COMPUTE => compute_sets b
              | BIND_POINT_RAY_TRACING_KHR => ray_tracing_sets b
              end in
  {| d_pipeline := p;
     d_sets := match p with
               | Some q => firstn (pipeline_set_count q) sets
               | None => []
               end;
     d_push := match p with
               | Some q => if pipeline_has_push_constants q then pushed b else None
               | None => None
               end;
     d_work := w |}.

(** Effect of one command on the binding state, and the work it launches. *)
Definition track (b : Bindings) (c : Cmd) : Bindings * option DispatchRecord :=
  match c with
  | BindPipeline BIND_POINT_COMPUTE p =>
      ({| compute_pipeline := Some p;
          ray_tracing_pipeline := ray_tracing_pipeline b;
          compute_sets := compute_sets b;
          ray_tracing_sets := ray_tracing_sets b;
          pushed := pushed b |}, None)
  | BindPipeline BIND_POINT_RAY_TRACING_KHR p =>
      ({| compute_pipeline := compute_pipeline b;
          ray_tracing_pipeline := Some p;
          compute_sets := compute_sets b;
          ray_tracing_sets := ray_tracing_sets b;
          pushed := pushed b |}, None)
  | BindDescriptorSets BIND_POINT_COMPUTE sets _ =>
      ({| compute_pipeline := compute_pipeline b;
          ray_tracing_pipeline := ray_tracing_pipeline b;
          compute_sets := bind_sets (compute_sets b) sets;
          ray_tracing_sets := ray_tracing_sets b;
          pushed := pushed b |}, None)
  | BindDescriptorSets BIND_POINT_RAY_TRACING_KHR sets _ =>
      ({| compute_pipeline := compute_pipeline b;
          ray_tracing_pipeline := ray_tracing_pipeline b;
          compute_sets := compute_sets b;
          ray_tracing_sets := bind_sets (ray_tracing_sets b) sets;
          pushed := pushed b |}, None)
  | PushConstantsCmd _ pc =>
      ({| compute_pipeline := compute_pipeline b;
          ray_tracing_pipeline := ray_tracing_pipeline b;
          compute_sets := compute_sets b;
          ray_tracing_sets := ray_tracing_sets b;
          pushed := Some pc |}, None)
  | Dispatch x y z => (b, Some (launch b BIND_POINT_COMPUTE (WorkDirect x y z)))
  | DispatchIndirect buf off =>
      (b, Some (launch b BIND_POINT_COMPUTE (WorkIndirect buf off)))
  | TraceRays w h d =>
      (b, Some (launch b BIND_POINT_RAY_TRACING_KHR (WorkTrace w h d)))
  | _ => (b, None)
  end.

(** The work launched by a command list, in order, from binding state [b]. *)
Fixpoint dispatch_log_from (b : Bindings) (cmds : list Cmd)
  : list DispatchRecord :=
  match cmds with
  | [] => []
  | c :: rest =>
      let '(b', l) := track b c in
      match l with
      | Some r => r :: dispatch_log_from b' rest
      | None => dispatch_log_from b' rest
      end
  end.

(** Binding state after a command list. *)
Definition bindings_after (b : Bindings) (cmds : list Cmd) : Bindings :=
  fold_left (fun b c => fst (track b c)) cmds b.

Definition runs (p : Pipeline) (r : DispatchRecord) : bool :=
  match d_pipeline r with
  | Some q => Pipeline_eqb p q
  | None => false
  end.

(** The launches of pipeline [p] in a command list. *)
Definition dispatches_of (p : Pipeline) (b : Bindings) (cmds : list Cmd)
  : list DispatchRecord :=
  filter (runs p) (dispatch_log_from b cmds).

(** The images a launch can write: the storage images of its sets. *)
Definition written_images (r : DispatchRecord) : list Image :=
  flat_map ds_storage_images (d_sets r).

(** The images a launch samples, per descriptor set. *)
Definition sampled_images (r : DispatchRecord) : list Image :=
  flat_map ds_sampled_images (d_sets r).

(** The images produced by the passes of a command list. *)
Definition produced_images (b : Bindings) (cmds : list Cmd) : list Image :=
  flat_map written_images (dispatch_log_from b cmds).

Definition step_size_of (r : DispatchRecord) : option Z :=
  match d_push r with
  | Some (PushATrous pc) => Some (at_step_size pc)
  | _ => None
  end.

(** ** Pass order *)

Definition has_bits (mask bits : Z) : bool := negb (Z.land mask bits =? 0).

Definition Buffer_eqb (a b : Buffer) : bool :=
  if Buffer_eq_dec a b then true else false.

(** Does the barrier list carry, for buffer [buf], a barrier from shader
    writes to indirect command reads? *)
Definition makes_args_readable (buf : Buffer) (bs : list VkBufferMemoryBarrier)
  : bool :=
  existsb (fun bb => Buffer_eqb (bb_buffer bb) buf
                     && has_bits (bb_src_access bb) ACCESS_SHADER_WRITE_BIT
                     && has_bits (bb_dst_access bb) ACCESS_INDIRECT_COMMAND_READ_BIT)
          bs.

Definition is_args_barrier (c : Cmd) : bool :=
  match c with
  | PipelineBarrier _ _ buf src_stage dst_stage =>
      makes_args_readable DenoiseDispatchArgsBuffer buf
      && makes_args_readable CopyDispatchArgsBuffer buf
      && has_bits src_stage PIPELINE_STAGE_COMPUTE_SHADER_BIT
      && has_bits dst_stage PIPELINE_STAGE_DRAW_INDIRECT_BIT
  | _ => false
  end.

(** What a frame's command list does, pass by pass: each launch with its
    pipeline and work size, and each barrier that hands the two dispatch
    argument buffers from shader writes to indirect reads. *)
Inductive PassEvent : Type :=
| Launch (p : option Pipeline) (w : Work)
| ArgsBarrier.

Fixpoint pass_events_from (b : Bindings) (cmds : list Cmd) : list PassEvent :=
  match cmds with
  | [] => []
  | c :: rest =>
      let '(b', l) := track b c in
      match l with
      | Some r => Launch (d_pipeline r) (d_work r) :: pass_events_from b' rest
      | None =>
          if is_args_barrier c then ArgsBarrier :: pass_events_from b' rest
          else pass_events_from b' rest
      end
  end.

(** The copy-tiles and filter launches of [n] A-Trous iterations. *)
Definition a_trous_events (n : nat) : list PassEvent :=
  concat (repeat [Launch (Some CopyTilesPipeline)
                    (WorkIndirect CopyDispatchArgsBuffer 0);
                  Launch (Some ATrousPipeline)
                    (WorkIndirect DenoiseDispatchArgsBuffer 0)] n).

(** ** The frame loop of [HybridRendering::update], as far as it concerns
    the reflections denoiser *)

(** What one frame brings from outside: the choices made in the settings
    window, and the collaborators' values for this frame. *)
Record FrameInput : Type := {
  fi_output : option OutputType;
  fi_scale : option RayTraceScale;
  fi_gui : GuiValues;
  fi_backend : Backend;
  fi_ddgi : DDGI;
  fi_camera_delta : float32 * float32 * float32;
  fi_frame_time : float32
}.

Record Host : Type := {
  common : CommonResources;
  reflections : RayTracedReflections
}.

(** The window code before rendering: the output combo box calls
    [set_current_output], picking a scale destroys the instance and
    constructs a new one, then the instance's own [gui] runs. *)
Definition settings_window (h : HeaderDefaults) (inp : FrameInput)
  (r : RayTracedReflections) : RayTracedReflections :=
  let r1 := match fi_output inp with
            | Some t => set_current_output t r
            | None => r
            end in
  let r2 := match fi_scale inp with
            | Some s => RayTracedReflections_new (fi_backend inp) h s
            | None => r1
            end in
  gui (fi_gui inp) r2.

(** The values [CommonResources] holds while the frame is recorded. *)
Definition frame_common (inp : FrameInput) (cr : CommonResources)
  : CommonResources :=
  {| ping_pong := ping_pong cr; first_frame := first_frame cr;
     num_frames := num_frames cr;
     camera_delta := fi_camera_delta inp; frame_time := fi_frame_time inp;
     ubo_size := ubo_size cr |}.

(** The commands the denoiser records in the frame. *)
Definition frame_commands (h : HeaderDefaults) (inp : FrameInput) (a : Host)
  : list Cmd :=
  commands (render (frame_common inp (common a)) (fi_backend inp) (fi_ddgi inp)
              (settings_window h inp (reflections a))).

(** One call of [update]: settings window, render, submit, then
    [num_frames++], [first_frame = false], [ping_pong = !ping_pong]. *)
Definition update (h : HeaderDefaults) (inp : FrameInput) (a : Host) : Host :=
  let cr := frame_common inp (common a) in
  let r := object (render cr (fi_backend inp) (fi_ddgi inp)
                     (settings_window h inp (reflections a))) in
  {| common :=
       {| ping_pong := negb (ping_pong cr);
          first_frame := if first_frame cr then false else first_frame cr;
          num_frames := wrap_u32 (num_frames cr + 1);
          camera_delta := camera_delta cr; frame_time := frame_time cr;
          ubo_size := ubo_size cr |};
     reflections := r |}.

(** ** What the recorded commands do to the images *)

Section GpuSemantics.

(** Contents of an image and of a buffer, and the collaborators' resources
    (scene, G-buffer, per-frame uniforms), all left abstract. *)
Variable texels : Type.
Variable bufdata : Type.
Variable external : Type.

Record Memory : Type := {
  images : Image -> texels;
  buffers : Buffer -> bufdata
}.

(** Everything a shader invocation can see. *)
Record ShaderInput : Type := {
  si_launch : DispatchRecord;
  si_sampled : list texels;
  si_storage : list texels;
  si_buffers : list bufdata;
  si_indirect_args : option bufdata;
  si_external : external
}.

(** The shaders are not host code: [shader_image inp k] is what a launch
    leaves in its [k]-th storage image, [shader_buffer inp k] in its [k]-th
    storage buffer.  [cleared c] is an image filled with the colour [c];
    [discarded t] is what may remain of contents [t] after a transition
    out of the undefined layout. *)
Variable shader_image : ShaderInput -> nat -> texels.
Variable shader_buffer : ShaderInput -> nat -> bufdata.
Variable cleared : float32 * float32 * float32 * float32 -> texels.
Variable discarded : texels -> texels.

Fixpoint index_of {A : Type} (eq_dec : forall a b : A, {a = b} + {a <> b})
  (x : A) (l : list A) : option nat :=
  match l with
  | [] => None
  | y :: rest =>
      if eq_dec x y then Some O
      else option_map S (index_of eq_dec x rest)
  end.

Definition set_image (img : Image) (t : texels) (m : Memory) : Memory :=
  {| images := fun i => if Image_eq_dec i img then t else images m i;
     buffers := buffers m |}.

Definition shader_input (ext : external) (r : DispatchRecord) (m : Memory)
  : ShaderInput :=
  {| si_launch := r;
     si_sampled := map (images m) (sampled_images r);
     si_storage := map (images m) (written_images r);
     si_buffers := map (buffers m) (flat_map ds_storage_buffers (d_sets r));
     si_indirect_args := match d_work r with
                         | WorkIndirect buf _ => Some (buffers m buf)
                         | _ => None
                         end;
     si_external := ext |}.

(** A launch rewrites the storage images and storage buffers of its
    descriptor sets and nothing else. *)
Definition run (ext : external) (r : DispatchRecord) (m : Memory) : Memory :=
  let inp := shader_input ext r m in
  {| images := fun i =>
       match index_of Image_eq_dec i (written_images r) with
       | Some k => shader_image inp k
       | None => images m i
       end;
     buffers := fun b =>
       match index_of Buffer_eq_dec b
               (flat_map ds_storage_buffers (d_sets r)) with
       | Some k => shader_buffer inp k
       | None => buffers m b
       end |}.

Definition transition (img : Image) (old_layout : ImageLayout) (m : Memory)
  : Memory :=
  match old_layout with
  | LAYOUT_UNDEFINED => set_image img (discarded (images m img)) m
  | _ => m
  end.

(** Effect of a command other than a launch.  The one [CopyImage] of the
    denoiser copies the whole extent between images of equal size. *)
Definition effect (c : Cmd) (m : Memory) : Memory :=
  match c with
  | PipelineBarrier _ img _ _ _ =>
      fold_left (fun m ib => transition (ib_image ib) (ib_old_layout ib) m) img m
  | SetImageLayout img old_layout _ => transition img old_layout m
  | ClearColorImage img _ color => set_image img (cleared color) m
  | CopyImage src _ dst _ _ _ _ => set_image dst (images m src) m
  | _ => m
  end.

Definition exec_cmd (ext : external) (s : Bindings * Memory) (c : Cmd)
  : Bindings * Memory :=
  let '(b', l) := track (fst s) c in
  match l with
  | Some r => (b', run ext r (snd s))
  | None => (b', effect c (snd s))
  end.

(** Executing a submitted command list. *)
Definition exec (ext : external) (cmds : list Cmd) (s : Bindings * Memory)
  : Bindings * Memory :=
  fold_left (exec_cmd ext) cmds s.

(** The image a consumer samples through a descriptor set with a single
    combined image sampler. *)
Definition exposed (ds : DescriptorSet) (m : Memory) : list texels :=
  map (images m) (ds_sampled_images ds).

End GpuSemantics.

Arguments images {texels bufdata} _ _.
Arguments buffers {texels bufdata} _ _.
Arguments set_image {texels bufdata} _ _ _.
Arguments transition {texels bufdata} _ _ _ _.
Arguments effect {texels bufdata} _ _ _ _.
Arguments run {texels bufdata external} _ _ _ _ _.
Arguments exec_cmd {texels bufdata external} _ _ _ _ _ _ _.
Arguments exec {texels bufdata external} _ _ _ _ _ _ _.
Arguments exposed {texels bufdata} _ _.

(** ** The launches of the A-Trous loop, in closed form

    These restate what the loop records, indexed by the loop variable; they
    serve to state the loop invariant, and [a_trous_loop_log] below proves
    them equal to what [a_trous_loop] puts in the command buffer. *)

(** The values the loop variable takes in [count] turns from [i]. *)
Fixpoint loop_indices (i : Z) (count : nat) : list Z :=
  match count with
  | O => []
  | S count' => i :: loop_indices (i + 1) count'
  end.

(** The input set of iteration [i], with the loop's [ping_pong] being the
    parity of [i]. *)
Definition a_trous_input_ds (cr : CommonResources) (i : Z) : DescriptorSet :=
  if i =? 0 then OutputOnlyReadDs (Z.b2z (ping_pong cr))
  else ATrousReadDs (Z.b2z (Z.odd i)).

(** The copy-tiles launch and the filter launch of iteration [i] as the
    GPU receives them. *)
Definition copy_tiles_launch (cr : CommonResources) (i : Z) : DispatchRecord :=
  {| d_pipeline := Some CopyTilesPipeline;
     d_sets := [ATrousWriteDs (Z.b2z (negb (Z.odd i))); a_trous_input_ds cr i;
                IndirectBufferDs];
     d_push := None;
     d_work := WorkIndirect CopyDispatchArgsBuffer 0 |}.

Definition a_trous_launch (cr : CommonResources) (self : RayTracedReflections)
  (i : Z) : DispatchRecord :=
  {| d_pipeline := Some ATrousPipeline;
     d_sets := [ATrousWriteDs (Z.b2z (negb (Z.odd i))); a_trous_input_ds cr i;
                GBufferOutputDs; IndirectBufferDs];
     d_push :=
       Some (PushATrous
               {| at_radius := radius (m_a_trous self);
                  at_step_size := shl_i32 1 i;
                  at_phi_color := phi_color (m_a_trous self);
                  at_phi_normal := phi_normal (m_a_trous self);
                  at_sigma_depth := sigma_depth (m_a_trous self);
                  at_g_buffer_mip := m_g_buffer_mip self;
                  at_approximate_with_ddgi :=
                    flag (approximate_with_ddgi (m_ray_trace self)
                          && negb (m_first_frame self)) |});
     d_work := WorkIndirect DenoiseDispatchArgsBuffer 0 |}.

Definition iteration_launches (cr : CommonResources)
  (self : RayTracedReflections) (i : Z) : list DispatchRecord :=
  [copy_tiles_launch cr i; a_trous_launch cr self i].

(** The loop's locals after one turn. *)
Definition next_locals (loc : ATrousLocals) : ATrousLocals :=
  {| loc_ping_pong := negb (loc_ping_pong loc);
     loc_read_idx := Z.b2z (loc_ping_pong loc);
     loc_write_idx := Z.b2z (negb (loc_ping_pong loc)) |}.

(** ** Concrete instances used in the examples *)

Module Sample.

Definition settings (n fb : Z) (blur gi : bool) : HeaderDefaults :=
  {| default_denoise := true;
     default_current_output := OUTPUT_UPSAMPLE;
     default_ray_trace :=
       {| sample_gi := gi; approximate_with_ddgi := gi; bias := 0; trim := 0;
          gi_intensity := 0; rough_ddgi_intensity := 0;
          ibl_indirect_specular_intensity := 0 |};
     default_temporal_accumulation :=
       {| blur_as_input := blur; alpha := 0; moments_alpha := 0 |};
     default_a_trous :=
       {| radius := 1; filter_iterations := n; feedback_iteration := fb;
          read_idx := 0; phi_color := 0; phi_normal := 0; sigma_depth := 0 |} |}.

Definition backend : Backend :=
  {| swap_chain_width := 64; swap_chain_height := 64; current_frame_idx := 0 |}.

Definition ddgi : DDGI := {| current_ubo_offset := 0 |}.

Definition cr : CommonResources :=
  {| ping_pong := false; first_frame := true; num_frames := 0;
     camera_delta := (0, 0, 0); frame_time := 0; ubo_size := 256 |}.

Definition fresh (n fb : Z) (blur gi : bool) (s : RayTraceScale)
  : RayTracedReflections :=
  RayTracedReflections_new backend (settings n fb blur gi) s.

(** A toy GPU: an image holds one number.  A launch writes, into each of
    its storage images, 100 times the number of the pipeline plus the
    step size it was pushed; clearing writes 0, discarding keeps. *)
Definition pipeline_number (p : option Pipeline) : Z :=
  match p with
  | Some RayTracePipeline => 1
  | Some ResetArgsPipeline => 2
  | Some TemporalAccumulationPipeline => 3
  | Some CopyTilesPipeline => 4
  | Some ATrousPipeline => 5
  | Some UpsamplePipeline => 6
  | None => 0
  end.

Definition toy_image (inp : ShaderInput Z unit unit) (k : nat) : Z :=
  100 * pipeline_number (d_pipeline (si_launch _ _ _ inp))
  + match step_size_of (si_launch _ _ _ inp) with
    | Some s => s
    | None => 0
    end.

Definition toy_buffer (inp : ShaderInput Z unit unit) (k : nat) : unit := tt.

Definition toy_cleared (c : float32 * float32 * float32 * float32) : Z := 0.

Definition toy_discarded (t : Z) : Z := t.

(** A memory in which every image holds [-1]. *)
Definition stale : Memory Z unit :=
  {| images := fun _ => -1; buffers := fun _ => tt |}.

Definition toy_exec (cmds : list Cmd) (m : Memory Z unit) : Memory Z unit :=
  snd (exec toy_image toy_buffer toy_cleared toy_discarded tt cmds
         (no_bindings, m)).

End Sample.

(** * Further parts of the code *)

(** ** Array indices in recorded commands *)

(** The index with which an image or a descriptor set of a two-element
    array was picked. *)
Definition image_index (img : Image) : list Z :=
  match img with
  | CurrentOutputImage i | CurrentMomentsImage i | ATrousImage i => [i]
  | _ => []
  end.

Definition ds_index (ds : DescriptorSet) : list Z :=
  match ds with
  | CurrentWriteDs i | CurrentReadDs i | PrevReadDs i | OutputOnlyReadDs i
  | ATrousReadDs i | ATrousWriteDs i => [i]
  | _ => []
  end.

Definition cmd_indices (c : Cmd) : list Z :=
  match c with
  | PipelineBarrier _ img _ _ _ =>
      flat_map (fun ib => image_index (ib_image ib)) img
  | SetImageLayout img _ _ => image_index img
  | ClearColorImage img _ _ => image_index img
  | BindDescriptorSets _ sets _ => flat_map ds_index sets
  | CopyImage src _ dst _ _ _ _ => image_index src ++ image_index dst
  | _ => []
  end.

(** Inside an array declared with two elements. *)
Definition in_bounds (i : Z) : bool := (0 <=? i) && (i <? 2).

(** ** Which images a command list can change *)

Definition is_undefined (l : ImageLayout) : bool :=
  match l with
  | LAYOUT_UNDEFINED => true
  | _ => false
  end.

(** The images whose contents a command can change, given what is bound:
    the storage images of a launch, the destination of a clear or a copy,
    and an image taken out of the undefined layout. *)
Definition cmd_targets (b : Bindings) (c : Cmd) : list Image :=
  match snd (track b c) with
  | Some r => written_images r
  | None =>
      match c with
      | PipelineBarrier _ img _ _ _ =>
          map ib_image (filter (fun ib => is_undefined (ib_old_layout ib)) img)
      | SetImageLayout img old_layout _ =>
          if is_undefined old_layout then [img] else []
      | ClearColorImage img _ _ => [img]
      | CopyImage _ _ dst _ _ _ _ => [dst]
      | _ => []
      end
  end.

Fixpoint targets_from (b : Bindings) (cmds : list Cmd) : list Image :=
  match cmds with
  | [] => []
  | c :: rest => cmd_targets b c ++ targets_from (fst (track b c)) rest
  end.

(** The image copies a command list records. *)
Definition is_copy (c : Cmd) : bool :=
  match c with
  | CopyImage _ _ _ _ _ _ _ => true
  | _ => false
  end.

Definition is_clear (c : Cmd) : bool :=
  match c with
  | ClearColorImage _ _ _ => true
  | _ => false
  end.

(** ** Image layouts

    Every barrier names the layout it expects an image to be in, every
    clear and copy names the layout of the images it touches, and every
    descriptor written by [write_descriptor_sets] names the layout its
    image has when a shader uses it: general for storage images, shader
    read only for sampled images.  [check] follows the layouts through a
    command list and stops at the first command whose stated layout is
    not the one the earlier commands left. *)

Definition Layouts : Type := Image -> ImageLayout.

Definition layout_eqb (a b : ImageLayout) : bool :=
  match a, b with
  | LAYOUT_UNDEFINED, LAYOUT_UNDEFINED
  | LAYOUT_GENERAL, LAYOUT_GENERAL
  | LAYOUT_SHADER_READ_ONLY_OPTIMAL, LAYOUT_SHADER_READ_ONLY_OPTIMAL
  | LAYOUT_TRANSFER_SRC_OPTIMAL, LAYOUT_TRANSFER_SRC_OPTIMAL
  | LAYOUT_TRANSFER_DST_OPTIMAL, LAYOUT_TRANSFER_DST_OPTIMAL => true
  | _, _ => false
  end.

Definition set_layout (img : Image) (l : ImageLayout) (m : Layouts) : Layouts :=
  fun i => if Image_eq_dec i img then l else m i.

(** A transition may start from the undefined layout, giving up the
    contents, or from the layout the image is in. *)
Definition move_layout (img : Image) (old_layout new_layout : ImageLayout)
  (m : Layouts) : option Layouts :=
  if is_undefined old_layout || layout_eqb (m img) old_layout
  then Some (set_layout img new_layout m)
  else None.

Fixpoint move_layouts (bs : list VkImageMemoryBarrier) (m : Layouts)
  : option Layouts :=
  match bs with
  | [] => Some m
  | ib :: rest =>
      match move_layout (ib_image ib) (ib_old_layout ib) (ib_new_layout ib) m with
      | Some m' => move_layouts rest m'
      | None => None
      end
  end.

(** The layouts the descriptors of a launch declare. *)
Definition launch_layouts_ok (m : Layouts) (r : DispatchRecord) : bool :=
  forallb (fun i => layout_eqb (m i) LAYOUT_GENERAL) (written_images r)
  && forallb (fun i => layout_eqb (m i) LAYOUT_SHADER_READ_ONLY_OPTIMAL)
       (sampled_images r).

Definition check_cmd (s : Bindings * Layouts) (c : Cmd)
  : option (Bindings * Layouts) :=
  let '(b', l) := track (fst s) c in
  match l with
  | Some r => if launch_layouts_ok (snd s) r then Some (b', snd s) else None
  | None =>
      match c with
      | PipelineBarrier _ img _ _ _ =>
          option_map (pair b') (move_layouts img (snd s))
      | SetImageLayout img old_layout new_layout =>
          option_map (pair b') (move_layout img old_layout new_layout (snd s))
      | ClearColorImage img layout _ =>
          if layout_eqb (snd s img) layout then Some (b', snd s) else None
      | CopyImage src src_layout dst dst_layout _ _ _ =>
          if layout_eqb (snd s src) src_layout
             && layout_eqb (snd s dst) dst_layout
          then Some (b', snd s) else None
      | _ => Some (b', snd s)
      end
  end.

Fixpoint check (cmds : list Cmd) (s : Bindings * Layouts)
  : option (Bindings * Layouts) :=
  match cmds with
  | [] => Some s
  | c :: rest =>
      match check_cmd s c with
      | Some s' => check rest s'
      | None => None
      end
  end.

(** Newly created images are in the undefined layout. *)
Definition fresh_layouts : Layouts := fun _ => LAYOUT_UNDEFINED.

(** ** Frames in sequence *)

(** [update] called once per frame input, in order. *)
Fixpoint run_frames (h : HeaderDefaults) (inps : list FrameInput) (a : Host)
  : Host :=
  match inps with
  | [] => a
  | inp :: rest => run_frames h rest (update h inp a)
  end.

(** The layouts through a sequence of frames: each frame's commands are
    checked from the layouts the frame before left; picking a scale
    replaces the instance and with it all its images. *)
Fixpoint check_frames (h : HeaderDefaults) (b : Bindings)
  (inps : list FrameInput) (a : Host) (m : Layouts) : option Layouts :=
  match inps with
  | [] => Some m
  | inp :: rest =>
      let m0 := match fi_scale inp with
                | Some _ => fresh_layouts
                | None => m
                end in
      match check (frame_commands h inp a) (b, m0) with
      | Some s => check_frames h b rest (update h inp a) (snd s)
      | None => None
      end
  end.

(** ** Buffers *)

(** [RayTracedReflections::create_buffers]: the byte size each buffer is
    created with.  [sizeof(glm::ivec2)] is 8 and [sizeof(int32_t)] is 4,
    both of type [size_t]; the products are taken in [size_t]. *)
Definition wrap_u64 (z : Z) : Z := z mod 2 ^ 64.

Definition create_buffers (self : RayTracedReflections) (buf : Buffer) : Z :=
  let tiles :=
    wrap_u64
      (wrap_u64
         (8 * ceil_div (m_width self) TEMPORAL_ACCUMULATION_NUM_THREADS_X)
       * ceil_div (m_height self) TEMPORAL_ACCUMULATION_NUM_THREADS_Y) in
  match buf with
  | DenoiseTileCoordsBuffer => tiles
  | DenoiseDispatchArgsBuffer => wrap_u64 (4 * 3)
  | CopyTileCoordsBuffer => tiles
  | CopyDispatchArgsBuffer => wrap_u64 (4 * 3)
  end.

(** The number of work groups of a direct dispatch. *)
Definition group_count (w : Work) : Z :=
  match w with
  | WorkDirect x y z => x * y * z
  | _ => 0
  end.

(** The images the temporal accumulation of later frames samples as
    history: all in the layout their descriptors declare. *)
Definition history_readable (m : Layouts) : Prop :=
  m PrevImage = LAYOUT_SHADER_READ_ONLY_OPTIMAL
  /\ forall p : bool,
       m (CurrentOutputImage (Z.b2z p)) = LAYOUT_SHADER_READ_ONLY_OPTIMAL
       /\ m (CurrentMomentsImage (Z.b2z p)) = LAYOUT_SHADER_READ_ONLY_OPTIMAL.

(** Is the Denoise checkbox ticked in every frame that renders with a new
    instance?  [new] says whether the instance is new before the first
    frame of the list; picking a scale makes a new one. *)
Fixpoint denoise_on_when_new (new : bool) (inps : list FrameInput) : bool :=
  match inps with
  | [] => true
  | inp :: rest =>
      let new' := match fi_scale inp with
                  | Some _ => true
                  | None => new
                  end in
      implb new' (gui_denoise (fi_gui inp)) && denoise_on_when_new false rest
  end.

(** The images whose layout a command changes. *)
Definition cmd_moves (c : Cmd) : list Image :=
  match c with
  | PipelineBarrier _ img _ _ _ => map ib_image img
  | SetImageLayout img _ _ => [img]
  | _ => []
  end.

(** Frame inputs to run the frame loop on. *)
Module SampleFrames.

Definition values (denoise blur : bool) : GuiValues :=
  {| gui_denoise := denoise; gui_blur_as_input := blur;
     gui_sample_gi := false; gui_gi_intensity := 0;
     gui_approximate_with_ddgi := false; gui_rough_ddgi_intensity := 0;
     gui_ibl_indirect_specular_intensity := 0; gui_bias := 0; gui_trim := 0;
     gui_alpha := 0; gui_moments_alpha := 0; gui_phi_color := 0;
     gui_phi_normal := 0; gui_sigma_depth := 0 |}.

Definition input (denoise blur : bool) (scale : option RayTraceScale)
  : FrameInput :=
  {| fi_output := None; fi_scale := scale; fi_gui := values denoise blur;
     fi_backend := Sample.backend; fi_ddgi := Sample.ddgi;
     fi_camera_delta := (0, 0, 0); fi_frame_time := 0 |}.

(** The application right after start: a new instance, no frame yet. *)
Definition host (n fb : Z) (s : RayTraceScale) : Host :=
  {| common := Sample.cr; reflections := Sample.fresh n fb true false s |}.

End SampleFrames.

(** ** What each launch is given *)

Section ShaderInputs.

Variables texels bufdata external : Type.
Variable shader_image : ShaderInput texels bufdata external -> nat -> texels.
Variable shader_buffer : ShaderInput texels bufdata external -> nat -> bufdata.
Variable cleared : float32 * float32 * float32 * float32 -> texels.
Variable discarded : texels -> texels.
Variable ext : external.

(** What the shaders of the launches of a command list see, one entry per
    launch, in order, when the list is executed from state [s]. *)
Fixpoint inputs_log (cmds : list Cmd) (s : Bindings * Memory texels bufdata)
  : list (ShaderInput texels bufdata external) :=
  match cmds with
  | [] => []
  | c :: rest =>
      match snd (track (fst s) c) with
      | Some r => [shader_input texels bufdata external ext r (snd s)]
      | None => []
      end
      ++ inputs_log rest
           (exec_cmd shader_image shader_buffer cleared discarded ext s c)
  end.

(** The entries of the launches of pipeline [p]. *)
Definition stage_inputs (p : Pipeline)
  (l : list (ShaderInput texels bufdata external))
  : list (ShaderInput texels bufdata external) :=
  filter (fun inp => runs p (si_launch _ _ _ inp)) l.

(** A chain of launches: the first samples [t] and nothing else, each
    later one samples what the one before it left in its first storage
    image. *)
Fixpoint fed (t : texels) (l : list (ShaderInput texels bufdata external))
  : Prop :=
  match l with
  | [] => True
  | inp :: rest =>
      si_sampled _ _ _ inp = [t] /\ fed (shader_image inp 0%nat) rest
  end.

(** What the last launch of a chain leaves in its first storage image;
    [t] when the chain is empty. *)
Fixpoint chain_out (t : texels) (l : list (ShaderInput texels bufdata external))
  : texels :=
  match l with
  | [] => t
  | inp :: rest => chain_out (shader_image inp 0%nat) rest
  end.

(** The filter launch whose result the feedback copy puts into the
    previous image, if the copy is made: [flt] are the filter launches of
    the turns [i], [i + 1], ... of the loop. *)
Definition feedback_launch (self : RayTracedReflections) (i : Z)
  (flt : list (ShaderInput texels bufdata external))
  : option (ShaderInput texels bufdata external) :=
  if blur_as_input (m_temporal_accumulation self)
     && (i <=? feedback_iteration (m_a_trous self))
  then nth_error flt (Z.to_nat (feedback_iteration (m_a_trous self) - i))
  else None.

End ShaderInputs.

Arguments inputs_log {texels bufdata external} _ _ _ _ _ _ _.
Arguments stage_inputs {texels bufdata external} _ _.
Arguments fed {texels bufdata external} _ _ _.
Arguments chain_out {texels bufdata external} _ _ _.
Arguments feedback_launch {texels bufdata external} _ _ _.

(** ** What the images and buffers are created for *)

Definition IMAGE_USAGE_TRANSFER_SRC_BIT : Z := 0x1.
Definition IMAGE_USAGE_TRANSFER_DST_BIT : Z := 0x2.
Definition IMAGE_USAGE_SAMPLED_BIT : Z := 0x4.
Definition IMAGE_USAGE_STORAGE_BIT : Z := 0x8.

Definition BUFFER_USAGE_STORAGE_BUFFER_BIT : Z := 0x20.
Definition BUFFER_USAGE_INDIRECT_BUFFER_BIT : Z := 0x100.

(** [RayTracedReflections::create_images]: the usage flags each image is
    created with. *)
Definition create_images_usage (img : Image) : Z :=
  match img with
  | RayTraceImage =>
      Z.lor IMAGE_USAGE_STORAGE_BIT IMAGE_USAGE_SAMPLED_BIT
  | CurrentOutputImage _ | CurrentMomentsImage _ =>
      Z.lor (Z.lor (Z.lor IMAGE_USAGE_TRANSFER_DST_BIT
                      IMAGE_USAGE_TRANSFER_SRC_BIT)
               IMAGE_USAGE_SAMPLED_BIT)
        IMAGE_USAGE_STORAGE_BIT
  | PrevImage =>
      Z.lor (Z.lor IMAGE_USAGE_TRANSFER_DST_BIT IMAGE_USAGE_SAMPLED_BIT)
        IMAGE_USAGE_STORAGE_BIT
  | ATrousImage _ =>
      Z.lor (Z.lor (Z.lor IMAGE_USAGE_TRANSFER_DST_BIT
                      IMAGE_USAGE_SAMPLED_BIT)
               IMAGE_USAGE_STORAGE_BIT)
        IMAGE_USAGE_TRANSFER_SRC_BIT
  | UpsampleImage =>
      Z.lor IMAGE_USAGE_SAMPLED_BIT IMAGE_USAGE_STORAGE_BIT
  end.

(** [RayTracedReflections::create_images]: width, height and depth of each
    image; the upsample image has the extent of the swap chain, the others
    the working extent. *)
Definition create_images_extent (backend : Backend)
  (self : RayTracedReflections) (img : Image) : Z * Z * Z :=
  match img with
  | UpsampleImage => (swap_chain_width backend, swap_chain_height backend, 1)
  | _ => (m_width self, m_height self, 1)
  end.

(** [RayTracedReflections::create_buffers]: the usage flags. *)
Definition create_buffers_usage (buf : Buffer) : Z :=
  match buf with
  | DenoiseTileCoordsBuffer | CopyTileCoordsBuffer =>
      BUFFER_USAGE_STORAGE_BUFFER_BIT
  | DenoiseDispatchArgsBuffer | CopyDispatchArgsBuffer =>
      Z.lor BUFFER_USAGE_STORAGE_BUFFER_BIT BUFFER_USAGE_INDIRECT_BUFFER_BIT
  end.

(** Size of a [VkDispatchIndirectCommand]: three [uint32_t]. *)
Definition DISPATCH_INDIRECT_COMMAND_SIZE : Z := 12.

(** A launch uses resources as they were created: storage images and
    buffers with the storage flag, sampled images with the sampled flag,
    and indirect arguments read from inside a buffer with the indirect
    flag. *)
Definition launch_usage_ok (self : RayTracedReflections) (r : DispatchRecord)
  : bool :=
  forallb (fun i => has_bits (create_images_usage i) IMAGE_USAGE_STORAGE_BIT)
    (written_images r)
  && forallb (fun i => has_bits (create_images_usage i) IMAGE_USAGE_SAMPLED_BIT)
       (sampled_images r)
  && forallb (fun b => has_bits (create_buffers_usage b)
                         BUFFER_USAGE_STORAGE_BUFFER_BIT)
       (flat_map ds_storage_buffers (d_sets r))
  && match d_work r with
     | WorkIndirect buf offset =>
         has_bits (create_buffers_usage buf) BUFFER_USAGE_INDIRECT_BUFFER_BIT
         && (0 <=? offset)
         && (offset + DISPATCH_INDIRECT_COMMAND_SIZE
             <=? create_buffers self buf)
     | _ => true
     end.

Definition extent_eqb (a b : Z * Z * Z) : bool :=
  let '(aw, ah, ad) := a in
  let '(bw, bh, bd) := b in
  (aw =? bw) && (ah =? bh) && (ad =? bd).

(** A clear targets an image with the transfer-destination flag; a copy
    goes from an image with the transfer-source flag to one with the
    transfer-destination flag and covers the whole of both. *)
Definition transfer_usage_ok (backend : Backend) (self : RayTracedReflections)
  (c : Cmd) : bool :=
  match c with
  | ClearColorImage img _ _ =>
      has_bits (create_images_usage img) IMAGE_USAGE_TRANSFER_DST_BIT
  | CopyImage src _ dst _ width height depth =>
      has_bits (create_images_usage src) IMAGE_USAGE_TRANSFER_SRC_BIT
      && has_bits (create_images_usage dst) IMAGE_USAGE_TRANSFER_DST_BIT
      && extent_eqb (width, height, depth)
           (create_images_extent backend self src)
      && extent_eqb (width, height, depth)
           (create_images_extent backend self dst)
  | _ => true
  end.

(** The work of a launch covers an image extent: a ray trace has exactly
    the extent; a direct dispatch, whose groups are 8 by 8 by 1
    ([NUM_THREADS_X], [NUM_THREADS_Y]), has just enough groups on each
    axis. *)
Definition covers (w : Work) (e : Z * Z * Z) : Prop :=
  let '(ew, eh, ed) := e in
  match w with
  | WorkDirect x y z =>
      8 * (x - 1) < ew <= 8 * x /\ 8 * (y - 1) < eh <= 8 * y /\ z = ed
  | WorkTrace width height depth =>
      width = ew /\ height = eh /\ depth = ed
  | WorkIndirect _ _ => True
  end.

(** ** Camera jitter ([main.cpp]) *)

Definition HALTON_SAMPLES : Z := 16.

(** [m_prev_jitter] and [m_current_jitter]. *)
Record Jitter : Type := {
  m_prev_jitter : float32 * float32;
  m_current_jitter : float32 * float32
}.

Section Halton.

(** The float operations of [halton_sequence] are parameters; integers
    enter them through the conversion [float_of_int]. *)
Variable float_of_int : Z -> float32.
Variables fadd fmul fdiv : float32 -> float32 -> float32.

(** The [while (index > 0)] loop of [halton_sequence], run for at most
    [fuel] turns; [None] when the turns do not suffice.  [index % base]
    and [index / base] are the truncating operations of C++ on [int];
    [floor] of the integer quotient gives the quotient back.  A zero
    [base] is not covered: the code would divide by zero. *)
Fixpoint halton_loop (fuel : nat) (base index : Z) (f result : float32)
  : option float32 :=
  if index >? 0 then
    match fuel with
    | O => None
    | S fuel' =>
        let f' := fdiv f (float_of_int base) in
        let result' :=
          fadd result (fmul f' (float_of_int (Z.rem index base))) in
        halton_loop fuel' base (Z.quot index base) f' result'
    end
  else Some result.

(** [halton_sequence(base, index)]; [f] starts at [1.0f] ([0x3F800000])
    and [result] at zero. *)
Definition halton_sequence (fuel : nat) (base index : Z) : option float32 :=
  halton_loop fuel base index 0x3F800000 0.

End Halton.

Section CameraJitter.

(** The float arithmetic is not followed: [jitter_sample i] stands for
    the [vec2] that [init] builds from [halton_sequence(2, i)] and
    [halton_sequence(3, i)], and [per_pixel v] for [v] divided
    componentwise by the window extent. *)
Variable jitter_sample : Z -> float32 * float32.
Variable per_pixel : float32 * float32 -> float32 * float32.

(** The loop at the end of [HybridRendering::init]:
    [for (int i = 1; i <= HALTON_SAMPLES; i++) m_jitter_samples.push_back(..)],
    [count] turns from [i]. *)
Fixpoint init_jitter_loop (count : nat) (i : Z) : list (float32 * float32) :=
  match count with
  | O => []
  | S count' => jitter_sample i :: init_jitter_loop count' (i + 1)
  end.

Definition m_jitter_samples : list (float32 * float32) :=
  init_jitter_loop (Z.to_nat HALTON_SAMPLES) 1.

(** The first part of [HybridRendering::update_camera].  The vector is
    indexed without a check; [None] stands for an index outside it. *)
Definition update_camera (taa_enabled : bool) (cr : CommonResources)
  (j : Jitter) : option Jitter :=
  if taa_enabled then
    let sample_idx :=
      wrap_u32 (num_frames cr mod Z.of_nat (length m_jitter_samples)) in
    match nth_error m_jitter_samples (Z.to_nat sample_idx) with
    | Some halton =>
        Some {| m_prev_jitter := m_current_jitter j;
                m_current_jitter := per_pixel halton |}
    | None => None
    end
  else Some {| m_prev_jitter := (0, 0); m_current_jitter := (0, 0) |}.

End CameraJitter.

(** ** The end of the frame: temporal anti-aliasing and tone mapping
    ([main.cpp]) *)

Module Main.

Inductive VisualizationType : Type :=
| VISUALIZATION_FINAL
| VISUALIZATION_SHADOWS
| VISUALIZATION_AMBIENT_OCCLUSION
| VISUALIZATION_REFLECTIONS
| VISUALIZATION_GLOBAL_ILLUIMINATION.

(** The images these passes transition, blit or bind themselves: the two
    TAA images of [create_output_images] and the output image of the
    deferred shading pass. *)
Inductive FrameImage : Type :=
| TaaImage (i : Z)
| DeferredOutputImage.

Definition FrameImage_eq_dec (a b : FrameImage) : {a = b} + {a <> b}.
Proof. decide equality; apply Z.eq_dec. Defined.

(** The descriptor sets they bind: the TAA sets of [main.cpp], and the
    output sets of the collaborators; the one of the reflections is what
    [RayTracedReflections::output_ds] returns. *)
Inductive FrameDs : Type :=
| TaaWriteDs (i : Z)
| TaaReadDs (i : Z)
| DeferredOutputDs
| ShadowsOutputDs
| AmbientOcclusionOutputDs
| ReflectionsOutputDs (ds : DescriptorSet)
| DdgiOutputDs
| GBufferDs.

Inductive FramePipeline : Type :=
| TaaPipeline
| CopyPipeline.

Definition FramePipeline_eqb (a b : FramePipeline) : bool :=
  match a, b with
  | TaaPipeline, TaaPipeline | CopyPipeline, CopyPipeline => true
  | _, _ => false
  end.

Inductive PipelineBindPoint : Type :=
| PIPELINE_BIND_POINT_GRAPHICS
| PIPELINE_BIND_POINT_COMPUTE.

Inductive Filter : Type :=
| FILTER_NEAREST
| FILTER_LINEAR.

Definition SHADER_STAGE_FRAGMENT_BIT : Z := 0x10.
Definition IMAGE_ASPECT_COLOR_BIT : Z := 0x1.

Definition vec2 : Type := float32 * float32.
Definition vec4 : Type := float32 * float32 * float32 * float32.

(** [0.0f] and [1.0f] as bit patterns; negation flips the sign bit. *)
Definition f_zero : float32 := 0.
Definition f_one : float32 := 0x3F800000.
Definition fneg (x : float32) : float32 := Z.lxor x 0x80000000.

Record TAAPushConstants : Type := {
  texel_size : vec4;
  current_prev_jitter : vec4;
  time_params : vec4;
  feedback_min : float32;
  feedback_max : float32;
  sharpen : Z
}.

Record ToneMapPushConstants : Type := {
  single_channel : Z;
  exposure : float32
}.

Inductive FramePush : Type :=
| PushTAA (pc : TAAPushConstants)
| PushToneMap (pc : ToneMapPushConstants).

Record VkImageBlit : Type := {
  blit_src_aspect : Z;
  blit_src_offset0 : Z * Z * Z;
  blit_src_offset1 : Z * Z * Z;
  blit_dst_aspect : Z;
  blit_dst_offset0 : Z * Z * Z;
  blit_dst_offset1 : Z * Z * Z
}.

Record VkViewport : Type := {
  vp_x : float32;
  vp_y : float32;
  vp_width : float32;
  vp_height : float32;
  vp_min_depth : float32;
  vp_max_depth : float32
}.

Record VkRect2D : Type := {
  rect_offset : Z * Z;
  rect_extent : Z * Z
}.

Inductive FrameCmd : Type :=
| SetImageLayout (img : FrameImage) (old_layout new_layout : ImageLayout)
| BlitImage (src : FrameImage) (src_layout : ImageLayout)
    (dst : FrameImage) (dst_layout : ImageLayout)
    (region : VkImageBlit) (filter : Filter)
| BindPipeline (bp : PipelineBindPoint) (p : FramePipeline)
| PushConstantsCmd (stages : Z) (pc : FramePush)
| BindDescriptorSets (bp : PipelineBindPoint) (sets : list FrameDs)
| Dispatch (x y z : Z)
| BeginRenderPass (render_area : VkRect2D) (clear_values : list vec4)
| SetViewport (vp : VkViewport)
| SetScissor (rect : VkRect2D)
| Draw (vertex_count instance_count first_vertex first_instance : Z)
| RenderGui
| EndRenderPass.

(** The fields of [HybridRendering] these passes read, and the extent of
    the deferred shading output, which another class creates. *)
Record App : Type := {
  m_width : Z;
  m_height : Z;
  deferred_extent : Z * Z;
  m_taa_enabled : bool;
  m_taa_sharpen : bool;
  m_taa_reset : bool;
  m_taa_feedback_min : float32;
  m_taa_feedback_max : float32;
  m_exposure : float32;
  m_current_visualization : VisualizationType;
  m_jitter : Jitter
}.

(** The member initialisers at the end of the class, for a window of the
    given extent; [0.88f] and [0.97f] as bit patterns. *)
Definition App_new (width height : Z) (deferred : Z * Z) : App :=
  {| m_width := width; m_height := height; deferred_extent := deferred;
     m_taa_enabled := true; m_taa_sharpen := true; m_taa_reset := true;
     m_taa_feedback_min := 0x3F6147AE;
     m_taa_feedback_max := 0x3F7851EC;
     m_exposure := f_one;
     m_current_visualization := VISUALIZATION_FINAL;
     m_jitter := {| m_prev_jitter := (f_zero, f_zero);
                    m_current_jitter := (f_zero, f_zero) |} |}.

(** What the TAA header of the settings window receives in one frame:
    whether the Enabled checkbox was clicked, and the values the other
    widgets leave. *)
Record TaaGui : Type := {
  enabled_clicked : bool;
  sharpen_value : bool;
  feedback_min_value : float32;
  feedback_max_value : float32
}.

(** The TAA header in [update]: a click toggles [m_taa_enabled], and
    switching it on sets [m_taa_reset]. *)
Definition taa_gui (g : TaaGui) (app : App) : App :=
  let enabled := if enabled_clicked g then negb (m_taa_enabled app)
                 else m_taa_enabled app in
  {| m_width := m_width app; m_height := m_height app;
     deferred_extent := deferred_extent app;
     m_taa_enabled := enabled;
     m_taa_sharpen := sharpen_value g;
     m_taa_reset := if enabled_clicked g
                    then (if enabled then true else m_taa_reset app)
                    else m_taa_reset app;
     m_taa_feedback_min := feedback_min_value g;
     m_taa_feedback_max := feedback_max_value g;
     m_exposure := m_exposure app;
     m_current_visualization := m_current_visualization app;
     m_jitter := m_jitter app |}.

(** [create_output_images] makes the TAA images with the window extent. *)
Definition image_extent (app : App) (img : FrameImage) : Z * Z :=
  match img with
  | TaaImage _ => (m_width app, m_height app)
  | DeferredOutputImage => deferred_extent app
  end.

Definition set_image_layout (img : FrameImage)
  (old_layout new_layout : ImageLayout) : list FrameCmd :=
  [SetImageLayout img old_layout new_layout].

(** [blitt_image]: the source is moved to the transfer-source layout
    unless the caller says it is there already, the whole of the source is
    blitted onto the whole of the destination, and both are moved to the
    layouts the caller names. *)
Definition blitt_image (app : App) (src dst : FrameImage)
  (src_img_src_layout src_img_dst_layout : ImageLayout)
  (dst_img_src_layout dst_img_dst_layout : ImageLayout)
  (aspect_flags : Z) (filter : Filter) : list FrameCmd :=
  (if layout_eqb src_img_src_layout LAYOUT_TRANSFER_SRC_OPTIMAL then []
   else set_image_layout src src_img_src_layout LAYOUT_TRANSFER_SRC_OPTIMAL)
  ++ set_image_layout dst dst_img_src_layout LAYOUT_TRANSFER_DST_OPTIMAL
  ++ [BlitImage src LAYOUT_TRANSFER_SRC_OPTIMAL
        dst LAYOUT_TRANSFER_DST_OPTIMAL
        {| blit_src_aspect := aspect_flags;
           blit_src_offset0 := (0, 0, 0);
           blit_src_offset1 :=
             (wrap_s32 (fst (image_extent app src)),
              wrap_s32 (snd (image_extent app src)), 1);
           blit_dst_aspect := aspect_flags;
           blit_dst_offset0 := (0, 0, 0);
           blit_dst_offset1 :=
             (wrap_s32 (fst (image_extent app dst)),
              wrap_s32 (snd (image_extent app dst)), 1) |}
        filter]
  ++ set_image_layout src LAYOUT_TRANSFER_SRC_OPTIMAL src_img_dst_layout
  ++ set_image_layout dst LAYOUT_TRANSFER_DST_OPTIMAL dst_img_dst_layout.

(** The descriptor set of the selected visualization, as both passes pick
    it. *)
Definition visualization_ds (cr : CommonResources)
  (reflections : RayTracedReflections) (app : App) : FrameDs :=
  match m_current_visualization app with
  | VISUALIZATION_FINAL => DeferredOutputDs
  | VISUALIZATION_SHADOWS => ShadowsOutputDs
  | VISUALIZATION_AMBIENT_OCCLUSION => AmbientOcclusionOutputDs
  | VISUALIZATION_REFLECTIONS => ReflectionsOutputDs (output_ds cr reflections)
  | VISUALIZATION_GLOBAL_ILLUIMINATION => DdgiOutputDs
  end.

Section Passes.

(** Float arithmetic of the host that is not followed: [float(n)] of an
    integer, and division. *)
Variable float_of_int : Z -> float32.
Variable fdiv : float32 -> float32 -> float32.

(** [temporal_aa]; [clock] stands for the [time_params] vector, which is
    read off the GLFW timer. *)
Definition temporal_aa (cr : CommonResources)
  (reflections : RayTracedReflections) (clock : vec4) (app : App)
  : list FrameCmd :=
  let NUM_THREADS := 32 in
  let write_idx := Z.b2z (ping_pong cr) in
  let read_idx := Z.b2z (negb (ping_pong cr)) in
  set_image_layout (TaaImage write_idx) LAYOUT_UNDEFINED LAYOUT_GENERAL
  ++ (if m_taa_reset app
      then blitt_image app DeferredOutputImage (TaaImage read_idx)
             LAYOUT_SHADER_READ_ONLY_OPTIMAL LAYOUT_SHADER_READ_ONLY_OPTIMAL
             LAYOUT_UNDEFINED LAYOUT_SHADER_READ_ONLY_OPTIMAL
             IMAGE_ASPECT_COLOR_BIT FILTER_NEAREST
      else [])
  ++ [BindPipeline PIPELINE_BIND_POINT_COMPUTE TaaPipeline;
      PushConstantsCmd SHADER_STAGE_COMPUTE_BIT
        (PushTAA
           {| texel_size :=
                (fdiv f_one (float_of_int (m_width app)),
                 fdiv f_one (float_of_int (m_height app)),
                 float_of_int (m_width app),
                 float_of_int (m_height app));
              current_prev_jitter :=
                (fst (m_current_jitter (m_jitter app)),
                 snd (m_current_jitter (m_jitter app)),
                 fst (m_prev_jitter (m_jitter app)),
                 snd (m_prev_jitter (m_jitter app)));
              time_params := clock;
              feedback_min := m_taa_feedback_min app;
              feedback_max := m_taa_feedback_max app;
              sharpen := Z.b2z (m_taa_sharpen app) |});
      BindDescriptorSets PIPELINE_BIND_POINT_COMPUTE
        [TaaWriteDs write_idx;
         visualization_ds cr reflections app;
         TaaReadDs read_idx;
         GBufferDs];
      Dispatch (ceil_div (m_width app) NUM_THREADS)
        (ceil_div (m_height app) NUM_THREADS) 1]
  ++ set_image_layout (TaaImage write_idx) LAYOUT_GENERAL
       LAYOUT_SHADER_READ_ONLY_OPTIMAL.

(** [tone_map] *)
Definition tone_map (cr : CommonResources)
  (reflections : RayTracedReflections) (app : App) : list FrameCmd :=
  let read_ds :=
    if m_taa_enabled app then TaaReadDs (Z.b2z (ping_pong cr))
    else visualization_ds cr reflections app in
  [BeginRenderPass
     {| rect_offset := (0, 0); rect_extent := (m_width app, m_height app) |}
     [(f_zero, f_zero, f_zero, f_one); (f_one, f_one, f_one, f_one)];
   SetViewport
     {| vp_x := f_zero;
        vp_y := float_of_int (m_height app);
        vp_width := float_of_int (m_width app);
        vp_height := fneg (float_of_int (m_height app));
        vp_min_depth := f_zero;
        vp_max_depth := f_one |};
   SetScissor
     {| rect_offset := (0, 0); rect_extent := (m_width app, m_height app) |};
   BindPipeline PIPELINE_BIND_POINT_GRAPHICS CopyPipeline;
   PushConstantsCmd SHADER_STAGE_FRAGMENT_BIT
     (PushToneMap
        {| single_channel :=
             match m_current_visualization app with
             | VISUALIZATION_SHADOWS | VISUALIZATION_AMBIENT_OCCLUSION => 1
             | _ => 0
             end;
           exposure := m_exposure app |});
   BindDescriptorSets PIPELINE_BIND_POINT_GRAPHICS [read_ds];
   Draw 3 1 0 0;
   RenderGui;
   EndRenderPass].

(** The end of the recording in [update]. *)
Definition frame_end (cr : CommonResources)
  (reflections : RayTracedReflections) (clock : vec4) (app : App)
  : list FrameCmd :=
  (if m_taa_enabled app then temporal_aa cr reflections clock app else [])
  ++ tone_map cr reflections app.

End Passes.

(** *** Reading these commands *)

(** [write_descriptor_sets]: the storage and the sampled image of the TAA
    sets.  The images behind the collaborators' sets are not followed. *)
Definition ds_storage_images (ds : FrameDs) : list FrameImage :=
  match ds with
  | TaaWriteDs i => [TaaImage i]
  | _ => []
  end.

Definition ds_sampled_images (ds : FrameDs) : list FrameImage :=
  match ds with
  | TaaReadDs i => [TaaImage i]
  | _ => []
  end.

(** [create_taa_pipeline], [create_tone_map_pipeline]: the number of
    descriptor set layouts. *)
Definition pipeline_set_count (p : FramePipeline) : nat :=
  match p with
  | TaaPipeline => 4
  | CopyPipeline => 1
  end%nat.

Record FrameBindings : Type := {
  compute_pipeline : option FramePipeline;
  graphics_pipeline : option FramePipeline;
  compute_sets : list FrameDs;
  graphics_sets : list FrameDs;
  pushed : option FramePush
}.

Definition nothing_bound : FrameBindings :=
  {| compute_pipeline := None; graphics_pipeline := None;
     compute_sets := []; graphics_sets := []; pushed := None |}.

Inductive FrameWork : Type :=
| WorkDispatch (x y z : Z)
| WorkDraw (vertex_count instance_count first_vertex first_instance : Z).

Record FrameLaunch : Type := {
  l_pipeline : option FramePipeline;
  l_sets : list FrameDs;
  l_push : option FramePush;
  l_work : FrameWork
}.

Definition launch_of (b : FrameBindings) (w : FrameWork) : FrameLaunch :=
  let p := match w with
           | WorkDispatch _ _ _ => compute_pipeline b
           | WorkDraw _ _ _ _ => graphics_pipeline b
           end in
  let sets := match w with
              | WorkDispatch _ _ _ => compute_sets b
              | WorkDraw _ _ _ _ => graphics_sets b
              end in
  {| l_pipeline := p;
     l_sets := match p with
               | Some q => firstn (pipeline_set_count q) sets
               | None => []
               end;
     l_push := pushed b;
     l_work := w |}.

Definition follow (b : FrameBindings) (c : FrameCmd)
  : FrameBindings * option FrameLaunch :=
  match c with
  | BindPipeline PIPELINE_BIND_POINT_COMPUTE p =>
      ({| compute_pipeline := Some p;
          graphics_pipeline := graphics_pipeline b;
          compute_sets := compute_sets b;
          graphics_sets := graphics_sets b;
          pushed := pushed b |}, None)
  | BindPipeline PIPELINE_BIND_POINT_GRAPHICS p =>
      ({| compute_pipeline := compute_pipeline b;
          graphics_pipeline := Some p;
          compute_sets := compute_sets b;
          graphics_sets := graphics_sets b;
          pushed := pushed b |}, None)
  | BindDescriptorSets PIPELINE_BIND_POINT_COMPUTE sets =>
      ({| compute_pipeline := compute_pipeline b;
          graphics_pipeline := graphics_pipeline b;
          compute_sets := sets ++ skipn (length sets) (compute_sets b);
          graphics_sets := graphics_sets b;
          pushed := pushed b |}, None)
  | BindDescriptorSets PIPELINE_BIND_POINT_GRAPHICS sets =>
      ({| compute_pipeline := compute_pipeline b;
          graphics_pipeline := graphics_pipeline b;
          compute_sets := compute_sets b;
          graphics_sets := sets ++ skipn (length sets) (graphics_sets b);
          pushed := pushed b |}, None)
  | PushConstantsCmd _ pc =>
      ({| compute_pipeline := compute_pipeline b;
          graphics_pipeline := graphics_pipeline b;
          compute_sets := compute_sets b;
          graphics_sets := graphics_sets b;
          pushed := Some pc |}, None)
  | Dispatch x y z => (b, Some (launch_of b (WorkDispatch x y z)))
  | Draw v i fv fi => (b, Some (launch_of b (WorkDraw v i fv fi)))
  | _ => (b, None)
  end.

Definition FrameLayouts : Type := FrameImage -> ImageLayout.

Definition put_layout (img : FrameImage) (l : ImageLayout) (m : FrameLayouts)
  : FrameLayouts :=
  fun i => if FrameImage_eq_dec i img then l else m i.

(** As [check] above, for these commands: a transition starts from the
    undefined layout or from the layout the image is in, a blit names the
    layouts of both images, and a launch finds its storage images general
    and its sampled images shader-read-only. *)
Definition check_frame_cmd (s : FrameBindings * FrameLayouts) (c : FrameCmd)
  : option (FrameBindings * FrameLayouts) :=
  let '(b', l) := follow (fst s) c in
  match l with
  | Some r =>
      if forallb (fun i => layout_eqb (snd s i) LAYOUT_GENERAL)
           (flat_map ds_storage_images (l_sets r))
         && forallb (fun i => layout_eqb (snd s i)
                                LAYOUT_SHADER_READ_ONLY_OPTIMAL)
              (flat_map ds_sampled_images (l_sets r))
      then Some (b', snd s) else None
  | None =>
      match c with
      | SetImageLayout img old_layout new_layout =>
          if is_undefined old_layout || layout_eqb (snd s img) old_layout
          then Some (b', put_layout img new_layout (snd s)) else None
      | BlitImage src src_layout dst dst_layout _ _ =>
          if layout_eqb (snd s src) src_layout
             && layout_eqb (snd s dst) dst_layout
          then Some (b', snd s) else None
      | _ => Some (b', snd s)
      end
  end.

Fixpoint check_frame (cmds : list FrameCmd) (s : FrameBindings * FrameLayouts)
  : option (FrameBindings * FrameLayouts) :=
  match cmds with
  | [] => Some s
  | c :: rest =>
      match check_frame_cmd s c with
      | Some s' => check_frame rest s'
      | None => None
      end
  end.

Section FrameGpu.

Variable texels : Type.

(** What a launch is given: its record, and the contents of its sampled
    and storage images. *)
Record LaunchInput : Type := {
  li_launch : FrameLaunch;
  li_sampled : list texels;
  li_storage : list texels
}.

(** [shader inp k] is what a dispatch leaves in its [k]-th storage image;
    [blitted region filter src dst] is the destination after a blit;
    [discarded t] what may remain of [t] after a transition out of the
    undefined layout. *)
Variable shader : LaunchInput -> nat -> texels.
Variable blitted : VkImageBlit -> Filter -> texels -> texels -> texels.
Variable discarded : texels -> texels.

Definition FrameMemory : Type := FrameImage -> texels.

Definition put_image (img : FrameImage) (t : texels) (m : FrameMemory)
  : FrameMemory :=
  fun i => if FrameImage_eq_dec i img then t else m i.

Definition launch_input (r : FrameLaunch) (m : FrameMemory) : LaunchInput :=
  {| li_launch := r;
     li_sampled := map m (flat_map ds_sampled_images (l_sets r));
     li_storage := map m (flat_map ds_storage_images (l_sets r)) |}.

Fixpoint position (img : FrameImage) (l : list FrameImage) : option nat :=
  match l with
  | [] => None
  | y :: rest =>
      if FrameImage_eq_dec img y then Some O
      else option_map S (position img rest)
  end.

(** A dispatch rewrites its storage images; a draw goes to the swap
    chain, which is not among the images followed. *)
Definition run_launch (r : FrameLaunch) (m : FrameMemory) : FrameMemory :=
  match l_work r with
  | WorkDispatch _ _ _ =>
      fun i =>
        match position i (flat_map ds_storage_images (l_sets r)) with
        | Some k => shader (launch_input r m) k
        | None => m i
        end
  | WorkDraw _ _ _ _ => m
  end.

Definition exec_frame_cmd (s : FrameBindings * FrameMemory) (c : FrameCmd)
  : FrameBindings * FrameMemory :=
  let '(b', l) := follow (fst s) c in
  match l with
  | Some r => (b', run_launch r (snd s))
  | None =>
      (b',
       match c with
       | SetImageLayout img LAYOUT_UNDEFINED _ =>
           put_image img (discarded (snd s img)) (snd s)
       | BlitImage src _ dst _ region filter =>
           put_image dst (blitted region filter (snd s src) (snd s dst))
             (snd s)
       | _ => snd s
       end)
  end.

Definition exec_frame (cmds : list FrameCmd) (s : FrameBindings * FrameMemory)
  : FrameBindings * FrameMemory :=
  fold_left exec_frame_cmd cmds s.

(** What the launches of a command list are given, in order. *)
Fixpoint frame_inputs (cmds : list FrameCmd) (s : FrameBindings * FrameMemory)
  : list LaunchInput :=
  match cmds with
  | [] => []
  | c :: rest =>
      match snd (follow (fst s) c) with
      | Some r => [launch_input r (snd s)]
      | None => []
      end
      ++ frame_inputs rest (exec_frame_cmd s c)
  end.

Definition launches_of (p : FramePipeline) (l : list LaunchInput)
  : list LaunchInput :=
  filter (fun inp => match l_pipeline (li_launch inp) with
                     | Some q => FramePipeline_eqb p q
                     | None => false
                     end) l.

End FrameGpu.

(** *** Keyboard and mouse *)

(** Key and button codes of GLFW. *)
Definition GLFW_KEY_SPACE : Z := 32.
Definition GLFW_KEY_A : Z := 65.
Definition GLFW_KEY_D : Z := 68.
Definition GLFW_KEY_G : Z := 71.
Definition GLFW_KEY_S : Z := 83.
Definition GLFW_KEY_W : Z := 87.
Definition GLFW_MOUSE_BUTTON_RIGHT : Z := 1.

(** The camera-control fields of [HybridRendering]. *)
Record Controls : Type := {
  m_mouse_look : bool;
  m_heading_speed : float32;
  m_sideways_speed : float32;
  m_camera_speed : float32;
  m_debug_gui : bool
}.

Definition key_pressed (code : Z) (c : Controls) : Controls :=
  {| m_mouse_look :=
       if code =? GLFW_KEY_SPACE then true else m_mouse_look c;
     m_heading_speed :=
       if code =? GLFW_KEY_W then m_camera_speed c
       else if code =? GLFW_KEY_S then fneg (m_camera_speed c)
       else m_heading_speed c;
     m_sideways_speed :=
       if code =? GLFW_KEY_A then fneg (m_camera_speed c)
       else if code =? GLFW_KEY_D then m_camera_speed c
       else m_sideways_speed c;
     m_camera_speed := m_camera_speed c;
     m_debug_gui :=
       if code =? GLFW_KEY_G then negb (m_debug_gui c) else m_debug_gui c |}.

Definition key_released (code : Z) (c : Controls) : Controls :=
  {| m_mouse_look :=
       if code =? GLFW_KEY_SPACE then false else m_mouse_look c;
     m_heading_speed :=
       if (code =? GLFW_KEY_W) || (code =? GLFW_KEY_S) then f_zero
       else m_heading_speed c;
     m_sideways_speed :=
       if (code =? GLFW_KEY_A) || (code =? GLFW_KEY_D) then f_zero
       else m_sideways_speed c;
     m_camera_speed := m_camera_speed c;
     m_debug_gui := m_debug_gui c |}.

Definition mouse_pressed (code : Z) (c : Controls) : Controls :=
  {| m_mouse_look :=
       if code =? GLFW_MOUSE_BUTTON_RIGHT then true else m_mouse_look c;
     m_heading_speed := m_heading_speed c;
     m_sideways_speed := m_sideways_speed c;
     m_camera_speed := m_camera_speed c;
     m_debug_gui := m_debug_gui c |}.

Definition mouse_released (code : Z) (c : Controls) : Controls :=
  {| m_mouse_look :=
       if code =? GLFW_MOUSE_BUTTON_RIGHT then false else m_mouse_look c;
     m_heading_speed := m_heading_speed c;
     m_sideways_speed := m_sideways_speed c;
     m_camera_speed := m_camera_speed c;
     m_debug_gui := m_debug_gui c |}.

(** The events the window delivers, and the handler each one reaches. *)
Inductive InputEvent : Type :=
| KeyPressed (code : Z)
| KeyReleased (code : Z)
| MousePressed (code : Z)
| MouseReleased (code : Z).

Definition handle (e : InputEvent) (c : Controls) : Controls :=
  match e with
  | KeyPressed code => key_pressed code c
  | KeyReleased code => key_released code c
  | MousePressed code => mouse_pressed code c
  | MouseReleased code => mouse_released code c
  end.

Definition handle_all (es : list InputEvent) (c : Controls) : Controls :=
  fold_left (fun c e => handle e c) es c.

(** The member initialisers; [0.2f] as its bit pattern. *)
Definition Controls_new : Controls :=
  {| m_mouse_look := false; m_heading_speed := f_zero;
     m_sideways_speed := f_zero; m_camera_speed := 0x3E4CCCCD;
     m_debug_gui := false |}.

Definition presses_of (code : Z) (e : InputEvent) : bool :=
  match e with
  | KeyPressed k => k =? code
  | _ => false
  end.

End Main.

(** ** Descriptor set layouts and pipeline layouts *)

Definition SHADER_STAGE_VERTEX_BIT : Z := 0x1.
Definition SHADER_STAGE_MISS_BIT_KHR : Z := 0x800.

Inductive DescriptorType : Type :=
| DESCRIPTOR_TYPE_COMBINED_IMAGE_SAMPLER
| DESCRIPTOR_TYPE_STORAGE_IMAGE
| DESCRIPTOR_TYPE_STORAGE_BUFFER
| DESCRIPTOR_TYPE_UNIFORM_BUFFER_DYNAMIC.

(** The descriptor set layouts the pipeline layouts are made of: the six
    of [create_descriptor_set_layouts] in [main.cpp], the three made in
    [RayTracedReflections::create_descriptor_sets], and the two handed
    out by the scene and the G-buffer. *)
Inductive DescriptorSetLayout : Type :=
| per_frame_ds_layout
| blue_noise_ds_layout
| skybox_ds_layout
| storage_image_ds_layout
| combined_sampler_ds_layout
| ddgi_read_ds_layout
| write_ds_layout
| read_ds_layout
| indirect_buffer_ds_layout
| scene_descriptor_set_layout
| g_buffer_ds_layout.

Record LayoutBinding : Type := {
  lb_binding : Z;
  lb_type : DescriptorType;
  lb_count : Z;
  lb_stages : Z
}.

Definition add_binding (binding : Z) (type : DescriptorType) (count : Z)
  (stages : Z) : LayoutBinding :=
  {| lb_binding := binding; lb_type := type; lb_count := count;
     lb_stages := stages |}.

Definition stage_bits (l : list Z) : Z := fold_right Z.lor 0 l.

(** The bindings each layout is created with.  Those of the scene and of
    the G-buffer are made by other classes. *)
Definition layout_bindings (l : DescriptorSetLayout)
  : option (list LayoutBinding) :=
  let per_frame_stages :=
    stage_bits [SHADER_STAGE_RAYGEN_BIT_KHR; SHADER_STAGE_CLOSEST_HIT_BIT_KHR;
                Main.SHADER_STAGE_FRAGMENT_BIT; SHADER_STAGE_VERTEX_BIT;
                SHADER_STAGE_COMPUTE_BIT] in
  let sampler_stages :=
    stage_bits [SHADER_STAGE_RAYGEN_BIT_KHR; SHADER_STAGE_CLOSEST_HIT_BIT_KHR;
                SHADER_STAGE_MISS_BIT_KHR; Main.SHADER_STAGE_FRAGMENT_BIT;
                SHADER_STAGE_COMPUTE_BIT] in
  let skybox_stages :=
    stage_bits [Main.SHADER_STAGE_FRAGMENT_BIT;
                SHADER_STAGE_CLOSEST_HIT_BIT_KHR; SHADER_STAGE_MISS_BIT_KHR] in
  let ddgi_stages :=
    stage_bits [SHADER_STAGE_CLOSEST_HIT_BIT_KHR; SHADER_STAGE_COMPUTE_BIT;
                Main.SHADER_STAGE_FRAGMENT_BIT] in
  match l with
  | per_frame_ds_layout =>
      Some [add_binding 0 DESCRIPTOR_TYPE_UNIFORM_BUFFER_DYNAMIC 1
              per_frame_stages;
            add_binding 1 DESCRIPTOR_TYPE_COMBINED_IMAGE_SAMPLER 1
              per_frame_stages;
            add_binding 2 DESCRIPTOR_TYPE_COMBINED_IMAGE_SAMPLER 1
              per_frame_stages]
  | blue_noise_ds_layout =>
      Some [add_binding 0 DESCRIPTOR_TYPE_COMBINED_IMAGE_SAMPLER 1
              sampler_stages;
            add_binding 1 DESCRIPTOR_TYPE_COMBINED_IMAGE_SAMPLER 1
              sampler_stages]
  | skybox_ds_layout =>
      Some [add_binding 0 DESCRIPTOR_TYPE_COMBINED_IMAGE_SAMPLER 1
              skybox_stages;
            add_binding 1 DESCRIPTOR_TYPE_COMBINED_IMAGE_SAMPLER 1
              skybox_stages;
            add_binding 2 DESCRIPTOR_TYPE_COMBINED_IMAGE_SAMPLER 1
              skybox_stages;
            add_binding 3 DESCRIPTOR_TYPE_COMBINED_IMAGE_SAMPLER 1
              skybox_stages]
  | storage_image_ds_layout =>
      Some [add_binding 0 DESCRIPTOR_TYPE_STORAGE_IMAGE 1
              (stage_bits [SHADER_STAGE_RAYGEN_BIT_KHR;
                           SHADER_STAGE_COMPUTE_BIT])]
  | combined_sampler_ds_layout =>
      Some [add_binding 0 DESCRIPTOR_TYPE_COMBINED_IMAGE_SAMPLER 1
              sampler_stages]
  | ddgi_read_ds_layout =>
      Some [add_binding 0 DESCRIPTOR_TYPE_COMBINED_IMAGE_SAMPLER 1
              ddgi_stages;
            add_binding 1 DESCRIPTOR_TYPE_COMBINED_IMAGE_SAMPLER 1
              ddgi_stages;
            add_binding 2 DESCRIPTOR_TYPE_UNIFORM_BUFFER_DYNAMIC 1
              (stage_bits [SHADER_STAGE_RAYGEN_BIT_KHR;
                           SHADER_STAGE_CLOSEST_HIT_BIT_KHR;
                           SHADER_STAGE_COMPUTE_BIT; SHADER_STAGE_VERTEX_BIT;
                           Main.SHADER_STAGE_FRAGMENT_BIT])]
  | write_ds_layout =>
      Some [add_binding 0 DESCRIPTOR_TYPE_STORAGE_IMAGE 1
              SHADER_STAGE_COMPUTE_BIT;
            add_binding 1 DESCRIPTOR_TYPE_STORAGE_IMAGE 1
              SHADER_STAGE_COMPUTE_BIT]
  | read_ds_layout =>
      Some [add_binding 0 DESCRIPTOR_TYPE_COMBINED_IMAGE_SAMPLER 1
              SHADER_STAGE_COMPUTE_BIT;
            add_binding 1 DESCRIPTOR_TYPE_COMBINED_IMAGE_SAMPLER 1
              SHADER_STAGE_COMPUTE_BIT]
  | indirect_buffer_ds_layout =>
      Some [add_binding 0 DESCRIPTOR_TYPE_STORAGE_BUFFER 1
              SHADER_STAGE_COMPUTE_BIT;
            add_binding 1 DESCRIPTOR_TYPE_STORAGE_BUFFER 1
              SHADER_STAGE_COMPUTE_BIT;
            add_binding 2 DESCRIPTOR_TYPE_STORAGE_BUFFER 1
              SHADER_STAGE_COMPUTE_BIT;
            add_binding 3 DESCRIPTOR_TYPE_STORAGE_BUFFER 1
              SHADER_STAGE_COMPUTE_BIT]
  | scene_descriptor_set_layout | g_buffer_ds_layout => None
  end.

(** [RayTracedReflections::create_descriptor_sets]: the layout each set
    of the denoiser is allocated with. *)
Definition create_descriptor_sets (ds : DescriptorSet)
  : option DescriptorSetLayout :=
  match ds with
  | RayTraceWriteDs => Some storage_image_ds_layout
  | RayTraceReadDs => Some combined_sampler_ds_layout
  | CurrentWriteDs _ => Some write_ds_layout
  | CurrentReadDs _ => Some read_ds_layout
  | PrevReadDs _ => Some read_ds_layout
  | OutputOnlyReadDs _ => Some combined_sampler_ds_layout
  | IndirectBufferDs => Some indirect_buffer_ds_layout
  | ATrousReadDs _ => Some combined_sampler_ds_layout
  | ATrousWriteDs _ => Some storage_image_ds_layout
  | UpsampleWriteDs => Some storage_image_ds_layout
  | UpsampleReadDs => Some combined_sampler_ds_layout
  | _ => None
  end.

(** [create_descriptor_sets] of [main.cpp]: the sets of the common
    resources that [render] binds. *)
Definition common_descriptor_sets (ds : DescriptorSet)
  : option DescriptorSetLayout :=
  match ds with
  | PerFrameDs => Some per_frame_ds_layout
  | BlueNoiseDs => Some blue_noise_ds_layout
  | SkyboxDs => Some skybox_ds_layout
  | _ => None
  end.

(** The layout a set is allocated with; [None] for the sets that the
    scene, the G-buffer and the DDGI object allocate. *)
Definition allocated_with (ds : DescriptorSet) : option DescriptorSetLayout :=
  match create_descriptor_sets ds with
  | Some l => Some l
  | None => common_descriptor_sets ds
  end.

(** [write_descriptor_sets]: the descriptor types written into a set of
    the denoiser, by binding. *)
Definition written_types (ds : DescriptorSet) : list DescriptorType :=
  map (fun _ => DESCRIPTOR_TYPE_STORAGE_IMAGE) (ds_storage_images ds)
  ++ map (fun _ => DESCRIPTOR_TYPE_COMBINED_IMAGE_SAMPLER)
       (ds_sampled_images ds)
  ++ map (fun _ => DESCRIPTOR_TYPE_STORAGE_BUFFER) (ds_storage_buffers ds).

(** [sizeof] of a push constant block, kept as the name of the struct. *)
Inductive BlockSize : Type :=
| SIZEOF_RayTracePushConstants
| SIZEOF_TemporalAccumulationPushConstants
| SIZEOF_ATrousFilterPushConstants
| SIZEOF_UpsamplePushConstants
| SIZEOF_TAAPushConstants
| SIZEOF_ToneMapPushConstants.

Definition sizeof (pc : PushConstants) : BlockSize :=
  match pc with
  | PushRayTrace _ => SIZEOF_RayTracePushConstants
  | PushTemporalAccumulation _ => SIZEOF_TemporalAccumulationPushConstants
  | PushATrous _ => SIZEOF_ATrousFilterPushConstants
  | PushUpsample _ => SIZEOF_UpsamplePushConstants
  end.

Record PushConstantRange : Type := {
  range_stages : Z;
  range_offset : Z;
  range_size : BlockSize
}.

Record PipelineLayoutDesc : Type := {
  set_layouts : list DescriptorSetLayout;
  push_constant_range : option PushConstantRange
}.

(** [create_pipelines]: the pipeline layout of each pipeline. *)
Definition create_pipelines (p : Pipeline) : PipelineLayoutDesc :=
  match p with
  | RayTracePipeline =>
      {| set_layouts :=
           [scene_descriptor_set_layout; storage_image_ds_layout;
            per_frame_ds_layout; g_buffer_ds_layout; skybox_ds_layout;
            blue_noise_ds_layout; ddgi_read_ds_layout];
         push_constant_range :=
           Some {| range_stages :=
                     Z.lor SHADER_STAGE_RAYGEN_BIT_KHR
                       SHADER_STAGE_CLOSEST_HIT_BIT_KHR;
                   range_offset := 0;
                   range_size := SIZEOF_RayTracePushConstants |} |}
  | ResetArgsPipeline =>
      {| set_layouts := [indirect_buffer_ds_layout];
         push_constant_range := None |}
  | TemporalAccumulationPipeline =>
      {| set_layouts :=
           [write_ds_layout; g_buffer_ds_layout; g_buffer_ds_layout;
            combined_sampler_ds_layout; read_ds_layout; per_frame_ds_layout;
            indirect_buffer_ds_layout];
         push_constant_range :=
           Some {| range_stages := SHADER_STAGE_COMPUTE_BIT;
                   range_offset := 0;
                   range_size := SIZEOF_TemporalAccumulationPushConstants |} |}
  | CopyTilesPipeline =>
      {| set_layouts :=
           [storage_image_ds_layout; combined_sampler_ds_layout;
            indirect_buffer_ds_layout];
         push_constant_range := None |}
  | ATrousPipeline =>
      {| set_layouts :=
           [storage_image_ds_layout; combined_sampler_ds_layout;
            g_buffer_ds_layout; indirect_buffer_ds_layout];
         push_constant_range :=
           Some {| range_stages := SHADER_STAGE_COMPUTE_BIT;
                   range_offset := 0;
                   range_size := SIZEOF_ATrousFilterPushConstants |} |}
  | UpsamplePipeline =>
      {| set_layouts :=
           [storage_image_ds_layout; combined_sampler_ds_layout;
            g_buffer_ds_layout];
         push_constant_range :=
           Some {| range_stages := SHADER_STAGE_COMPUTE_BIT;
                   range_offset := 0;
                   range_size := SIZEOF_UpsamplePushConstants |} |}
  end.

(** [create_pipelines]: the stages of the shader modules of a pipeline:
    ray generation, closest hit and miss for the ray tracing pipeline,
    one compute shader for the others. *)
Definition pipeline_stages (p : Pipeline) : Z :=
  match p with
  | RayTracePipeline =>
      stage_bits [SHADER_STAGE_RAYGEN_BIT_KHR;
                  SHADER_STAGE_CLOSEST_HIT_BIT_KHR; SHADER_STAGE_MISS_BIT_KHR]
  | _ => SHADER_STAGE_COMPUTE_BIT
  end.

(** *** A launch against its pipeline layout *)

(** A set fits a slot of a pipeline layout when it was allocated with the
    layout of the slot; a set allocated elsewhere fits only a slot whose
    layout none of the sets allocated here has. *)
Definition slot_fits (ds : DescriptorSet) (l : DescriptorSetLayout) : Prop :=
  match allocated_with ds with
  | Some l' => l' = l
  | None => forall ds', allocated_with ds' <> Some l
  end.

(** A set of the denoiser is written one descriptor of the declared type
    for each binding of its layout. *)
Definition written_as_declared (ds : DescriptorSet) : Prop :=
  match create_descriptor_sets ds with
  | Some l =>
      match layout_bindings l with
      | Some bs => map lb_type bs = written_types ds
      | None => False
      end
  | None => True
  end.

(** Every binding of the layout can be reached from a stage with these
    flags. *)
Definition visible (stages : Z) (l : DescriptorSetLayout) : bool :=
  match layout_bindings l with
  | Some bs => forallb (fun b => negb (Z.land (lb_stages b) stages =? 0)) bs
  | None => true
  end.

Definition launch_fits (r : DispatchRecord) : Prop :=
  match d_pipeline r with
  | Some p =>
      Forall2 slot_fits (d_sets r) (set_layouts (create_pipelines p))
      /\ Forall written_as_declared (d_sets r)
      /\ forallb (visible (pipeline_stages p))
           (set_layouts (create_pipelines p)) = true
      /\ option_map sizeof (d_push r)
         = option_map range_size (push_constant_range (create_pipelines p))
  | None => False
  end.

(** The pushes of a command list, each with the pipeline bound last
    before it. *)
Fixpoint pushes_from (last : option Pipeline) (cmds : list Cmd)
  : list (option Pipeline * Z * PushConstants) :=
  match cmds with
  | [] => []
  | BindPipeline _ p :: rest => pushes_from (Some p) rest
  | PushConstantsCmd stages pc :: rest =>
      (last, stages, pc) :: pushes_from last rest
  | _ :: rest => pushes_from last rest
  end.

(** The pipeline bound last after a command list. *)
Definition last_bound (last : option Pipeline) (cmds : list Cmd)
  : option Pipeline :=
  fold_left (fun l c => match c with
                        | BindPipeline _ p => Some p
                        | _ => l
                        end) cmds last.

(** A push fits when it updates exactly the range that the layout of the
    pipeline bound last declares: the same stage flags, offset 0, the
    size of the block. *)
Definition push_fits (x : option Pipeline * Z * PushConstants) : Prop :=
  match x with
  | (Some p, stages, pc) =>
      push_constant_range (create_pipelines p)
      = Some {| range_stages := stages; range_offset := 0;
                range_size := sizeof pc |}
  | (None, _, _) => False
  end.

(** *** The pipelines of [main.cpp] *)

(** The layout each set of the frame's end is allocated with: the TAA
    sets in [create_descriptor_sets] of [main.cpp], the output of the
    reflections by the denoiser; [None] for the other collaborators. *)
Definition frame_allocated_with (ds : Main.FrameDs)
  : option DescriptorSetLayout :=
  match ds with
  | Main.TaaWriteDs _ => Some storage_image_ds_layout
  | Main.TaaReadDs _ => Some combined_sampler_ds_layout
  | Main.ReflectionsOutputDs ds => create_descriptor_sets ds
  | _ => None
  end.

Definition frame_sizeof (pc : Main.FramePush) : BlockSize :=
  match pc with
  | Main.PushTAA _ => SIZEOF_TAAPushConstants
  | Main.PushToneMap _ => SIZEOF_ToneMapPushConstants
  end.

(** [create_taa_pipeline] and [create_tone_map_pipeline]. *)
Definition create_frame_pipeline (p : Main.FramePipeline)
  : PipelineLayoutDesc :=
  match p with
  | Main.TaaPipeline =>
      {| set_layouts :=
           [storage_image_ds_layout; combined_sampler_ds_layout;
            combined_sampler_ds_layout; g_buffer_ds_layout];
         push_constant_range :=
           Some {| range_stages := SHADER_STAGE_COMPUTE_BIT;
                   range_offset := 0;
                   range_size := SIZEOF_TAAPushConstants |} |}
  | Main.CopyPipeline =>
      {| set_layouts := [combined_sampler_ds_layout];
         push_constant_range :=
           Some {| range_stages := Main.SHADER_STAGE_FRAGMENT_BIT;
                   range_offset := 0;
                   range_size := SIZEOF_ToneMapPushConstants |} |}
  end.

(** The compute shader of the TAA pipeline; the vertex and the fragment
    shader of the post-process pipeline. *)
Definition frame_pipeline_stages (p : Main.FramePipeline) : Z :=
  match p with
  | Main.TaaPipeline => SHADER_STAGE_COMPUTE_BIT
  | Main.CopyPipeline =>
      stage_bits [SHADER_STAGE_VERTEX_BIT; Main.SHADER_STAGE_FRAGMENT_BIT]
  end.

(** The launches of a list of frame commands, from binding state [b]. *)
Fixpoint frame_launches (b : Main.FrameBindings) (cmds : list Main.FrameCmd)
  : list Main.FrameLaunch :=
  match cmds with
  | [] => []
  | c :: rest =>
      match Main.follow b c with
      | (b', Some l) => l :: frame_launches b' rest
      | (b', None) => frame_launches b' rest
      end
  end.

(** The pushes of a list of frame commands, each with the pipeline bound
    last before it. *)
Fixpoint frame_pushes_from (last : option Main.FramePipeline)
  (cmds : list Main.FrameCmd)
  : list (option Main.FramePipeline * Z * Main.FramePush) :=
  match cmds with
  | [] => []
  | Main.BindPipeline _ p :: rest => frame_pushes_from (Some p) rest
  | Main.PushConstantsCmd stages pc :: rest =>
      (last, stages, pc) :: frame_pushes_from last rest
  | _ :: rest => frame_pushes_from last rest
  end.

(** A set of the frame's end fits a slot when it was allocated with the
    layout of the slot; the sets of the other collaborators are not
    followed. *)
Definition frame_slot_fits (ds : Main.FrameDs) (l : DescriptorSetLayout)
  : Prop :=
  match frame_allocated_with ds with
  | Some l' => l' = l
  | None => match ds with
            | Main.ReflectionsOutputDs _ => False
            | _ => True
            end
  end.

Definition frame_launch_fits (r : Main.FrameLaunch) : Prop :=
  match Main.l_pipeline r with
  | Some p =>
      Forall2 frame_slot_fits (Main.l_sets r)
        (set_layouts (create_frame_pipeline p))
      /\ forallb (visible (frame_pipeline_stages p))
           (set_layouts (create_frame_pipeline p)) = true
      /\ option_map frame_sizeof (Main.l_push r)
         = option_map range_size
             (push_constant_range (create_frame_pipeline p))
  | None => False
  end.

Definition frame_push_fits
  (x : option Main.FramePipeline * Z * Main.FramePush) : Prop :=
  match x with
  | (Some p, stages, pc) =>
      push_constant_range (create_frame_pipeline p)
      = Some {| range_stages := stages; range_offset := 0;
                range_size := frame_sizeof pc |}
  | (None, _, _) => False
  end.

(** ** The bilateral blur ([BilateralBlur]) *)

Module Blur.

(** The descriptor sets [blur] binds: the two sets of the blur, whose
    only image is [m_image], the output set of the G-buffer, and the
    input the caller passes, which is one of these or a set of the
    caller's own. *)
Inductive BlurDs : Type :=
| WriteDs
| ReadDs
| GBufferOutputDs
| CallerDs (n : Z).

Definition BlurDs_eqb (a b : BlurDs) : bool :=
  match a, b with
  | WriteDs, WriteDs | ReadDs, ReadDs | GBufferOutputDs, GBufferOutputDs =>
      true
  | CallerDs n, CallerDs m => n =? m
  | _, _ => false
  end.

Record PushConstants : Type := {
  z_buffer_params : float32 * float32 * float32 * float32;
  variance_threshold : float32;
  roughness_sigma_min : float32;
  roughness_sigma_max : float32;
  radius : Z;
  roughness_weight : Z;
  depth_weight : Z;
  normal_weight : Z;
  g_buffer_mip : Z
}.

Record BilateralBlur : Type := {
  m_input_width : Z;
  m_input_height : Z;
  m_scale : float32;
  m_variance_threshold : float32;
  m_roughness_sigma_min : float32;
  m_roughness_sigma_max : float32;
  m_blur_radius : Z;
  m_use_roughness_weight : bool;
  m_use_depth_weight : bool;
  m_use_normal_weight : bool
}.

(** The commands of [blur] and [prepare_first_frame]; all transitions
    are of [m_image], the only pipeline is [m_pipeline]. *)
Inductive Cmd : Type :=
| SetImageLayout (old_layout new_layout : ImageLayout)
| BindPipeline
| PushConstantsCmd (stages : Z) (pc : PushConstants)
| BindDescriptorSets (sets : list BlurDs)
| Dispatch (x y z : Z).

(** [blur].  [m_image] has the extent of the input; [m_scale == 1.0f]
    holds for the one bit pattern of [1.0f]. *)
Definition blur (common_z_buffer_params : float32 * float32 * float32 * float32)
  (self : BilateralBlur) (input : BlurDs) : list Cmd :=
  let NUM_THREADS := 32 in
  [SetImageLayout LAYOUT_UNDEFINED LAYOUT_GENERAL;
   BindPipeline;
   PushConstantsCmd SHADER_STAGE_COMPUTE_BIT
     {| z_buffer_params := common_z_buffer_params;
        variance_threshold := m_variance_threshold self;
        roughness_sigma_min := m_roughness_sigma_min self;
        roughness_sigma_max := m_roughness_sigma_max self;
        radius := m_blur_radius self;
        roughness_weight := Z.b2z (m_use_roughness_weight self);
        depth_weight := Z.b2z (m_use_depth_weight self);
        normal_weight := Z.b2z (m_use_normal_weight self);
        g_buffer_mip := if m_scale self =? Main.f_one then 0 else 1 |};
   BindDescriptorSets [WriteDs; input; GBufferOutputDs];
   Dispatch (ceil_div (m_input_width self) NUM_THREADS)
     (ceil_div (m_input_height self) NUM_THREADS) 1;
   SetImageLayout LAYOUT_GENERAL LAYOUT_SHADER_READ_ONLY_OPTIMAL].

(** [prepare_first_frame] *)
Definition prepare_first_frame : list Cmd :=
  [SetImageLayout LAYOUT_UNDEFINED LAYOUT_SHADER_READ_ONLY_OPTIMAL].

(** [output_ds] *)
Definition output_ds : BlurDs := ReadDs.

(** The constructor writes [m_image] into [m_write_ds] as a storage
    image in the general layout and into [m_read_ds] as a sampled image
    in the shader-read-only layout; no other set holds [m_image]. *)
Definition ds_image_layout (ds : BlurDs) : option ImageLayout :=
  match ds with
  | WriteDs => Some LAYOUT_GENERAL
  | ReadDs => Some LAYOUT_SHADER_READ_ONLY_OPTIMAL
  | _ => None
  end.

(** The pipeline layout of the constructor has three set layouts. *)
Definition pipeline_set_count : nat := 3.

Record State : Type := {
  pipeline_bound : bool;
  bound_sets : list BlurDs;
  image_layout : ImageLayout
}.

(** A dispatch needs the pipeline, and [m_image] in the layout that
    every set through which the shader reaches it declares. *)
Definition dispatch_ok (s : State) : bool :=
  pipeline_bound s
  && forallb (fun ds => match ds_image_layout ds with
                        | Some l => layout_eqb (image_layout s) l
                        | None => true
                        end)
       (firstn pipeline_set_count (bound_sets s)).

Definition check_cmd (s : State) (c : Cmd) : option State :=
  match c with
  | SetImageLayout old_layout new_layout =>
      if is_undefined old_layout || layout_eqb (image_layout s) old_layout
      then Some {| pipeline_bound := pipeline_bound s;
                   bound_sets := bound_sets s;
                   image_layout := new_layout |}
      else None
  | BindPipeline =>
      Some {| pipeline_bound := true; bound_sets := bound_sets s;
              image_layout := image_layout s |}
  | PushConstantsCmd _ _ => Some s
  | BindDescriptorSets sets =>
      Some {| pipeline_bound := pipeline_bound s;
              bound_sets := sets ++ skipn (length sets) (bound_sets s);
              image_layout := image_layout s |}
  | Dispatch _ _ _ => if dispatch_ok s then Some s else None
  end.

Fixpoint check (cmds : list Cmd) (s : State) : option State :=
  match cmds with
  | [] => Some s
  | c :: rest =>
      match check_cmd s c with
      | Some s' => check rest s'
      | None => None
      end
  end.

End Blur.
(** * Properties *)

(** ** The recording monad *)

Lemma commands_bind {A B : Type} (m : M A) (k : A -> M B) self :
  commands (bind m k self) =
  commands (m self) ++ commands (k (result (m self)) (object (m self))).
Proof.
  unfold bind, commands, result, object.
  destruct (m self) as [[a s1] c1]. simpl.
  destruct (k a s1) as [[b0 s2] c2]. reflexivity.
Qed.

Lemma object_bind {A B : Type} (m : M A) (k : A -> M B) self :
  object (bind m k self) = object (k (result (m self)) (object (m self))).
Proof.
  unfold bind, result, object.
  destruct (m self) as [[a s1] c1]. simpl.
  destruct (k a s1) as [[b0 s2] c2]. reflexivity.
Qed.

Lemma result_bind {A B : Type} (m : M A) (k : A -> M B) self :
  result (bind m k self) = result (k (result (m self)) (object (m self))).
Proof.
  unfold bind, result, object.
  destruct (m self) as [[a s1] c1]. simpl.
  destruct (k a s1) as [[b0 s2] c2]. reflexivity.
Qed.

(** ** Reading command lists piecewise *)

Lemma dispatch_log_from_app b c1 c2 :
  dispatch_log_from b (c1 ++ c2) =
  dispatch_log_from b c1 ++ dispatch_log_from (bindings_after b c1) c2.
Proof.
  revert b. induction c1 as [|c rest IH]; intros b; [reflexivity|].
  simpl. unfold bindings_after. simpl.
  destruct (track b c) as [b' [r|]]; simpl; rewrite IH; reflexivity.
Qed.

Lemma pass_events_from_app b c1 c2 :
  pass_events_from b (c1 ++ c2) =
  pass_events_from b c1 ++ pass_events_from (bindings_after b c1) c2.
Proof.
  revert b. induction c1 as [|c rest IH]; intros b; [reflexivity|].
  simpl. unfold bindings_after. simpl.
  destruct (track b c) as [b' [r|]]; simpl.
  - rewrite IH. reflexivity.
  - destruct (is_args_barrier c); simpl; rewrite IH; reflexivity.
Qed.

Lemma b2z_odd i : Z.b2z (Z.odd i) = i mod 2.
Proof. rewrite Zmod_odd. destruct (Z.odd i); reflexivity. Qed.

Lemma b2z_not_odd i : Z.b2z (negb (Z.odd i)) = (i + 1) mod 2.
Proof.
  rewrite <- b2z_odd. f_equal.
  replace (i + 1) with (Z.succ i) by lia.
  rewrite Z.odd_succ, <- Z.negb_odd. reflexivity.
Qed.

Lemma odd_next i : Z.odd (i + 1) = negb (Z.odd i).
Proof.
  replace (i + 1) with (Z.succ i) by lia.
  rewrite Z.odd_succ, <- Z.negb_odd. reflexivity.
Qed.

(** ** The passes leave the object alone, except for the two recorded
    assignments *)

Lemma clear_images_object cr self :
  object (clear_images cr self) =
  if m_first_frame self then set_first_frame false self else self.
Proof. unfold clear_images, bind, this, object. simpl. destruct (m_first_frame self); reflexivity. Qed.

Lemma ray_trace_object cr be ddgi self : object (ray_trace cr be ddgi self) = self.
Proof. reflexivity. Qed.

Lemma reset_args_object self : object (reset_args self) = self.
Proof. reflexivity. Qed.

Lemma temporal_accumulation_object cr be self :
  object (temporal_accumulation cr be self) = self.
Proof. reflexivity. Qed.

Lemma upsample_object be self : object (upsample be self) = self.
Proof. reflexivity. Qed.

Lemma a_trous_dispatches_object cr i r w self :
  object (a_trous_dispatches cr i r w self) = self.
Proof. unfold a_trous_dispatches. destruct (i =? 0); reflexivity. Qed.

Lemma a_trous_iteration_unfold cr i loc self :
  a_trous_iteration cr i loc self =
  ({| loc_ping_pong := negb (loc_ping_pong loc);
      loc_read_idx := Z.b2z (loc_ping_pong loc);
      loc_write_idx := Z.b2z (negb (loc_ping_pong loc)) |},
   self,
   commands (a_trous_dispatches cr i (Z.b2z (loc_ping_pong loc))
               (Z.b2z (negb (loc_ping_pong loc))) self)
   ++ (if (feedback_iteration (m_a_trous self) =? i)
          && blur_as_input (m_temporal_accumulation self)
       then commands (feedback_copy (Z.b2z (negb (loc_ping_pong loc))) self)
       else [])).
Proof.
  unfold a_trous_iteration, a_trous_dispatches.
  destruct ((feedback_iteration (m_a_trous self) =? i)
            && blur_as_input (m_temporal_accumulation self)) eqn:E;
    destruct (i =? 0) eqn:E0; unfold bind, this; simpl; rewrite E, ?E0; reflexivity.
Qed.

(** ** The A-Trous loop *)

Lemma a_trous_loop_object cr count : forall i loc self,
  object (a_trous_loop cr count i loc self) = self.
Proof.
  induction count as [|count IH]; intros i loc self; [reflexivity|].
  simpl. rewrite object_bind, a_trous_iteration_unfold. simpl. apply IH.
Qed.

Lemma a_trous_iteration_commands cr i loc self :
  commands (a_trous_iteration cr i loc self) =
  commands (a_trous_dispatches cr i (Z.b2z (loc_ping_pong loc))
              (Z.b2z (negb (loc_ping_pong loc))) self)
  ++ (if (feedback_iteration (m_a_trous self) =? i)
         && blur_as_input (m_temporal_accumulation self)
      then commands (feedback_copy (Z.b2z (negb (loc_ping_pong loc))) self)
      else []).
Proof. rewrite a_trous_iteration_unfold. reflexivity. Qed.


Lemma a_trous_loop_commands cr count i loc self :
  commands (a_trous_loop cr (S count) i loc self) =
  commands (a_trous_iteration cr i loc self)
  ++ commands (a_trous_loop cr count (i + 1) (next_locals loc) self).
Proof.
  simpl. rewrite commands_bind. f_equal.
  rewrite a_trous_iteration_unfold. reflexivity.
Qed.

Lemma a_trous_loop_result_step cr count i loc self :
  result (a_trous_loop cr (S count) i loc self) =
  result (a_trous_loop cr count (i + 1) (next_locals loc) self).
Proof.
  simpl. rewrite result_bind, a_trous_iteration_unfold. reflexivity.
Qed.

(** The loop's [ping_pong] is the parity of the loop variable. *)
Lemma a_trous_loop_result cr count : forall i loc self,
  loc_ping_pong loc = Z.odd i ->
  loc_ping_pong (result (a_trous_loop cr count i loc self))
  = Z.odd (i + Z.of_nat count)
  /\ (count <> O ->
      loc_write_idx (result (a_trous_loop cr count i loc self))
      = Z.b2z (Z.odd (i + Z.of_nat count))).
Proof.
  induction count as [|count IH]; intros i loc self Hpp.
  - simpl. rewrite Z.add_0_r. split; [assumption | congruence].
  - rewrite a_trous_loop_result_step.
    replace (i + Z.of_nat (S count)) with (i + 1 + Z.of_nat count) by lia.
    assert (Hpp' : loc_ping_pong (next_locals loc) = Z.odd (i + 1))
      by (simpl; rewrite Hpp, odd_next; reflexivity).
    destruct (IH (i + 1) (next_locals loc) self Hpp') as [H1 H2].
    split; [exact H1|]. intros _.
    destruct count as [|count'].
    + simpl. rewrite Z.add_0_r, odd_next, Hpp. reflexivity.
    + apply H2. discriminate.
Qed.

Lemma a_trous_dispatches_log cr self i b :
  dispatch_log_from b
    (commands (a_trous_dispatches cr i (Z.b2z (Z.odd i))
                 (Z.b2z (negb (Z.odd i))) self))
  = iteration_launches cr self i.
Proof.
  unfold a_trous_dispatches, iteration_launches, copy_tiles_launch,
    a_trous_launch, a_trous_input_ds.
  destruct (i =? 0); reflexivity.
Qed.

Lemma feedback_copy_log w self b :
  dispatch_log_from b (commands (feedback_copy w self)) = [].
Proof. reflexivity. Qed.

Lemma a_trous_iteration_log cr self i loc b :
  loc_ping_pong loc = Z.odd i ->
  dispatch_log_from b (commands (a_trous_iteration cr i loc self))
  = iteration_launches cr self i.
Proof.
  intros Hpp. rewrite a_trous_iteration_commands.
  rewrite dispatch_log_from_app, Hpp, a_trous_dispatches_log.
  destruct ((feedback_iteration (m_a_trous self) =? i)
            && blur_as_input (m_temporal_accumulation self)); reflexivity.
Qed.

Lemma a_trous_loop_log cr self count : forall i loc b,
  loc_ping_pong loc = Z.odd i ->
  dispatch_log_from b (commands (a_trous_loop cr count i loc self))
  = flat_map (iteration_launches cr self) (loop_indices i count).
Proof.
  induction count as [|count IH]; intros i loc b Hpp; [reflexivity|].
  rewrite a_trous_loop_commands, dispatch_log_from_app.
  rewrite (a_trous_iteration_log _ _ _ _ _ Hpp).
  rewrite IH.
  - reflexivity.
  - simpl. rewrite Hpp, odd_next. reflexivity.
Qed.

Lemma a_trous_dispatches_events cr self i r w b :
  pass_events_from b (commands (a_trous_dispatches cr i r w self))
  = a_trous_events 1.
Proof. unfold a_trous_dispatches. destruct (i =? 0); reflexivity. Qed.

Lemma a_trous_iteration_events cr self i loc b :
  pass_events_from b (commands (a_trous_iteration cr i loc self))
  = a_trous_events 1.
Proof.
  rewrite a_trous_iteration_commands.
  rewrite pass_events_from_app, a_trous_dispatches_events.
  destruct ((feedback_iteration (m_a_trous self) =? i)
            && blur_as_input (m_temporal_accumulation self)); reflexivity.
Qed.

Lemma a_trous_loop_events cr self count : forall i loc b,
  pass_events_from b (commands (a_trous_loop cr count i loc self))
  = a_trous_events count.
Proof.
  induction count as [|count IH]; intros i loc b; [reflexivity|].
  rewrite a_trous_loop_commands, pass_events_from_app.
  rewrite a_trous_iteration_events, IH. reflexivity.
Qed.

Lemma loop_indices_nth count : forall i k,
  (k < count)%nat -> nth_error (loop_indices i count) k = Some (i + Z.of_nat k).
Proof.
  induction count as [|count IH]; intros i k Hk; [lia|].
  destruct k as [|k]; simpl.
  - f_equal. lia.
  - rewrite IH by lia. f_equal. lia.
Qed.

Lemma a_trous_launches_filter cr self l :
  filter (runs ATrousPipeline) (flat_map (iteration_launches cr self) l)
  = map (a_trous_launch cr self) l.
Proof. induction l as [|j l IH]; [reflexivity|]. simpl. f_equal. exact IH. Qed.

Lemma other_launches_filter p cr self l :
  p <> ATrousPipeline -> p <> CopyTilesPipeline ->
  filter (runs p) (flat_map (iteration_launches cr self) l) = [].
Proof.
  intros H1 H2. induction l as [|j l IH]; [reflexivity|].
  assert (Hc : runs p (copy_tiles_launch cr j) = false).
  { unfold runs, Pipeline_eqb. simpl.
    destruct (Pipeline_eq_dec p CopyTilesPipeline); [contradiction|reflexivity]. }
  assert (Ha : runs p (a_trous_launch cr self j) = false).
  { unfold runs, Pipeline_eqb. simpl.
    destruct (Pipeline_eq_dec p ATrousPipeline); [contradiction|reflexivity]. }
  simpl. rewrite Hc, Ha. exact IH.
Qed.

(** ** The A-Trous stage and the whole render *)

Lemma a_trous_filter_commands cr self :
  commands (a_trous_filter cr self) =
  commands (a_trous_loop cr (Z.to_nat (filter_iterations (m_a_trous self))) 0
              a_trous_locals_init self)
  ++ [PipelineBarrier
        [memory_barrier ACCESS_SHADER_WRITE_BIT ACCESS_SHADER_READ_BIT]
        [image_memory_barrier
           (ATrousImage
              (loc_write_idx
                 (result (a_trous_loop cr
                            (Z.to_nat (filter_iterations (m_a_trous self))) 0
                            a_trous_locals_init self))))
           LAYOUT_GENERAL LAYOUT_SHADER_READ_ONLY_OPTIMAL
           ACCESS_SHADER_WRITE_BIT ACCESS_SHADER_READ_BIT]
        []
        PIPELINE_STAGE_COMPUTE_SHADER_BIT
        (Z.lor PIPELINE_STAGE_FRAGMENT_SHADER_BIT
           PIPELINE_STAGE_COMPUTE_SHADER_BIT)].
Proof.
  unfold a_trous_filter. rewrite commands_bind. simpl.
  rewrite commands_bind. f_equal.
Qed.

Lemma a_trous_filter_object cr self :
  object (a_trous_filter cr self) =
  set_read_idx
    (loc_write_idx
       (result (a_trous_loop cr
                  (Z.to_nat (filter_iterations (m_a_trous self))) 0
                  a_trous_locals_init self)))
    self.
Proof.
  unfold a_trous_filter. rewrite object_bind. simpl.
  rewrite object_bind. simpl. rewrite a_trous_loop_object. reflexivity.
Qed.

(** The read index recorded by the stage: the parity of the iteration
    count, and 1 when the loop does not run. *)
Lemma a_trous_filter_read_idx cr self :
  read_idx (m_a_trous (object (a_trous_filter cr self))) =
  if filter_iterations (m_a_trous self) <=? 0
  then 1 else filter_iterations (m_a_trous self) mod 2.
Proof.
  rewrite a_trous_filter_object. simpl.
  destruct (Z.leb_spec (filter_iterations (m_a_trous self)) 0) as [Hn|Hn].
  - replace (Z.to_nat (filter_iterations (m_a_trous self))) with O by lia.
    reflexivity.
  - destruct (a_trous_loop_result cr
                (Z.to_nat (filter_iterations (m_a_trous self))) 0
                a_trous_locals_init self eq_refl) as [_ H].
    rewrite H by lia. simpl (0 + _). rewrite b2z_odd.
    rewrite Z2Nat.id by lia. reflexivity.
Qed.

Lemma clear_images_keeps cr self :
  let self' := object (clear_images cr self) in
  m_scale self' = m_scale self /\ m_g_buffer_mip self' = m_g_buffer_mip self
  /\ m_width self' = m_width self /\ m_height self' = m_height self
  /\ m_denoise self' = m_denoise self
  /\ m_current_output self' = m_current_output self
  /\ m_ray_trace self' = m_ray_trace self
  /\ m_temporal_accumulation self' = m_temporal_accumulation self
  /\ m_a_trous self' = m_a_trous self
  /\ m_first_frame self' = false.
Proof.
  simpl. rewrite clear_images_object.
  destruct (m_first_frame self) eqn:E; simpl; rewrite ?E; repeat split.
Qed.

Lemma a_trous_filter_scale cr self :
  m_scale (object (a_trous_filter cr self)) = m_scale self.
Proof. rewrite a_trous_filter_object. reflexivity. Qed.

Lemma bind_this {B : Type} (k : RayTracedReflections -> M B) self :
  bind this k self = k self self.
Proof.
  unfold bind, this. destruct (k self self) as [[b0 s2] c2]. reflexivity.
Qed.

Lemma render_commands cr be ddgi self :
  let cleared := object (clear_images cr self) in
  commands (render cr be ddgi self) =
  commands (clear_images cr self)
  ++ commands (ray_trace cr be ddgi cleared)
  ++ (if m_denoise self then
        commands (reset_args cleared)
        ++ commands (temporal_accumulation cr be cleared)
        ++ commands (a_trous_filter cr cleared)
        ++ (if negb (scale_eqb (m_scale self) RAY_TRACE_SCALE_FULL_RES)
            then commands (upsample be (object (a_trous_filter cr cleared)))
            else [])
      else []).
Proof.
  intros cleared.
  destruct (clear_images_keeps cr self) as (Hs & _ & _ & _ & Hd & _).
  fold cleared in Hs, Hd.
  unfold render. rewrite commands_bind. f_equal. fold cleared.
  rewrite commands_bind. f_equal. rewrite ray_trace_object.
  rewrite bind_this, Hd. destruct (m_denoise self); [|reflexivity].
  rewrite commands_bind. f_equal. rewrite reset_args_object.
  rewrite commands_bind. f_equal. rewrite temporal_accumulation_object.
  rewrite commands_bind. f_equal.
  rewrite bind_this. cbv beta.
  rewrite a_trous_filter_scale, Hs.
  destruct (negb (scale_eqb (m_scale self) RAY_TRACE_SCALE_FULL_RES));
    reflexivity.
Qed.

Lemma render_object cr be ddgi self :
  object (render cr be ddgi self) =
  if m_denoise self
  then object (a_trous_filter cr (object (clear_images cr self)))
  else object (clear_images cr self).
Proof.
  destruct (clear_images_keeps cr self) as (Hs & _ & _ & _ & Hd & _).
  unfold render. rewrite object_bind, object_bind, ray_trace_object.
  rewrite bind_this, Hd. destruct (m_denoise self); [|reflexivity].
  rewrite object_bind, reset_args_object.
  rewrite object_bind, temporal_accumulation_object.
  rewrite object_bind, bind_this.
  destruct (negb (scale_eqb (m_scale _) RAY_TRACE_SCALE_FULL_RES));
    reflexivity.
Qed.

(** The launches of the single passes do not depend on what was bound
    before: each pass binds its pipeline and all its sets itself. *)
Lemma clear_images_log cr self b :
  dispatch_log_from b (commands (clear_images cr self)) = [].
Proof. unfold clear_images, bind, this. simpl. destruct (m_first_frame self); reflexivity. Qed.

Lemma ray_trace_log cr be ddgi self b :
  dispatch_log_from b (commands (ray_trace cr be ddgi self)) =
  dispatch_log_from no_bindings (commands (ray_trace cr be ddgi self)).
Proof. reflexivity. Qed.

Lemma reset_args_log self b :
  dispatch_log_from b (commands (reset_args self)) =
  dispatch_log_from no_bindings (commands (reset_args self)).
Proof. reflexivity. Qed.

Lemma temporal_accumulation_log cr be self b :
  dispatch_log_from b (commands (temporal_accumulation cr be self)) =
  dispatch_log_from no_bindings (commands (temporal_accumulation cr be self)).
Proof. reflexivity. Qed.

Lemma upsample_log be self b :
  dispatch_log_from b (commands (upsample be self)) =
  dispatch_log_from no_bindings (commands (upsample be self)).
Proof. reflexivity. Qed.

Lemma a_trous_filter_log cr self b :
  dispatch_log_from b (commands (a_trous_filter cr self)) =
  flat_map (iteration_launches cr self)
    (loop_indices 0 (Z.to_nat (filter_iterations (m_a_trous self)))).
Proof.
  rewrite a_trous_filter_commands, dispatch_log_from_app.
  rewrite a_trous_loop_log by reflexivity. simpl. apply app_nil_r.
Qed.

(** All launches of one call of [render]. *)
Lemma render_log cr be ddgi self b :
  let cleared := object (clear_images cr self) in
  dispatch_log_from b (commands (render cr be ddgi self)) =
  dispatch_log_from no_bindings (commands (ray_trace cr be ddgi cleared))
  ++ (if m_denoise self then
        dispatch_log_from no_bindings (commands (reset_args cleared))
        ++ dispatch_log_from no_bindings
             (commands (temporal_accumulation cr be cleared))
        ++ flat_map (iteration_launches cr cleared)
             (loop_indices 0 (Z.to_nat (filter_iterations (m_a_trous self))))
        ++ (if negb (scale_eqb (m_scale self) RAY_TRACE_SCALE_FULL_RES)
            then dispatch_log_from no_bindings
                   (commands (upsample be
                                (object (a_trous_filter cr cleared))))
            else [])
      else []).
Proof.
  intros cleared.
  destruct (clear_images_keeps cr self) as (_ & _ & _ & _ & _ & _ & _ & _ & Ha & _).
  fold cleared in Ha.
  rewrite render_commands. fold cleared.
  rewrite dispatch_log_from_app, clear_images_log, app_nil_l.
  rewrite dispatch_log_from_app, ray_trace_log. f_equal.
  destruct (m_denoise self); [|reflexivity].
  rewrite dispatch_log_from_app, reset_args_log. f_equal.
  rewrite dispatch_log_from_app, temporal_accumulation_log. f_equal.
  rewrite dispatch_log_from_app, a_trous_filter_log, Ha. f_equal.
  destruct (negb (scale_eqb (m_scale self) RAY_TRACE_SCALE_FULL_RES));
    [apply upsample_log | reflexivity].
Qed.

Lemma filter_if {A : Type} (f : A -> bool) (c : bool) (l1 l2 : list A) :
  filter f (if c then l1 else l2) = if c then filter f l1 else filter f l2.
Proof. destruct c; reflexivity. Qed.

(** The launches of a pipeline other than the two of the A-Trous loop. *)
Lemma render_dispatches_of p cr be ddgi self b :
  p <> ATrousPipeline -> p <> CopyTilesPipeline ->
  let cleared := object (clear_images cr self) in
  dispatches_of p b (commands (render cr be ddgi self)) =
  dispatches_of p no_bindings (commands (ray_trace cr be ddgi cleared))
  ++ (if m_denoise self then
        dispatches_of p no_bindings (commands (reset_args cleared))
        ++ dispatches_of p no_bindings
             (commands (temporal_accumulation cr be cleared))
        ++ (if negb (scale_eqb (m_scale self) RAY_TRACE_SCALE_FULL_RES)
            then dispatches_of p no_bindings
                   (commands (upsample be
                                (object (a_trous_filter cr cleared))))
            else [])
      else []).
Proof.
  intros H1 H2 cleared. unfold dispatches_of.
  rewrite render_log. fold cleared.
  rewrite filter_app, filter_if. f_equal.
  destruct (m_denoise self); [|reflexivity].
  rewrite !filter_app, other_launches_filter, filter_if by assumption.
  reflexivity.
Qed.

(** The filter launches of a frame that denoises. *)
Lemma render_a_trous_launches cr be ddgi self b :
  m_denoise self = true ->
  dispatches_of ATrousPipeline b (commands (render cr be ddgi self)) =
  map (a_trous_launch cr (object (clear_images cr self)))
    (loop_indices 0 (Z.to_nat (filter_iterations (m_a_trous self)))).
Proof.
  intros Hd. unfold dispatches_of. rewrite render_log, Hd.
  rewrite !filter_app, a_trous_launches_filter, filter_if.
  destruct (negb (scale_eqb (m_scale self) RAY_TRACE_SCALE_FULL_RES));
    simpl; rewrite app_nil_r; reflexivity.
Qed.

Lemma nth_a_trous_launch cr self n i :
  0 <= i < n ->
  nth_error (map (a_trous_launch cr self) (loop_indices 0 (Z.to_nat n)))
    (Z.to_nat i)
  = Some (a_trous_launch cr self i).
Proof.
  intros Hi. rewrite nth_error_map, loop_indices_nth by lia.
  simpl. rewrite Z2Nat.id by lia. reflexivity.
Qed.

Lemma a_trous_launch_writes cr self i :
  written_images (a_trous_launch cr self i) = [ATrousImage ((i + 1) mod 2)].
Proof.
  unfold written_images, a_trous_launch, a_trous_input_ds. simpl.
  rewrite b2z_not_odd. destruct (i =? 0); reflexivity.
Qed.

Lemma a_trous_launch_samples cr self i :
  sampled_images (a_trous_launch cr self i) =
  [if i =? 0 then CurrentOutputImage (Z.b2z (ping_pong cr))
   else ATrousImage (i mod 2)].
Proof.
  unfold sampled_images, a_trous_launch, a_trous_input_ds. simpl.
  rewrite b2z_odd. destruct (i =? 0); reflexivity.
Qed.

Lemma render_read_idx cr be ddgi self :
  m_denoise self = true ->
  read_idx (m_a_trous (object (render cr be ddgi self))) =
  if filter_iterations (m_a_trous self) <=? 0
  then 1 else filter_iterations (m_a_trous self) mod 2.
Proof.
  intros Hd. rewrite render_object, Hd, a_trous_filter_read_idx.
  destruct (clear_images_keeps cr self) as (_ & _ & _ & _ & _ & _ & _ & _ & Ha & _).
  rewrite Ha. reflexivity.
Qed.

Lemma scale_eqb_eq a b : scale_eqb a b = true <-> a = b.
Proof. destruct a, b; unfold scale_eqb; simpl; split; congruence. Qed.

Lemma shl_i32_pow2 i : 0 <= i <= 30 -> shl_i32 1 i = 2 ^ i.
Proof.
  intros Hi. unfold shl_i32, wrap_s32. rewrite Z.shiftl_1_l.
  assert (0 < 2 ^ i) by (apply Z.pow_pos_nonneg; lia).
  assert (2 ^ i <= 2 ^ 30) by (apply Z.pow_le_mono_r; lia).
  rewrite Z.mod_small; lia.
Qed.

(** The events of the single passes, whatever was bound before. *)
Lemma clear_images_events cr self b :
  pass_events_from b (commands (clear_images cr self)) = [].
Proof.
  unfold clear_images, bind, this. simpl.
  destruct (m_first_frame self); reflexivity.
Qed.

Lemma ray_trace_events cr be ddgi self b :
  pass_events_from b (commands (ray_trace cr be ddgi self)) =
  [Launch (Some RayTracePipeline) (WorkTrace (m_width self) (m_height self) 1)].
Proof. reflexivity. Qed.

Lemma reset_args_events self b :
  pass_events_from b (commands (reset_args self)) =
  [Launch (Some ResetArgsPipeline) (WorkDirect 1 1 1)].
Proof. reflexivity. Qed.

Lemma temporal_accumulation_events cr be self b :
  pass_events_from b (commands (temporal_accumulation cr be self)) =
  [Launch (Some TemporalAccumulationPipeline)
     (WorkDirect (ceil_div (m_width self) TEMPORAL_ACCUMULATION_NUM_THREADS_X)
        (ceil_div (m_height self) TEMPORAL_ACCUMULATION_NUM_THREADS_Y) 1);
   ArgsBarrier].
Proof. reflexivity. Qed.

Lemma a_trous_filter_events cr self b :
  pass_events_from b (commands (a_trous_filter cr self)) =
  a_trous_events (Z.to_nat (filter_iterations (m_a_trous self))).
Proof.
  rewrite a_trous_filter_commands, pass_events_from_app, a_trous_loop_events.
  simpl. apply app_nil_r.
Qed.

Lemma upsample_events be self b :
  pass_events_from b (commands (upsample be self)) =
  [Launch (Some UpsamplePipeline)
     (WorkDirect (ceil_div (swap_chain_width be) 8)
        (ceil_div (swap_chain_height be) 8) 1)].
Proof. reflexivity. Qed.

Lemma render_keeps cr be ddgi self :
  let self' := object (render cr be ddgi self) in
  m_scale self' = m_scale self
  /\ m_denoise self' = m_denoise self
  /\ m_current_output self' = m_current_output self
  /\ m_first_frame self' = false.
Proof.
  destruct (clear_images_keeps cr self)
    as (Hs & _ & _ & _ & Hd & Ho & _ & _ & _ & Hf).
  simpl. rewrite render_object.
  destruct (m_denoise self) eqn:E.
  - rewrite a_trous_filter_object. simpl. auto.
  - auto.
Qed.

Lemma produced_images_render cr be ddgi self b :
  produced_images b (commands (render cr be ddgi self)) =
  [RayTraceImage]
  ++ (if m_denoise self then
        [CurrentOutputImage (Z.b2z (ping_pong cr));
         CurrentMomentsImage (Z.b2z (ping_pong cr))]
        ++ flat_map written_images
             (flat_map (iteration_launches cr (object (clear_images cr self)))
                (loop_indices 0
                   (Z.to_nat (filter_iterations (m_a_trous self)))))
        ++ (if negb (scale_eqb (m_scale self) RAY_TRACE_SCALE_FULL_RES)
            then [UpsampleImage] else [])
      else []).
Proof.
  unfold produced_images. rewrite render_log, flat_map_app. f_equal.
  destruct (m_denoise self); [|reflexivity].
  rewrite !flat_map_app.
  assert (Hta : forall s,
    flat_map written_images
      (dispatch_log_from no_bindings (commands (temporal_accumulation cr be s)))
    = [CurrentOutputImage (Z.b2z (ping_pong cr));
       CurrentMomentsImage (Z.b2z (ping_pong cr))]).
  { intros s. simpl.
    destruct (blur_as_input (m_temporal_accumulation s)); reflexivity. }
  rewrite Hta.
  change (flat_map written_images
            (dispatch_log_from no_bindings
               (commands (reset_args (object (clear_images cr self))))))
    with (@nil Image).
  rewrite app_nil_l. do 2 f_equal.
  destruct (negb (scale_eqb (m_scale self) RAY_TRACE_SCALE_FULL_RES));
    reflexivity.
Qed.

(** The slot written by the last of [n >= 1] iterations is among the
    images the loop's launches write. *)
Lemma last_slot_written cr self n :
  1 <= n ->
  In (ATrousImage (n mod 2))
    (flat_map written_images
       (flat_map (iteration_launches cr self) (loop_indices 0 (Z.to_nat n)))).
Proof.
  intros Hn. apply in_flat_map. exists (a_trous_launch cr self (n - 1)). split.
  - apply in_flat_map. exists (n - 1). split.
    + apply nth_error_In with (n := Z.to_nat (n - 1)).
      rewrite loop_indices_nth by lia. f_equal. lia.
    + simpl. auto.
  - rewrite a_trous_launch_writes. replace (n - 1 + 1) with n by lia.
    simpl. auto.
Qed.

(** The temporal accumulation launch of a render. *)
Lemma render_temporal_launches cr be ddgi self b :
  dispatches_of TemporalAccumulationPipeline b
    (commands (render cr be ddgi self)) =
  if m_denoise self then
    dispatches_of TemporalAccumulationPipeline no_bindings
      (commands (temporal_accumulation cr be (object (clear_images cr self))))
  else [].
Proof.
  rewrite render_dispatches_of by discriminate.
  destruct (m_denoise self); [|reflexivity].
  destruct (negb (scale_eqb (m_scale self) RAY_TRACE_SCALE_FULL_RES));
    simpl; rewrite ?app_nil_r; reflexivity.
Qed.

Lemma temporal_launch_slots cr be self r :
  In r (dispatches_of TemporalAccumulationPipeline no_bindings
          (commands (temporal_accumulation cr be self))) ->
  written_images r = [CurrentOutputImage (Z.b2z (ping_pong cr));
                      CurrentMomentsImage (Z.b2z (ping_pong cr))]
  /\ sampled_images r =
     RayTraceImage
     :: (if blur_as_input (m_temporal_accumulation self)
         then [PrevImage; CurrentMomentsImage (Z.b2z (negb (ping_pong cr)))]
         else [CurrentOutputImage (Z.b2z (negb (ping_pong cr)));
               CurrentMomentsImage (Z.b2z (negb (ping_pong cr)))]).
Proof.
  simpl. intros [<-|[]].
  destruct (blur_as_input (m_temporal_accumulation self));
    split; reflexivity.
Qed.





(** ** What the commands do to the images *)

Section GpuProperties.

Variables texels bufdata external : Type.
Variable shader_image : ShaderInput texels bufdata external -> nat -> texels.
Variable shader_buffer : ShaderInput texels bufdata external -> nat -> bufdata.
Variable cleared : float32 * float32 * float32 * float32 -> texels.
Variable discarded : texels -> texels.
Variable ext : external.

Local Notation "'gpu'" :=
  (exec shader_image shader_buffer cleared discarded ext).
Local Notation "'State'" := (Bindings * Memory texels bufdata)%type.



End GpuProperties.

(** ** The claims *)

(** C4.  In a frame that denoises, the launches are recorded in the order
    ray trace, reset args, temporal accumulation, then per A-Trous
    iteration the indirect copy-tiles launch and the indirect filter
    launch, then the upsample launch if the scale is not full resolution;
    and exactly one barrier that hands both dispatch argument buffers from
    shader writes to indirect command reads is recorded, after the
    temporal accumulation launch and before every indirect launch. *)
Theorem C4_pass_order cr be ddgi self b :
  m_denoise self = true ->
  pass_events_from b (commands (render cr be ddgi self)) =
  [Launch (Some RayTracePipeline)
     (WorkTrace (m_width self) (m_height self) 1);
   Launch (Some ResetArgsPipeline) (WorkDirect 1 1 1);
   Launch (Some TemporalAccumulationPipeline)
     (WorkDirect (ceil_div (m_width self) TEMPORAL_ACCUMULATION_NUM_THREADS_X)
        (ceil_div (m_height self) TEMPORAL_ACCUMULATION_NUM_THREADS_Y) 1);
   ArgsBarrier]
  ++ a_trous_events (Z.to_nat (filter_iterations (m_a_trous self)))
  ++ (if scale_eqb (m_scale self) RAY_TRACE_SCALE_FULL_RES then []
      else [Launch (Some UpsamplePipeline)
              (WorkDirect (ceil_div (swap_chain_width be) 8)
                 (ceil_div (swap_chain_height be) 8) 1)]).
Proof.
  intros Hd.
  destruct (clear_images_keeps cr self)
    as (_ & _ & Hw & Hh & _ & _ & _ & _ & Ha & _).
  rewrite render_commands, Hd.
  rewrite !pass_events_from_app.
  rewrite clear_images_events, app_nil_l.
  rewrite ray_trace_events, reset_args_events, temporal_accumulation_events.
  rewrite a_trous_filter_events, Hw, Hh, Ha.
  simpl app. do 5 f_equal.
  destruct (scale_eqb (m_scale self) RAY_TRACE_SCALE_FULL_RES);
    [reflexivity | apply upsample_events].
Qed.

Lemma C4_pass_order_witness :
  let self := Sample.fresh 2 1 true true RAY_TRACE_SCALE_HALF_RES in
  m_denoise self = true
  /\ pass_events_from no_bindings
       (commands (render Sample.cr Sample.backend Sample.ddgi self))
     = [Launch (Some RayTracePipeline) (WorkTrace 32 32 1);
        Launch (Some ResetArgsPipeline) (WorkDirect 1 1 1);
        Launch (Some TemporalAccumulationPipeline) (WorkDirect 4 4 1);
        ArgsBarrier;
        Launch (Some CopyTilesPipeline) (WorkIndirect CopyDispatchArgsBuffer 0);
        Launch (Some ATrousPipeline) (WorkIndirect DenoiseDispatchArgsBuffer 0);
        Launch (Some CopyTilesPipeline) (WorkIndirect CopyDispatchArgsBuffer 0);
        Launch (Some ATrousPipeline) (WorkIndirect DenoiseDispatchArgsBuffer 0);
        Launch (Some UpsamplePipeline) (WorkDirect 8 8 1)].
Proof.
  split; [reflexivity|].
  exact (C4_pass_order Sample.cr Sample.backend Sample.ddgi
           (Sample.fresh 2 1 true true RAY_TRACE_SCALE_HALF_RES)
           no_bindings eq_refl).
Defined.

(** C5, evaluated on the first frame.  A newly constructed instance has
    [m_first_frame] set; its first [render] clears the previous image and
    the previous-parity output and moments images to zero, and resets the
    flag at the end of [clear_images], so the ray trace pass of that same
    first frame is already recorded with the flag reset.  With the flag
    reset [clear_images] records nothing, and after any call of [update]
    the flag is reset. *)
Theorem C5_first_frame_flag be h scale g cr ddgi :
  let self := gui g (RayTracedReflections_new be h scale) in
  let prev := Z.b2z (negb (ping_pong cr)) in
  m_first_frame self = true
  /\ commands (clear_images cr self) =
     [SetImageLayout PrevImage LAYOUT_UNDEFINED LAYOUT_GENERAL;
      SetImageLayout (CurrentOutputImage prev) LAYOUT_UNDEFINED LAYOUT_GENERAL;
      SetImageLayout (CurrentMomentsImage prev) LAYOUT_UNDEFINED LAYOUT_GENERAL;
      ClearColorImage PrevImage LAYOUT_GENERAL (0, 0, 0, 0);
      ClearColorImage (CurrentOutputImage prev) LAYOUT_GENERAL (0, 0, 0, 0);
      ClearColorImage (CurrentMomentsImage prev) LAYOUT_GENERAL (0, 0, 0, 0);
      SetImageLayout PrevImage LAYOUT_GENERAL LAYOUT_SHADER_READ_ONLY_OPTIMAL;
      SetImageLayout (CurrentOutputImage prev) LAYOUT_GENERAL
        LAYOUT_SHADER_READ_ONLY_OPTIMAL;
      SetImageLayout (CurrentMomentsImage prev) LAYOUT_GENERAL
        LAYOUT_SHADER_READ_ONLY_OPTIMAL]
  /\ m_first_frame (object (clear_images cr self)) = false
  /\ (exists rest,
        commands (render cr be ddgi self) =
        commands (clear_images cr self)
        ++ commands (ray_trace cr be ddgi (set_first_frame false self))
        ++ rest)
  /\ (forall later,
        m_first_frame later = false ->
        clear_images cr later = (tt, later, []))
  /\ (forall inp a, m_first_frame (reflections (update h inp a)) = false).
Proof.
  intros self prev.
  split; [reflexivity|]. split; [reflexivity|]. split; [reflexivity|].
  split; [|split].
  - eexists. rewrite render_commands. reflexivity.
  - intros later Hl. unfold clear_images, bind, this. rewrite Hl. reflexivity.
  - intros inp a. unfold update. simpl.
    apply (render_keeps (frame_common inp (common a)) (fi_backend inp)
             (fi_ddgi inp) (settings_window h inp (reflections a))).
Qed.


(** C7, as amended.  For every iteration [i <= 30] of a frame that
    denoises, the step size pushed to the filter launch of iteration [i]
    is [2^i]. *)
Theorem C7_step_size cr be ddgi self b i :
  m_denoise self = true ->
  0 <= i < filter_iterations (m_a_trous self) ->
  i <= 30 ->
  exists r,
    nth_error
      (dispatches_of ATrousPipeline b (commands (render cr be ddgi self)))
      (Z.to_nat i) = Some r
    /\ step_size_of r = Some (2 ^ i).
Proof.
  intros Hd Hi H30.
  exists (a_trous_launch cr (object (clear_images cr self)) i).
  rewrite render_a_trous_launches by assumption.
  split; [apply nth_a_trous_launch; exact Hi|].
  unfold step_size_of. simpl. rewrite shl_i32_pow2 by lia. reflexivity.
Qed.

Lemma C7_step_size_witness :
  let self := Sample.fresh 2 1 true true RAY_TRACE_SCALE_HALF_RES in
  m_denoise self = true
  /\ 0 <= 1 < filter_iterations (m_a_trous self)
  /\ 1 <= 30
  /\ exists r,
       nth_error
         (dispatches_of ATrousPipeline no_bindings
            (commands (render Sample.cr Sample.backend Sample.ddgi self)))
         (Z.to_nat 1) = Some r
       /\ step_size_of r = Some (2 ^ 1).
Proof.
  split; [reflexivity|]. split; [simpl; lia|]. split; [lia|].
  apply (C7_step_size Sample.cr Sample.backend Sample.ddgi
           (Sample.fresh 2 1 true true RAY_TRACE_SCALE_HALF_RES)
           no_bindings 1).
  - reflexivity.
  - simpl. lia.
  - lia.
Defined.

(** C7 as stated fails at iteration 31: with 32 iterations the last filter
    launch is pushed [1 << 31], which as an [int] is [-2^31], not [2^31]. *)
Lemma C7_counterexample :
  let self := Sample.fresh 32 0 false false RAY_TRACE_SCALE_FULL_RES in
  exists r,
    nth_error
      (dispatches_of ATrousPipeline no_bindings
         (commands (render Sample.cr Sample.backend Sample.ddgi self)))
      31 = Some r
    /\ step_size_of r = Some (-2147483648)
    /\ step_size_of r <> Some (2 ^ 31).
Proof.
  eexists. split; [vm_compute; reflexivity|].
  split; [reflexivity | vm_compute; discriminate].
Qed.

(** C8, evaluated on the first frame.  A newly constructed instance, with
    whatever the settings window holds, is rendered for the first time:
    the ray trace, temporal accumulation and filter launches are pushed
    the configured [sample_gi] and [approximate_with_ddgi] (1 when ticked),
    because [clear_images] has already reset [m_first_frame]. *)
Theorem C8_first_frame_flags be h scale g cr ddgi b :
  let self := gui g (RayTracedReflections_new be h scale) in
  let frame := render cr be ddgi self in
  m_first_frame self = true
  /\ (exists pc,
        map d_push (dispatches_of RayTracePipeline b (commands frame))
        = [Some (PushRayTrace pc)]
        /\ rt_sample_gi pc = flag (gui_sample_gi g)
        /\ rt_approximate_with_ddgi pc = flag (gui_approximate_with_ddgi g))
  /\ (gui_denoise g = true ->
      (exists pc,
         map d_push
           (dispatches_of TemporalAccumulationPipeline b (commands frame))
         = [Some (PushTemporalAccumulation pc)]
         /\ ta_approximate_with_ddgi pc = flag (gui_approximate_with_ddgi g))
      /\ (forall r, In r (dispatches_of ATrousPipeline b (commands frame)) ->
          exists pc, d_push r = Some (PushATrous pc)
            /\ at_approximate_with_ddgi pc
               = flag (gui_approximate_with_ddgi g))).
Proof.
  intros self frame. split; [reflexivity|]. split.
  - unfold frame. rewrite render_dispatches_of by discriminate.
    eexists. split.
    + destruct (m_denoise self);
        [destruct (negb (scale_eqb (m_scale self) RAY_TRACE_SCALE_FULL_RES))|];
        reflexivity.
    + simpl. rewrite !andb_true_r. split; reflexivity.
  - intros Hg. split.
    + unfold frame. rewrite render_dispatches_of by discriminate.
      eexists. split.
      * change (m_denoise self) with (gui_denoise g). rewrite Hg.
        destruct (negb (scale_eqb (m_scale self) RAY_TRACE_SCALE_FULL_RES));
          reflexivity.
      * simpl. rewrite !andb_true_r. reflexivity.
    + intros r Hr. unfold frame in Hr.
      rewrite render_a_trous_launches in Hr by exact Hg.
      apply in_map_iff in Hr. destruct Hr as (i & Hr & _). subst r.
      eexists. split; [reflexivity|]. simpl. rewrite andb_true_r. reflexivity.
Qed.

(** The same on a concrete first frame: both boxes ticked, one iteration;
    the push constants of the five launches, in order. *)
Example C8_failing_input :
  let self := Sample.fresh 1 0 false true RAY_TRACE_SCALE_FULL_RES in
  m_first_frame self = true
  /\ map d_push
       (dispatch_log_from no_bindings
          (commands (render Sample.cr Sample.backend Sample.ddgi self)))
     = [Some (PushRayTrace
                {| rt_bias := 0; rt_trim := 0; rt_num_frames := 0;
                   rt_g_buffer_mip := 0; rt_sample_gi := 1;
                   rt_approximate_with_ddgi := 1; rt_gi_intensity := 0;
                   rt_rough_ddgi_intensity := 0;
                   rt_ibl_indirect_specular_intensity := 0 |});
        None;
        Some (PushTemporalAccumulation
                {| ta_camera_delta := (0, 0, 0); ta_frame_time := 0;
                   ta_alpha := 0; ta_moments_alpha := 0; ta_g_buffer_mip := 0;
                   ta_approximate_with_ddgi := 1 |});
        None;
        Some (PushATrous
                {| at_radius := 1; at_step_size := 1; at_phi_color := 0;
                   at_phi_normal := 0; at_sigma_depth := 0;
                   at_g_buffer_mip := 0; at_approximate_with_ddgi := 1 |})].
Proof. split; vm_compute; reflexivity. Qed.

(** C9.  A frame records an upsample launch if and only if denoising is
    enabled and the scale is not full resolution. *)
Theorem C9_upsample_iff cr be ddgi self b :
  dispatches_of UpsamplePipeline b (commands (render cr be ddgi self)) <> []
  <-> (m_denoise self = true /\ m_scale self <> RAY_TRACE_SCALE_FULL_RES).
Proof.
  rewrite render_dispatches_of by discriminate.
  change (dispatches_of UpsamplePipeline no_bindings
            (commands (ray_trace cr be ddgi (object (clear_images cr self)))))
    with (@nil DispatchRecord).
  destruct (m_denoise self).
  - change (dispatches_of UpsamplePipeline no_bindings
              (commands (reset_args (object (clear_images cr self)))))
      with (@nil DispatchRecord).
    change (dispatches_of UpsamplePipeline no_bindings
              (commands (temporal_accumulation cr be
                           (object (clear_images cr self)))))
      with (@nil DispatchRecord).
    destruct (scale_eqb (m_scale self) RAY_TRACE_SCALE_FULL_RES) eqn:E; simpl.
    + apply scale_eqb_eq in E. split; [congruence|]. intros [_ H]. contradiction.
    + split; [|discriminate]. intros _. split; [reflexivity|].
      intros H. apply scale_eqb_eq in H. congruence.
  - simpl. split; [congruence|]. intros [H _]. discriminate.
Qed.


(** * Further properties *)

(** ** The settings window and the frame loop *)

Lemma settings_window_fields h inp r :
  let r' := settings_window h inp r in
  m_denoise r' = gui_denoise (fi_gui inp)
  /\ m_first_frame r' = match fi_scale inp with
                        | Some _ => true
                        | None => m_first_frame r
                        end
  /\ filter_iterations (m_a_trous r')
     = match fi_scale inp with
       | Some _ => filter_iterations (default_a_trous h)
       | None => filter_iterations (m_a_trous r)
       end.
Proof.
  unfold settings_window.
  destruct (fi_scale inp); destruct (fi_output inp); repeat split.
Qed.

Lemma settings_window_blur h inp r :
  blur_as_input (m_temporal_accumulation (settings_window h inp r))
  = gui_blur_as_input (fi_gui inp).
Proof.
  unfold settings_window. destruct (fi_scale inp); destruct (fi_output inp);
    reflexivity.
Qed.

Lemma update_common h inp a :
  ping_pong (common (update h inp a)) = negb (ping_pong (common a))
  /\ first_frame (common (update h inp a)) = false
  /\ num_frames (common (update h inp a))
     = wrap_u32 (num_frames (common a) + 1)
  /\ m_first_frame (reflections (update h inp a)) = false.
Proof.
  unfold update. cbn [common reflections ping_pong first_frame num_frames
                        frame_common].
  repeat split.
  - destruct (first_frame (common a)); reflexivity.
  - apply render_keeps.
Qed.

Lemma wrap_u32_add_1 n k :
  wrap_u32 (wrap_u32 (n + k) + 1) = wrap_u32 (n + (k + 1)).
Proof.
  unfold wrap_u32. rewrite Z.add_mod_idemp_l by lia. f_equal. lia.
Qed.

Lemma run_frames_snoc h inps inp a :
  run_frames h (inps ++ [inp]) a = update h inp (run_frames h inps a).
Proof.
  revert a. induction inps as [|i rest IH]; intros a; [reflexivity|].
  simpl. apply IH.
Qed.

Lemma run_frames_first_frame h inps a :
  inps <> [] ->
  m_first_frame (reflections (run_frames h inps a)) = false.
Proof.
  destruct inps as [|inp rest] using rev_ind; [congruence|].
  intros _. rewrite run_frames_snoc. apply update_common.
Qed.

(** ** Launches do not depend on earlier passes *)

(** X1: The work [render] launches, with its pipelines, descriptor sets
    and push constants, is the same whatever pipelines, sets and push
    constants the earlier passes of the command buffer left bound. *)
Theorem render_launches_ignore_bindings cr be ddgi self b b' :
  dispatch_log_from b (commands (render cr be ddgi self))
  = dispatch_log_from b' (commands (render cr be ddgi self)).
Proof. rewrite !render_log. reflexivity. Qed.

(** ** Array indices stay in range *)

Lemma b2z_in_bounds x : 0 <= Z.b2z x < 2.
Proof. destruct x; simpl; lia. Qed.

Lemma Forall_bounds_app (l1 l2 : list Z) :
  Forall (fun i => 0 <= i < 2) l1 -> Forall (fun i => 0 <= i < 2) l2 ->
  Forall (fun i => 0 <= i < 2) (l1 ++ l2).
Proof. intros H1 H2. apply Forall_app. split; assumption. Qed.

Lemma a_trous_iteration_indices cr i loc self :
  Forall (fun k => 0 <= k < 2)
    (flat_map cmd_indices (commands (a_trous_iteration cr i loc self))).
Proof.
  rewrite a_trous_iteration_commands, flat_map_app.
  pose proof (b2z_in_bounds (loc_ping_pong loc)) as H1.
  pose proof (b2z_in_bounds (negb (loc_ping_pong loc))) as H2.
  pose proof (b2z_in_bounds (ping_pong cr)) as H3.
  apply Forall_bounds_app.
  - unfold a_trous_dispatches. destruct (i =? 0); simpl;
      repeat (constructor; try assumption).
  - destruct ((feedback_iteration (m_a_trous self) =? i)
              && blur_as_input (m_temporal_accumulation self)); simpl;
      repeat (constructor; try assumption).
Qed.

Lemma a_trous_loop_indices cr self count : forall i loc,
  Forall (fun k => 0 <= k < 2)
    (flat_map cmd_indices (commands (a_trous_loop cr count i loc self))).
Proof.
  induction count as [|count IH]; intros i loc; [constructor|].
  rewrite a_trous_loop_commands, flat_map_app.
  apply Forall_bounds_app; [apply a_trous_iteration_indices | apply IH].
Qed.

Lemma a_trous_loop_write_idx cr self count : forall i loc,
  0 <= loc_write_idx loc < 2 ->
  0 <= loc_write_idx (result (a_trous_loop cr count i loc self)) < 2.
Proof.
  induction count as [|count IH]; intros i loc H; [exact H|].
  rewrite a_trous_loop_result_step. apply IH. simpl. apply b2z_in_bounds.
Qed.

Lemma a_trous_filter_read_idx_bounds cr self :
  0 <= read_idx (m_a_trous (object (a_trous_filter cr self))) < 2.
Proof.
  rewrite a_trous_filter_object. simpl.
  apply a_trous_loop_write_idx. simpl. lia.
Qed.

(** X2: Every index with which [render] picks an element of one of the
    two-element image and descriptor set arrays is 0 or 1, for every
    state of the object, and so is the index behind the set [output_ds]
    returns afterwards. *)
Theorem render_indices_in_bounds cr be ddgi self :
  Forall (fun i => 0 <= i < 2)
    (flat_map cmd_indices (commands (render cr be ddgi self)))
  /\ Forall (fun i => 0 <= i < 2)
       (ds_index (output_ds cr (object (render cr be ddgi self)))).
Proof.
  pose proof (b2z_in_bounds (ping_pong cr)) as Hp.
  pose proof (b2z_in_bounds (negb (ping_pong cr))) as Hn.
  split.
  - rewrite render_commands. rewrite !flat_map_app.
    apply Forall_bounds_app; [|apply Forall_bounds_app].
    + unfold clear_images, bind, this. simpl.
      destruct (m_first_frame self); simpl;
        repeat (constructor; try assumption).
    + simpl. constructor.
    + destruct (m_denoise self); [|constructor].
      rewrite !flat_map_app.
      apply Forall_bounds_app; [|apply Forall_bounds_app;
                                  [|apply Forall_bounds_app]].
      * simpl. constructor.
      * simpl.
        destruct (blur_as_input
                    (m_temporal_accumulation (object (clear_images cr self))));
          repeat (constructor; try assumption).
      * rewrite a_trous_filter_commands, flat_map_app.
        apply Forall_bounds_app; [apply a_trous_loop_indices|].
        simpl. constructor; [|constructor].
        apply a_trous_loop_write_idx. simpl. lia.
      * destruct (negb (scale_eqb (m_scale self) RAY_TRACE_SCALE_FULL_RES));
          [|constructor].
        simpl. constructor; [|constructor].
        apply a_trous_filter_read_idx_bounds.
  - destruct (render_keeps cr be ddgi self) as (Hs & Hd & Ho & _).
    unfold output_ds. rewrite Hd.
    destruct (m_denoise self) eqn:Ed; [|constructor].
    assert (Hr : 0 <= read_idx (m_a_trous (object (render cr be ddgi self))) < 2).
    { rewrite render_object, Ed. apply a_trous_filter_read_idx_bounds. }
    destruct (m_current_output (object (render cr be ddgi self)));
      try destruct (scale_eqb _ _); simpl;
      repeat (constructor; try assumption).
Qed.

(** ** Which images a frame can change *)

Lemma targets_from_app b c1 c2 :
  targets_from b (c1 ++ c2) =
  targets_from b c1 ++ targets_from (bindings_after b c1) c2.
Proof.
  revert b. induction c1 as [|c rest IH]; intros b; [reflexivity|].
  simpl. rewrite IH, app_assoc. reflexivity.
Qed.

Lemma a_trous_iteration_targets cr i loc self b img :
  In img (targets_from b (commands (a_trous_iteration cr i loc self))) ->
  (exists k, img = ATrousImage k)
  \/ (img = PrevImage
      /\ blur_as_input (m_temporal_accumulation self) = true
      /\ feedback_iteration (m_a_trous self) = i).
Proof.
  rewrite a_trous_iteration_commands, targets_from_app. intros H.
  apply in_app_or in H. destruct H as [H|H].
  - left. unfold a_trous_dispatches in H.
    destruct (i =? 0); simpl in H;
      repeat (destruct H as [H|H]; [eexists; symmetry; exact H|]);
      contradiction.
  - destruct (feedback_iteration (m_a_trous self) =? i) eqn:E;
      destruct (blur_as_input (m_temporal_accumulation self)) eqn:E2;
      simpl in H; try contradiction.
    destruct H as [H|[]]. right. apply Z.eqb_eq in E. auto.
Qed.

Lemma a_trous_loop_targets cr self img count : forall i loc b,
  In img (targets_from b (commands (a_trous_loop cr count i loc self))) ->
  (exists k, img = ATrousImage k)
  \/ (img = PrevImage
      /\ blur_as_input (m_temporal_accumulation self) = true
      /\ i <= feedback_iteration (m_a_trous self) < i + Z.of_nat count).
Proof.
  induction count as [|count IH]; intros i loc b H; [contradiction|].
  rewrite a_trous_loop_commands, targets_from_app in H.
  apply in_app_or in H. destruct H as [H|H].
  - apply a_trous_iteration_targets in H.
    destruct H as [H|(H1 & H2 & H3)]; [left; exact H|].
    right. repeat split; try assumption; lia.
  - apply IH in H. destruct H as [H|(H1 & H2 & H3)]; [left; exact H|].
    right. repeat split; try assumption; lia.
Qed.

(** The images a frame can change, by cause. *)
Lemma render_targets cr be ddgi self b img :
  In img (targets_from b (commands (render cr be ddgi self))) ->
  (m_first_frame self = true
   /\ In img [PrevImage;
              CurrentOutputImage (Z.b2z (negb (ping_pong cr)));
              CurrentMomentsImage (Z.b2z (negb (ping_pong cr)))])
  \/ img = RayTraceImage
  \/ (m_denoise self = true
      /\ (In img [CurrentOutputImage (Z.b2z (ping_pong cr));
                  CurrentMomentsImage (Z.b2z (ping_pong cr))]
          \/ (exists k, img = ATrousImage k)
          \/ (img = PrevImage
              /\ blur_as_input (m_temporal_accumulation self) = true
              /\ 0 <= feedback_iteration (m_a_trous self)
                 < filter_iterations (m_a_trous self))
          \/ (img = UpsampleImage
              /\ m_scale self <> RAY_TRACE_SCALE_FULL_RES))).
Proof.
  destruct (clear_images_keeps cr self)
    as (_ & _ & _ & _ & _ & _ & _ & Ht & Ha & _).
  rewrite render_commands. rewrite targets_from_app. intros H.
  apply in_app_or in H. destruct H as [H|H].
  { left. unfold clear_images, bind, this in H. simpl in H.
    destruct (m_first_frame self); simpl in H; [|contradiction].
    split; [reflexivity|].
    repeat (destruct H as [H|H]; [subst img; simpl; tauto|]). contradiction. }
  rewrite targets_from_app in H.
  apply in_app_or in H. destruct H as [H|H].
  { right. left. simpl in H. destruct H as [H|[H|[]]]; congruence. }
  right. right. destruct (m_denoise self); [|contradiction].
  split; [reflexivity|].
  rewrite targets_from_app in H.
  apply in_app_or in H. destruct H as [H|H]; [simpl in H; contradiction|].
  rewrite targets_from_app in H.
  apply in_app_or in H. destruct H as [H|H].
  { left. simpl in H.
    destruct (blur_as_input
                (m_temporal_accumulation (object (clear_images cr self))));
      simpl in H;
      repeat (destruct H as [H|H]; [subst img; simpl; tauto|]);
      contradiction. }
  right. rewrite targets_from_app in H.
  apply in_app_or in H. destruct H as [H|H].
  - rewrite a_trous_filter_commands, targets_from_app in H.
    apply in_app_or in H. destruct H as [H|H]; [|simpl in H; contradiction].
    apply a_trous_loop_targets in H. rewrite Ht, Ha in H.
    destruct H as [H|(H1 & H2 & H3)]; [left; exact H|].
    right. left. repeat split; try assumption; lia.
  - right. right.
    destruct (scale_eqb (m_scale self) RAY_TRACE_SCALE_FULL_RES) eqn:E;
      simpl in H; [contradiction|].
    split.
    + destruct H as [H|[H|[]]]; congruence.
    + intros Hf. apply scale_eqb_eq in Hf. congruence.
Qed.

Lemma a_trous_loop_copies cr self count : forall i loc,
  length (filter is_copy (commands (a_trous_loop cr count i loc self))) =
  if blur_as_input (m_temporal_accumulation self)
     && (i <=? feedback_iteration (m_a_trous self))
     && (feedback_iteration (m_a_trous self) <? i + Z.of_nat count)
  then 1%nat else 0%nat.
Proof.
  induction count as [|count IH]; intros i loc.
  - simpl. destruct (blur_as_input (m_temporal_accumulation self)); simpl;
      [|reflexivity].
    destruct (Z.leb_spec i (feedback_iteration (m_a_trous self)));
      destruct (Z.ltb_spec (feedback_iteration (m_a_trous self)) (i + 0));
      simpl; try reflexivity; lia.
  - replace (i + Z.of_nat (S count)) with (i + 1 + Z.of_nat count) by lia.
    rewrite a_trous_loop_commands, filter_app, length_app, IH.
    rewrite a_trous_iteration_commands, filter_app, length_app.
    assert (Hd : length (filter is_copy
                           (commands (a_trous_dispatches cr i
                                        (Z.b2z (loc_ping_pong loc))
                                        (Z.b2z (negb (loc_ping_pong loc)))
                                        self))) = 0%nat).
    { unfold a_trous_dispatches. destruct (i =? 0); reflexivity. }
    rewrite Hd.
    destruct (blur_as_input (m_temporal_accumulation self)); simpl andb;
      [|rewrite andb_false_r; reflexivity].
    rewrite andb_true_r.
    destruct (Z.eqb_spec (feedback_iteration (m_a_trous self)) i);
      destruct (Z.leb_spec (i + 1) (feedback_iteration (m_a_trous self)));
      destruct (Z.ltb_spec (feedback_iteration (m_a_trous self))
                  (i + 1 + Z.of_nat count));
      destruct (Z.leb_spec i (feedback_iteration (m_a_trous self)));
      simpl; try reflexivity; lia.
Qed.

(** X3: A frame records exactly one image copy, the feedback copy, when
    denoising and [blur_as_input] are on and [0 <= feedback_iteration <
    filter_iterations]; in every other case it records none. *)
Theorem render_feedback_copy_count cr be ddgi self :
  length (filter is_copy (commands (render cr be ddgi self))) =
  if m_denoise self
     && blur_as_input (m_temporal_accumulation self)
     && (0 <=? feedback_iteration (m_a_trous self))
     && (feedback_iteration (m_a_trous self)
         <? filter_iterations (m_a_trous self))
  then 1%nat else 0%nat.
Proof.
  destruct (clear_images_keeps cr self)
    as (_ & _ & _ & _ & _ & _ & _ & Ht & Ha & _).
  rewrite render_commands, !filter_app, !length_app.
  assert (Hc : length (filter is_copy (commands (clear_images cr self))) = 0%nat).
  { unfold clear_images, bind, this. simpl.
    destruct (m_first_frame self); reflexivity. }
  rewrite Hc. simpl (length (filter is_copy (commands (ray_trace _ _ _ _)))).
  destruct (m_denoise self); [|reflexivity].
  rewrite !filter_app, !length_app.
  simpl (length (filter is_copy (commands (reset_args _)))).
  assert (Hta : length (filter is_copy
                   (commands (temporal_accumulation cr be
                                (object (clear_images cr self))))) = 0%nat)
    by reflexivity.
  rewrite Hta.
  rewrite a_trous_filter_commands, filter_app, length_app, a_trous_loop_copies.
  rewrite Ht, Ha.
  assert (Hu : length (filter is_copy
                 (if negb (scale_eqb (m_scale self) RAY_TRACE_SCALE_FULL_RES)
                  then commands
                         (upsample be
                            (object (a_trous_filter cr
                                       (object (clear_images cr self)))))
                  else [])) = 0%nat).
  { destruct (negb (scale_eqb (m_scale self) RAY_TRACE_SCALE_FULL_RES));
      reflexivity. }
  rewrite Hu, Z.add_0_l.
  destruct (blur_as_input (m_temporal_accumulation self));
    [|reflexivity].
  destruct (Z.leb_spec 0 (feedback_iteration (m_a_trous self)));
    destruct (Z.ltb_spec (feedback_iteration (m_a_trous self))
                (Z.of_nat (Z.to_nat (filter_iterations (m_a_trous self)))));
    destruct (Z.ltb_spec (feedback_iteration (m_a_trous self))
                (filter_iterations (m_a_trous self)));
    try reflexivity; lia.
Qed.

Section GpuFootprint.

Variables texels bufdata external : Type.
Variable shader_image : ShaderInput texels bufdata external -> nat -> texels.
Variable shader_buffer : ShaderInput texels bufdata external -> nat -> bufdata.
Variable cleared : float32 * float32 * float32 * float32 -> texels.
Variable discarded : texels -> texels.
Variable ext : external.

Local Notation "'gpu'" :=
  (exec shader_image shader_buffer cleared discarded ext).
Local Notation "'State'" := (Bindings * Memory texels bufdata)%type.

Lemma index_of_absent {A : Type} (eq_dec : forall a b : A, {a = b} + {a <> b})
  (x : A) (l : list A) :
  ~ In x l -> index_of eq_dec x l = None.
Proof.
  induction l as [|y l IH]; intros H; [reflexivity|].
  simpl. destruct (eq_dec x y) as [E|E].
  - exfalso. apply H. left. congruence.
  - rewrite IH; [reflexivity|]. intros Hin. apply H. right. exact Hin.
Qed.

Lemma transitions_keep (bs : list VkImageMemoryBarrier) img :
  forall m : Memory texels bufdata,
  ~ In img (map ib_image
              (filter (fun ib => is_undefined (ib_old_layout ib)) bs)) ->
  images
    (fold_left (fun m ib =>
                  transition discarded (ib_image ib) (ib_old_layout ib) m)
       bs m) img
  = images m img.
Proof.
  induction bs as [|ib bs IH]; intros m H; [reflexivity|].
  simpl fold_left. simpl in H. rewrite IH.
  - unfold transition. destruct (ib_old_layout ib); simpl in H;
      try reflexivity.
    simpl. destruct (Image_eq_dec img (ib_image ib)) as [E1|E1];
      [|reflexivity].
    exfalso. apply H. left. congruence.
  - intros Hin. apply H.
    destruct (is_undefined (ib_old_layout ib)); [right|]; exact Hin.
Qed.

Lemma exec_cmd_keeps (s : State) c img :
  ~ In img (cmd_targets (fst s) c) ->
  images (snd (exec_cmd shader_image shader_buffer cleared discarded ext s c))
    img
  = images (snd s) img.
Proof.
  unfold cmd_targets, exec_cmd. destruct (track (fst s) c) as [b' [r|]] eqn:E.
  - simpl. intros H. rewrite index_of_absent by exact H. reflexivity.
  - simpl. destruct c; simpl; intros H; try reflexivity.
    + apply transitions_keep. exact H.
    + destruct old_layout; simpl in *; try reflexivity.
      destruct (Image_eq_dec img img0) as [E1|E1]; [|reflexivity].
      exfalso. apply H. left. congruence.
    + destruct (Image_eq_dec img img0) as [E1|E1]; [|reflexivity].
      exfalso. apply H. left. congruence.
    + destruct (Image_eq_dec img dst) as [E1|E1]; [|reflexivity].
      exfalso. apply H. left. congruence.
Qed.

Lemma exec_cmd_bindings (s : State) c :
  fst (exec_cmd shader_image shader_buffer cleared discarded ext s c)
  = fst (track (fst s) c).
Proof.
  unfold exec_cmd. destruct (track (fst s) c) as [b' [r|]]; reflexivity.
Qed.

(** An image outside the targets of a command list keeps its contents. *)
Lemma exec_keeps cmds : forall (s : State) img,
  ~ In img (targets_from (fst s) cmds) ->
  images (snd (gpu cmds s)) img = images (snd s) img.
Proof.
  induction cmds as [|c rest IH]; intros s img H; [reflexivity|].
  simpl in H.
  change (images
            (snd (gpu rest
                    (exec_cmd shader_image shader_buffer cleared discarded
                       ext s c))) img
          = images (snd s) img).
  rewrite IH.
  - apply exec_cmd_keeps. intros Hin. apply H. apply in_or_app. left. exact Hin.
  - rewrite exec_cmd_bindings. intros Hin. apply H. apply in_or_app. right.
    exact Hin.
Qed.

(** X4: After an instance's first frame, [render] never changes the
    contents of the history slot: the output and moments images of slot
    [!ping_pong] are after the frame what they were before it. *)
Theorem render_keeps_history_slot cr be ddgi self (s : State) :
  m_first_frame self = false ->
  let after := snd (gpu (commands (render cr be ddgi self)) s) in
  images after (CurrentOutputImage (Z.b2z (negb (ping_pong cr))))
  = images (snd s) (CurrentOutputImage (Z.b2z (negb (ping_pong cr))))
  /\ images after (CurrentMomentsImage (Z.b2z (negb (ping_pong cr))))
     = images (snd s) (CurrentMomentsImage (Z.b2z (negb (ping_pong cr)))).
Proof.
  intros Hf. cbv zeta.
  split; apply exec_keeps; intros Hin; apply render_targets in Hin;
    destruct Hin as [[H _]|[H|[_ [H|[[k H]|[[H _]|[H _]]]]]]];
    try congruence; try discriminate;
    destruct (ping_pong cr); simpl in H;
    destruct H as [H|[H|[]]]; discriminate.
Qed.

(** X5: After the first frame the previous image is written by the
    feedback copy and by nothing else: a frame without denoising, without
    [blur_as_input], or with [feedback_iteration] outside the iterations
    that run leaves its contents as they were. *)
Theorem render_keeps_prev_image cr be ddgi self (s : State) :
  m_first_frame self = false ->
  m_denoise self = false
  \/ blur_as_input (m_temporal_accumulation self) = false
  \/ feedback_iteration (m_a_trous self) < 0
  \/ filter_iterations (m_a_trous self) <= feedback_iteration (m_a_trous self) ->
  images (snd (gpu (commands (render cr be ddgi self)) s)) PrevImage
  = images (snd s) PrevImage.
Proof.
  intros Hf Hoff. apply exec_keeps. intros Hin. apply render_targets in Hin.
  destruct Hin as [[H _]|[H|[Hd [H|[[k H]|[(_ & Hb & Hfb)|[H _]]]]]]];
    try congruence; try discriminate.
  - destruct H as [H|[H|[]]]; discriminate.
  - destruct Hoff as [H|[H|[H|H]]]; try congruence; lia.
Qed.

(** X6: With denoising off, a frame after the first only traces rays:
    it launches the ray trace pipeline and nothing else, leaves every
    field of the object as it was, and changes no image but the ray trace
    image. *)
Theorem render_without_denoise cr be ddgi self (s : State) :
  m_first_frame self = false ->
  m_denoise self = false ->
  object (render cr be ddgi self) = self
  /\ map d_pipeline (dispatch_log_from (fst s) (commands (render cr be ddgi self)))
     = [Some RayTracePipeline]
  /\ (forall img, img <> RayTraceImage ->
      images (snd (gpu (commands (render cr be ddgi self)) s)) img
      = images (snd s) img).
Proof.
  intros Hf Hd. split; [|split].
  - rewrite render_object, Hd, clear_images_object, Hf. reflexivity.
  - rewrite render_log, Hd. reflexivity.
  - intros img Hne. apply exec_keeps. intros Hin. apply render_targets in Hin.
    destruct Hin as [[H _]|[H|[H _]]]; congruence.
Qed.

End GpuFootprint.

Lemma render_keeps_history_slot_witness :
  let self := set_first_frame false
                (Sample.fresh 3 2 true true RAY_TRACE_SCALE_HALF_RES) in
  let cmds := commands (render Sample.cr Sample.backend Sample.ddgi self) in
  images (Sample.toy_exec cmds Sample.stale) (CurrentOutputImage 1)
  = images Sample.stale (CurrentOutputImage 1)
  /\ images (Sample.toy_exec cmds Sample.stale) (CurrentMomentsImage 1)
     = images Sample.stale (CurrentMomentsImage 1).
Proof.
  apply (render_keeps_history_slot Z unit unit Sample.toy_image
           Sample.toy_buffer Sample.toy_cleared Sample.toy_discarded tt
           Sample.cr Sample.backend Sample.ddgi
           (set_first_frame false
              (Sample.fresh 3 2 true true RAY_TRACE_SCALE_HALF_RES))
           (no_bindings, Sample.stale)).
  reflexivity.
Defined.

Lemma render_keeps_prev_image_witness :
  let self := set_first_frame false
                (Sample.fresh 3 5 true true RAY_TRACE_SCALE_HALF_RES) in
  let cmds := commands (render Sample.cr Sample.backend Sample.ddgi self) in
  images (Sample.toy_exec cmds Sample.stale) PrevImage
  = images Sample.stale PrevImage.
Proof.
  apply (render_keeps_prev_image Z unit unit Sample.toy_image
           Sample.toy_buffer Sample.toy_cleared Sample.toy_discarded tt
           Sample.cr Sample.backend Sample.ddgi
           (set_first_frame false
              (Sample.fresh 3 5 true true RAY_TRACE_SCALE_HALF_RES))
           (no_bindings, Sample.stale)).
  - reflexivity.
  - right. right. right. simpl. lia.
Defined.

Lemma render_without_denoise_witness :
  let self := gui (SampleFrames.values false true)
                (set_first_frame false
                   (Sample.fresh 3 2 true true RAY_TRACE_SCALE_HALF_RES)) in
  let frame := render Sample.cr Sample.backend Sample.ddgi self in
  object frame = self
  /\ map d_pipeline (dispatch_log_from no_bindings (commands frame))
     = [Some RayTracePipeline]
  /\ (forall img, img <> RayTraceImage ->
      images (Sample.toy_exec (commands frame) Sample.stale) img
      = images Sample.stale img).
Proof.
  apply (render_without_denoise Z unit unit Sample.toy_image
           Sample.toy_buffer Sample.toy_cleared Sample.toy_discarded tt
           Sample.cr Sample.backend Sample.ddgi
           (gui (SampleFrames.values false true)
              (set_first_frame false
                 (Sample.fresh 3 2 true true RAY_TRACE_SCALE_HALF_RES)))
           (no_bindings, Sample.stale));
    reflexivity.
Defined.

(** ** Image layouts *)

Lemma check_app c1 c2 s :
  check (c1 ++ c2) s =
  match check c1 s with
  | Some s' => check c2 s'
  | None => None
  end.
Proof.
  revert s. induction c1 as [|c rest IH]; intros s; [reflexivity|].
  simpl. destruct (check_cmd s c); [apply IH | reflexivity].
Qed.

(** Reading a layout map built from [set_layout]s at one image. *)
Ltac layouts_at :=
  simpl; unfold set_layout; simpl;
  repeat match goal with
         | |- context [Image_eq_dec ?a ?b] => destruct (Image_eq_dec a b)
         end;
  try reflexivity; try congruence; try contradiction.

Lemma ray_trace_check cr be ddgi self b (L : Layouts) :
  exists b' L',
    check (commands (ray_trace cr be ddgi self)) (b, L) = Some (b', L')
    /\ L' RayTraceImage = LAYOUT_SHADER_READ_ONLY_OPTIMAL
    /\ (forall img, img <> RayTraceImage -> L' img = L img).
Proof.
  eexists. eexists. split; [reflexivity|]. split; [reflexivity|].
  intros img H. layouts_at.
Qed.

Lemma reset_args_check self b (L : Layouts) :
  exists b', check (commands (reset_args self)) (b, L) = Some (b', L).
Proof. eexists. reflexivity. Qed.

Lemma clear_images_check cr self b (L : Layouts) :
  exists b' L',
    check (commands (clear_images cr self)) (b, L) = Some (b', L')
    /\ (m_first_frame self = true ->
        L' PrevImage = LAYOUT_SHADER_READ_ONLY_OPTIMAL
        /\ L' (CurrentOutputImage (Z.b2z (negb (ping_pong cr))))
           = LAYOUT_SHADER_READ_ONLY_OPTIMAL
        /\ L' (CurrentMomentsImage (Z.b2z (negb (ping_pong cr))))
           = LAYOUT_SHADER_READ_ONLY_OPTIMAL)
    /\ (m_first_frame self = false -> L' = L)
    /\ (forall img,
          img <> PrevImage ->
          img <> CurrentOutputImage (Z.b2z (negb (ping_pong cr))) ->
          img <> CurrentMomentsImage (Z.b2z (negb (ping_pong cr))) ->
          L' img = L img).
Proof.
  unfold clear_images, bind, this. simpl.
  destruct (m_first_frame self); destruct (ping_pong cr);
    eexists; eexists; (split; [reflexivity|]);
    (split; [intros; try discriminate; repeat split; layouts_at|]);
    (split; [intros; try discriminate; reflexivity|]);
    intros img H1 H2 H3; layouts_at.
Qed.

Lemma temporal_accumulation_check cr be self b (L : Layouts) :
  L RayTraceImage = LAYOUT_SHADER_READ_ONLY_OPTIMAL ->
  L PrevImage = LAYOUT_SHADER_READ_ONLY_OPTIMAL ->
  L (CurrentOutputImage (Z.b2z (negb (ping_pong cr))))
  = LAYOUT_SHADER_READ_ONLY_OPTIMAL ->
  L (CurrentMomentsImage (Z.b2z (negb (ping_pong cr))))
  = LAYOUT_SHADER_READ_ONLY_OPTIMAL ->
  exists b' L',
    check (commands (temporal_accumulation cr be self)) (b, L) = Some (b', L')
    /\ L' (CurrentOutputImage (Z.b2z (ping_pong cr)))
       = LAYOUT_SHADER_READ_ONLY_OPTIMAL
    /\ L' (CurrentMomentsImage (Z.b2z (ping_pong cr)))
       = LAYOUT_SHADER_READ_ONLY_OPTIMAL
    /\ (forall img,
          img <> CurrentOutputImage (Z.b2z (ping_pong cr)) ->
          img <> CurrentMomentsImage (Z.b2z (ping_pong cr)) ->
          L' img = L img).
Proof.
  intros Hrt Hprev Hout Hmom.
  unfold temporal_accumulation, bind, this, pipeline_barrier, record. simpl.
  destruct (ping_pong cr);
    destruct (blur_as_input (m_temporal_accumulation self));
    simpl in *;
    repeat (simpl;
            unfold check_cmd, launch_layouts_ok, move_layout, set_layout;
            simpl; rewrite ?Hrt, ?Hprev, ?Hout, ?Hmom);
    eexists; eexists; (split; [reflexivity|]);
    (split; [layouts_at|]); (split; [layouts_at|]);
    intros img H1 H2; layouts_at.
Qed.

Lemma a_trous_iteration_check cr i loc self b (L : Layouts) :
  L PrevImage = LAYOUT_SHADER_READ_ONLY_OPTIMAL ->
  (if i =? 0
   then L (CurrentOutputImage (Z.b2z (ping_pong cr)))
        = LAYOUT_SHADER_READ_ONLY_OPTIMAL
   else L (ATrousImage (Z.b2z (loc_ping_pong loc))) = LAYOUT_GENERAL) ->
  exists b' L',
    check (commands (a_trous_iteration cr i loc self)) (b, L) = Some (b', L')
    /\ L' (ATrousImage (Z.b2z (negb (loc_ping_pong loc)))) = LAYOUT_GENERAL
    /\ (forall img, (forall k, img <> ATrousImage k) -> L' img = L img).
Proof.
  intros Hprev Hin.
  rewrite a_trous_iteration_commands.
  unfold a_trous_dispatches, feedback_copy, bind, this, pipeline_barrier,
    set_image_layout, record.
  destruct ((feedback_iteration (m_a_trous self) =? i)
            && blur_as_input (m_temporal_accumulation self));
    destruct (i =? 0); destruct (loc_ping_pong loc); destruct (ping_pong cr);
    simpl in *;
    repeat (simpl;
            unfold check_cmd, launch_layouts_ok, move_layout, set_layout;
            simpl; rewrite ?Hprev, ?Hin);
    eexists; eexists; (split; [reflexivity|]);
    (split; [layouts_at|]);
    intros img Hk; simpl;
    repeat match goal with
           | |- context [Image_eq_dec ?a ?b] =>
               let E := fresh "E" in
               destruct (Image_eq_dec a b) as [E|E];
               [try (exfalso; apply (Hk _ E)); try (subst; congruence)|]
           end; try reflexivity.
Qed.

Lemma a_trous_loop_check cr self count : forall i loc b (L : Layouts),
  0 <= i ->
  L PrevImage = LAYOUT_SHADER_READ_ONLY_OPTIMAL ->
  (if i =? 0
   then L (CurrentOutputImage (Z.b2z (ping_pong cr)))
        = LAYOUT_SHADER_READ_ONLY_OPTIMAL
   else L (ATrousImage (Z.b2z (loc_ping_pong loc))) = LAYOUT_GENERAL) ->
  exists b' L',
    check (commands (a_trous_loop cr count i loc self)) (b, L) = Some (b', L')
    /\ (count <> O ->
        L' (ATrousImage
              (loc_write_idx (result (a_trous_loop cr count i loc self))))
        = LAYOUT_GENERAL)
    /\ (forall img, (forall k, img <> ATrousImage k) -> L' img = L img).
Proof.
  induction count as [|count IH]; intros i loc b L Hi Hprev Hin.
  - exists b, L. split; [reflexivity|]. split; [congruence | reflexivity].
  - rewrite a_trous_loop_commands, check_app, a_trous_loop_result_step.
    destruct (a_trous_iteration_check cr i loc self b L Hprev Hin)
      as (b1 & L1 & Hc & Hw & Hk).
    rewrite Hc.
    assert (Hprev1 : L1 PrevImage = LAYOUT_SHADER_READ_ONLY_OPTIMAL)
      by (rewrite Hk; [exact Hprev | discriminate]).
    assert (Hin1 : if i + 1 =? 0
                   then L1 (CurrentOutputImage (Z.b2z (ping_pong cr)))
                        = LAYOUT_SHADER_READ_ONLY_OPTIMAL
                   else L1 (ATrousImage
                              (Z.b2z (loc_ping_pong (next_locals loc))))
                        = LAYOUT_GENERAL).
    { destruct (Z.eqb_spec (i + 1) 0); [lia | exact Hw]. }
    destruct (IH (i + 1) (next_locals loc) b1 L1 ltac:(lia) Hprev1 Hin1)
      as (b2 & L2 & Hc2 & Hw2 & Hk2).
    exists b2, L2. split; [exact Hc2|]. split.
    + intros _. destruct count as [|count'].
      * simpl in Hc2. injection Hc2 as _ <-. exact Hw.
      * apply Hw2. discriminate.
    + intros img H. rewrite Hk2, Hk by exact H. reflexivity.
Qed.

Lemma a_trous_filter_check cr self b (L : Layouts) :
  1 <= filter_iterations (m_a_trous self) ->
  L PrevImage = LAYOUT_SHADER_READ_ONLY_OPTIMAL ->
  L (CurrentOutputImage (Z.b2z (ping_pong cr)))
  = LAYOUT_SHADER_READ_ONLY_OPTIMAL ->
  exists b' L',
    check (commands (a_trous_filter cr self)) (b, L) = Some (b', L')
    /\ L' (ATrousImage (read_idx (m_a_trous (object (a_trous_filter cr self)))))
       = LAYOUT_SHADER_READ_ONLY_OPTIMAL
    /\ (forall img, (forall k, img <> ATrousImage k) -> L' img = L img).
Proof.
  intros Hn Hprev Hout.
  rewrite a_trous_filter_commands, check_app, a_trous_filter_object.
  destruct (a_trous_loop_check cr self
              (Z.to_nat (filter_iterations (m_a_trous self))) 0
              a_trous_locals_init b L ltac:(lia) Hprev Hout)
    as (b1 & L1 & Hc & Hw & Hk).
  rewrite Hc. specialize (Hw ltac:(lia)).
  simpl (read_idx _).
  remember (loc_write_idx
              (result (a_trous_loop cr
                         (Z.to_nat (filter_iterations (m_a_trous self))) 0
                         a_trous_locals_init self))) as w eqn:Ew.
  clear Ew.
  simpl. unfold check_cmd. simpl. unfold move_layout. simpl. rewrite Hw. simpl.
  eexists. eexists. split; [reflexivity|]. split.
  - unfold set_layout. destruct (Image_eq_dec (ATrousImage w) (ATrousImage w));
      [reflexivity | congruence].
  - intros img H. unfold set_layout.
    destruct (Image_eq_dec img (ATrousImage w)) as [E|E];
      [exfalso; exact (H _ E) | apply Hk; exact H].
Qed.

Lemma upsample_check be self b (L : Layouts) :
  L (ATrousImage (read_idx (m_a_trous self)))
  = LAYOUT_SHADER_READ_ONLY_OPTIMAL ->
  exists b' L',
    check (commands (upsample be self)) (b, L) = Some (b', L')
    /\ L' UpsampleImage = LAYOUT_SHADER_READ_ONLY_OPTIMAL
    /\ (forall img, img <> UpsampleImage -> L' img = L img).
Proof.
  intros Hr. unfold upsample, bind, this, set_image_layout, record.
  repeat (simpl;
          unfold check_cmd, launch_layouts_ok, move_layout, set_layout;
          simpl; rewrite ?Hr).
  eexists. eexists. split; [reflexivity|]. split; [layouts_at|].
  intros img H. layouts_at.
Qed.

Lemma render_check cr be ddgi self b (L : Layouts) :
  (m_denoise self = true -> 1 <= filter_iterations (m_a_trous self)) ->
  (if m_first_frame self then m_denoise self = true else history_readable L) ->
  exists b' L',
    check (commands (render cr be ddgi self)) (b, L) = Some (b', L')
    /\ history_readable L'
    /\ L' RayTraceImage = LAYOUT_SHADER_READ_ONLY_OPTIMAL
    /\ Forall (fun img => L' img = LAYOUT_SHADER_READ_ONLY_OPTIMAL)
         (ds_sampled_images
            (output_ds cr (object (render cr be ddgi self)))).
Proof.
  intros Hn Hpre.
  rewrite render_commands, render_object. cbv zeta.
  destruct (clear_images_keeps cr self)
    as (Hs & _ & _ & _ & Hd & Ho & _ & _ & Hat & _).
  destruct (clear_images_check cr self b L)
    as (b1 & L1 & Hc1 & Hfirst & Hnot & Hk1).
  rewrite check_app, Hc1.
  destruct (ray_trace_check cr be ddgi (object (clear_images cr self)) b1 L1)
    as (b2 & L2 & Hc2 & Hrt & Hk2).
  rewrite check_app, Hc2.
  assert (Hh : L2 PrevImage = LAYOUT_SHADER_READ_ONLY_OPTIMAL
               /\ L2 (CurrentOutputImage (Z.b2z (negb (ping_pong cr))))
                  = LAYOUT_SHADER_READ_ONLY_OPTIMAL
               /\ L2 (CurrentMomentsImage (Z.b2z (negb (ping_pong cr))))
                  = LAYOUT_SHADER_READ_ONLY_OPTIMAL).
  { rewrite !Hk2 by discriminate.
    destruct (m_first_frame self).
    - apply Hfirst. reflexivity.
    - rewrite (Hnot eq_refl). destruct Hpre as (Hp & Hq).
      split; [exact Hp | apply Hq]. }
  destruct Hh as (Hprev & Hout' & Hmom').
  destruct (m_denoise self) eqn:Ed.
  - specialize (Hn eq_refl).
    destruct (reset_args_check (object (clear_images cr self)) b2 L2)
      as (b3 & Hc3).
    rewrite check_app, Hc3.
    destruct (temporal_accumulation_check cr be
                (object (clear_images cr self)) b3 L2 Hrt Hprev Hout' Hmom')
      as (b4 & L4 & Hc4 & Hout & Hmom & Hk4).
    rewrite check_app, Hc4.
    assert (Hprev4 : L4 PrevImage = LAYOUT_SHADER_READ_ONLY_OPTIMAL)
      by (rewrite Hk4 by discriminate; exact Hprev).
    rewrite <- Hat in Hn.
    destruct (a_trous_filter_check cr (object (clear_images cr self))
                b4 L4 Hn Hprev4 Hout)
      as (b5 & L5 & Hc5 & Hread & Hk5).
    rewrite check_app, Hc5.
    assert (Hall5 : history_readable L5
                    /\ L5 RayTraceImage = LAYOUT_SHADER_READ_ONLY_OPTIMAL).
    { split; [split|].
      - rewrite Hk5 by discriminate. exact Hprev4.
      - intros p. rewrite !Hk5 by discriminate.
        destruct (Bool.bool_dec p (ping_pong cr)) as [->|Hp].
        + split; assumption.
        + replace p with (negb (ping_pong cr))
            by (revert Hp; destruct p, (ping_pong cr); simpl; congruence).
          rewrite !Hk4
            by (destruct (ping_pong cr); discriminate).
          split; assumption.
      - rewrite Hk5 by discriminate.
        rewrite Hk4 by discriminate. exact Hrt. }
    destruct Hall5 as ((Hp5 & Hq5) & Hrt5).
    unfold output_ds.
    replace (m_denoise (object (a_trous_filter cr (object (clear_images cr self)))))
      with true
      by (rewrite a_trous_filter_object; unfold set_read_idx;
          cbn [m_denoise]; symmetry; exact Hd).
    replace (m_current_output
               (object (a_trous_filter cr (object (clear_images cr self)))))
      with (m_current_output self)
      by (rewrite a_trous_filter_object; unfold set_read_idx;
          cbn [m_current_output]; symmetry; exact Ho).
    rewrite a_trous_filter_scale, Hs.
    destruct (scale_eqb (m_scale self) RAY_TRACE_SCALE_FULL_RES); simpl negb;
      cbv iota.
    + exists b5, L5. split; [reflexivity|].
      split; [split; assumption|]. split; [exact Hrt5|].
      destruct (m_current_output self); simpl;
        repeat constructor; try assumption; apply Hq5.
    + destruct (upsample_check be
                  (object (a_trous_filter cr (object (clear_images cr self))))
                  b5 L5 Hread) as (b6 & L6 & Hc6 & Hup & Hk6).
      exists b6, L6. split; [exact Hc6|].
      split; [split|].
      * rewrite Hk6 by discriminate. exact Hp5.
      * intros p. rewrite !Hk6 by discriminate. apply Hq5.
      * split; [rewrite Hk6 by discriminate; exact Hrt5|].
        destruct (m_current_output self); simpl; repeat constructor;
          try assumption; rewrite ?Hk6 by discriminate;
          try assumption; apply Hq5.
  - destruct (m_first_frame self) eqn:Ef; [discriminate|].
    exists b2, L2. split; [reflexivity|].
    destruct Hpre as (Hp & Hq).
    split; [split|].
    + exact Hprev.
    + intros p. rewrite !Hk2 by discriminate. rewrite (Hnot eq_refl).
      apply Hq.
    + split; [exact Hrt|].
      unfold output_ds. rewrite Hd. simpl. repeat constructor. exact Hrt.
Qed.

Lemma render_filter_iterations cr be ddgi self :
  filter_iterations (m_a_trous (object (render cr be ddgi self)))
  = filter_iterations (m_a_trous self).
Proof.
  destruct (clear_images_keeps cr self)
    as (_ & _ & _ & _ & _ & _ & _ & _ & Hat & _).
  rewrite render_object.
  destruct (m_denoise self).
  - rewrite a_trous_filter_object. unfold set_read_idx.
    cbn [m_a_trous filter_iterations]. rewrite Hat. reflexivity.
  - rewrite Hat. reflexivity.
Qed.

(** X7: the first render of a new instance with denoising on and at least
    one filter iteration is right about image layouts whatever layouts it
    starts from, the undefined ones of new images included: every barrier,
    clear and copy names the layout its image is in, every launch finds
    its storage images in the general layout and its sampled images in
    the shader-read-only layout; the frame leaves the history images, the
    ray trace image and the image of [output_ds] shader-read-only. *)
Theorem first_render_layouts cr be ddgi self b (L : Layouts) :
  m_first_frame self = true ->
  m_denoise self = true ->
  1 <= filter_iterations (m_a_trous self) ->
  exists b' L',
    check (commands (render cr be ddgi self)) (b, L) = Some (b', L')
    /\ history_readable L'
    /\ L' RayTraceImage = LAYOUT_SHADER_READ_ONLY_OPTIMAL
    /\ Forall (fun img => L' img = LAYOUT_SHADER_READ_ONLY_OPTIMAL)
         (ds_sampled_images
            (output_ds cr (object (render cr be ddgi self)))).
Proof.
  intros Hf Hd Hn. apply render_check.
  - intros _. exact Hn.
  - rewrite Hf. exact Hd.
Qed.

Lemma first_render_layouts_witness :
  exists b' L',
    check (commands (render Sample.cr Sample.backend Sample.ddgi
                       (Sample.fresh 3 2 true true RAY_TRACE_SCALE_HALF_RES)))
      (no_bindings, fresh_layouts) = Some (b', L')
    /\ history_readable L'
    /\ L' RayTraceImage = LAYOUT_SHADER_READ_ONLY_OPTIMAL
    /\ Forall (fun img => L' img = LAYOUT_SHADER_READ_ONLY_OPTIMAL)
         (ds_sampled_images
            (output_ds Sample.cr
               (object (render Sample.cr Sample.backend Sample.ddgi
                          (Sample.fresh 3 2 true true
                             RAY_TRACE_SCALE_HALF_RES))))).
Proof.
  apply (first_render_layouts Sample.cr Sample.backend Sample.ddgi
           (Sample.fresh 3 2 true true RAY_TRACE_SCALE_HALF_RES)
           no_bindings fresh_layouts);
    [reflexivity | reflexivity | vm_compute; discriminate].
Defined.

(** X8: over any number of frames the recorded commands stay right about
    image layouts, provided the header and the running instance ask for
    at least one filter iteration and the Denoise checkbox is ticked in
    each frame that renders with a new instance (the first one, and each
    one in which a scale is picked): toggling denoising, the output, the
    scale or any other setting in between never leaves an image in a
    layout a later command does not expect. *)
Theorem frames_layouts h b inps : forall a (L : Layouts),
  1 <= filter_iterations (default_a_trous h) ->
  1 <= filter_iterations (m_a_trous (reflections a)) ->
  denoise_on_when_new (m_first_frame (reflections a)) inps = true ->
  (m_first_frame (reflections a) = false -> history_readable L) ->
  exists L',
    check_frames h b inps a L = Some L'
    /\ (inps <> [] -> history_readable L').
Proof.
  induction inps as [|inp rest IH]; intros a L Hh Hn Hon Hhist.
  - exists L. split; [reflexivity | congruence].
  - simpl in Hon. apply andb_prop in Hon. destruct Hon as [Hnew Hrest].
    destruct (settings_window_fields h inp (reflections a))
      as (Hd & Hf & Hit).
    set (m0 := match fi_scale inp with
               | Some _ => fresh_layouts
               | None => L
               end).
    destruct (render_check (frame_common inp (common a)) (fi_backend inp)
                (fi_ddgi inp) (settings_window h inp (reflections a)) b m0)
      as (b1 & L1 & Hc & Hr & _).
    + intros _. rewrite Hit. destruct (fi_scale inp); assumption.
    + rewrite Hf, Hd. subst m0.
      destruct (fi_scale inp); [exact Hnew|].
      destruct (m_first_frame (reflections a));
        [exact Hnew | apply Hhist; reflexivity].
    + destruct (IH (update h inp a) L1) as (L2 & Hc2 & Hr2).
      * exact Hh.
      * unfold update. cbn [reflections].
        rewrite render_filter_iterations, Hit.
        destruct (fi_scale inp); assumption.
      * unfold update. cbn [reflections].
        destruct (render_keeps (frame_common inp (common a)) (fi_backend inp)
                    (fi_ddgi inp) (settings_window h inp (reflections a)))
          as (_ & _ & _ & Hff).
        rewrite Hff. exact Hrest.
      * intros _. exact Hr.
      * exists L2. split.
        -- cbn [check_frames]. fold m0. unfold frame_commands.
           rewrite Hc. exact Hc2.
        -- intros _. destruct rest as [|inp2 rest'].
           ++ simpl in Hc2. injection Hc2 as <-. exact Hr.
           ++ apply Hr2. discriminate.
Qed.

Lemma frames_layouts_witness :
  exists L',
    check_frames (Sample.settings 3 2 true false) no_bindings
      [SampleFrames.input true true None;
       SampleFrames.input false true None;
       SampleFrames.input true false (Some RAY_TRACE_SCALE_QUARTER_RES);
       SampleFrames.input true true None]
      (SampleFrames.host 3 2 RAY_TRACE_SCALE_HALF_RES) fresh_layouts
    = Some L'
    /\ ([SampleFrames.input true true None;
         SampleFrames.input false true None;
         SampleFrames.input true false (Some RAY_TRACE_SCALE_QUARTER_RES);
         SampleFrames.input true true None] <> []
        -> history_readable L').
Proof.
  apply (frames_layouts (Sample.settings 3 2 true false) no_bindings
           [SampleFrames.input true true None;
            SampleFrames.input false true None;
            SampleFrames.input true false (Some RAY_TRACE_SCALE_QUARTER_RES);
            SampleFrames.input true true None]
           (SampleFrames.host 3 2 RAY_TRACE_SCALE_HALF_RES) fresh_layouts).
  - vm_compute. discriminate.
  - vm_compute. discriminate.
  - reflexivity.
  - simpl. discriminate.
Defined.

Lemma temporal_accumulation_check_unreadable cr be self b (L : Layouts) :
  layout_eqb (L (CurrentMomentsImage (Z.b2z (negb (ping_pong cr)))))
    LAYOUT_SHADER_READ_ONLY_OPTIMAL = false ->
  check (commands (temporal_accumulation cr be self)) (b, L) = None.
Proof.
  intros Hm.
  unfold temporal_accumulation, bind, this, pipeline_barrier, record. simpl.
  destruct (ping_pong cr);
    destruct (blur_as_input (m_temporal_accumulation self));
    simpl in *;
    repeat (simpl;
            unfold check_cmd, launch_layouts_ok, move_layout, set_layout;
            simpl; rewrite ?Hm, ?andb_false_r);
    reflexivity.
Qed.

Lemma undenoised_first_frame_check h b inp a (L : Layouts) :
  gui_denoise (fi_gui inp) = false ->
  L (CurrentMomentsImage (Z.b2z (ping_pong (common a)))) = LAYOUT_UNDEFINED ->
  exists b1 L1,
    check (frame_commands h inp a) (b, L) = Some (b1, L1)
    /\ L1 (CurrentMomentsImage (Z.b2z (ping_pong (common a))))
       = LAYOUT_UNDEFINED.
Proof.
  intros Hd HL.
  destruct (settings_window_fields h inp (reflections a)) as (Hde & _ & _).
  rewrite Hd in Hde.
  unfold frame_commands. rewrite render_commands. cbv zeta. rewrite Hde.
  destruct (clear_images_check (frame_common inp (common a))
              (settings_window h inp (reflections a)) b L)
    as (b1 & L1 & Hc1 & _ & _ & Hk1).
  rewrite check_app, Hc1.
  destruct (ray_trace_check (frame_common inp (common a)) (fi_backend inp)
              (fi_ddgi inp)
              (object (clear_images (frame_common inp (common a))
                         (settings_window h inp (reflections a)))) b1 L1)
    as (b2 & L2 & Hc2 & _ & Hk2).
  rewrite check_app, Hc2. exists b2, L2. split; [reflexivity|].
  rewrite Hk2 by discriminate.
  cbn [frame_common ping_pong] in Hk1.
  rewrite Hk1; [exact HL | discriminate | discriminate |].
  destruct (ping_pong (common a)); discriminate.
Qed.

(** X9: when the first render of a new instance has denoising off and the
    next frame, with the same instance, has it on, the first frame is
    right about layouts but leaves the moments image of slot [ping_pong]
    in the undefined layout: it cleared the other slot only and wrote
    nothing; the temporal accumulation launch of the second frame samples
    that image, and so the two frames together are not right about
    layouts. *)
Theorem history_slot_not_initialised h b inp1 inp2 a :
  m_first_frame (settings_window h inp1 (reflections a)) = true ->
  gui_denoise (fi_gui inp1) = false ->
  fi_scale inp2 = None ->
  gui_denoise (fi_gui inp2) = true ->
  let slot := CurrentMomentsImage (Z.b2z (ping_pong (common a))) in
  (exists L1,
      check_frames h b [inp1] a fresh_layouts = Some L1
      /\ L1 slot = LAYOUT_UNDEFINED)
  /\ (forall r,
        In r (dispatches_of TemporalAccumulationPipeline b
                (frame_commands h inp2 (update h inp1 a))) ->
        In slot (sampled_images r))
  /\ check_frames h b [inp1; inp2] a fresh_layouts = None.
Proof.
  intros Hf Hd1 Hs2 Hd2. cbv zeta.
  assert (Hfresh : (match fi_scale inp1 with
                    | Some _ => fresh_layouts
                    | None => fresh_layouts
                    end) = fresh_layouts)
    by (destruct (fi_scale inp1); reflexivity).
  destruct (undenoised_first_frame_check h b inp1 a fresh_layouts Hd1 eq_refl)
    as (b1 & L1 & Hc1 & Hm).
  destruct (update_common h inp1 a) as (Hpp & _ & _ & Hff1).
  destruct (settings_window_fields h inp2 (reflections (update h inp1 a)))
    as (Hde2 & Hff2 & _).
  rewrite Hd2 in Hde2. rewrite Hs2, Hff1 in Hff2.
  split; [|split].
  - exists L1. cbn [check_frames]. rewrite Hfresh, Hc1. split; [reflexivity|].
    exact Hm.
  - intros r Hr. unfold frame_commands in Hr.
    rewrite render_temporal_launches, Hde2 in Hr.
    apply temporal_launch_slots in Hr. destruct Hr as (_ & Hr).
    rewrite Hr. cbn [frame_common ping_pong]. rewrite Hpp.
    rewrite Bool.negb_involutive.
    destruct (blur_as_input _); simpl; tauto.
  - cbn [check_frames]. rewrite Hfresh, Hc1, Hs2. cbn [snd].
    unfold frame_commands. rewrite render_commands. cbv zeta. rewrite Hde2.
    set (cr2 := frame_common inp2 (common (update h inp1 a))).
    set (self2 := settings_window h inp2 (reflections (update h inp1 a))) in *.
    destruct (clear_images_check cr2 self2 b L1)
      as (b3 & L3 & Hc3 & _ & Hsame & _).
    rewrite check_app, Hc3. rewrite (Hsame Hff2).
    destruct (ray_trace_check cr2 (fi_backend inp2) (fi_ddgi inp2)
                (object (clear_images cr2 self2)) b3 L1)
      as (b4 & L4 & Hc4 & _ & Hk4).
    rewrite check_app, Hc4.
    destruct (reset_args_check (object (clear_images cr2 self2)) b4 L4)
      as (b5 & Hc5).
    rewrite check_app, Hc5, check_app.
    rewrite temporal_accumulation_check_unreadable; [reflexivity|].
    rewrite Hk4 by discriminate.
    replace (negb (ping_pong cr2)) with (ping_pong (common a))
      by (subst cr2; cbn [frame_common ping_pong]; rewrite Hpp;
          symmetry; apply Bool.negb_involutive).
    rewrite Hm. reflexivity.
Qed.

Lemma history_slot_not_initialised_witness :
  let h := Sample.settings 3 2 true false in
  let inp1 := SampleFrames.input false true None in
  let inp2 := SampleFrames.input true true None in
  let a := SampleFrames.host 3 2 RAY_TRACE_SCALE_HALF_RES in
  let slot := CurrentMomentsImage (Z.b2z (ping_pong (common a))) in
  (exists L1,
      check_frames h no_bindings [inp1] a fresh_layouts = Some L1
      /\ L1 slot = LAYOUT_UNDEFINED)
  /\ (forall r,
        In r (dispatches_of TemporalAccumulationPipeline no_bindings
                (frame_commands h inp2 (update h inp1 a))) ->
        In slot (sampled_images r))
  /\ check_frames h no_bindings [inp1; inp2] a fresh_layouts = None.
Proof.
  exact (history_slot_not_initialised (Sample.settings 3 2 true false)
           no_bindings (SampleFrames.input false true None)
           (SampleFrames.input true true None)
           (SampleFrames.host 3 2 RAY_TRACE_SCALE_HALF_RES)
           eq_refl eq_refl eq_refl eq_refl).
Defined.

Lemma move_layouts_keep bs img : forall (m m' : Layouts),
  move_layouts bs m = Some m' ->
  ~ In img (map ib_image bs) ->
  m' img = m img.
Proof.
  induction bs as [|ib rest IH]; intros m m' H Hn.
  - injection H as <-. reflexivity.
  - simpl in H, Hn. unfold move_layout in H.
    destruct (is_undefined (ib_old_layout ib)
              || layout_eqb (m (ib_image ib)) (ib_old_layout ib));
      [|discriminate].
    rewrite (IH _ _ H) by tauto.
    unfold set_layout.
    destruct (Image_eq_dec img (ib_image ib)) as [E|E];
      [exfalso; apply Hn; left; symmetry; exact E | reflexivity].
Qed.

Lemma check_cmd_keeps c img b (L : Layouts) b' L' :
  check_cmd (b, L) c = Some (b', L') ->
  ~ In img (cmd_moves c) ->
  L' img = L img.
Proof.
  unfold check_cmd. cbn [fst snd].
  destruct (track b c) as [b1 [r|]].
  - destruct (launch_layouts_ok L r); [|discriminate].
    intros H _. injection H as _ <-. reflexivity.
  - destruct c; cbn [cmd_moves]; intros H Hn;
      try (injection H as _ <-; reflexivity).
    + destruct (move_layouts img0 L) as [m|] eqn:E; [|discriminate].
      injection H as _ <-. apply (move_layouts_keep _ _ _ _ E Hn).
    + unfold move_layout in H.
      destruct (is_undefined old_layout || layout_eqb (L img0) old_layout);
        [|discriminate].
      injection H as _ <-. unfold set_layout.
      destruct (Image_eq_dec img img0) as [E|E];
        [exfalso; apply Hn; left; symmetry; exact E | reflexivity].
    + destruct (layout_eqb (L img0) layout); [|discriminate].
      injection H as _ <-. reflexivity.
    + destruct (layout_eqb (L src) src_layout
                && layout_eqb (L dst) dst_layout); [|discriminate].
      injection H as _ <-. reflexivity.
Qed.

Lemma check_keeps img cmds : forall b (L : Layouts) b' L',
  check cmds (b, L) = Some (b', L') ->
  ~ In img (flat_map cmd_moves cmds) ->
  L' img = L img.
Proof.
  induction cmds as [|c rest IH]; intros b L b' L' H Hn.
  - injection H as _ <-. reflexivity.
  - simpl in H, Hn. rewrite in_app_iff in Hn.
    destruct (check_cmd (b, L) c) as [[b1 L1]|] eqn:E; [|discriminate].
    rewrite (IH _ _ _ _ H) by tauto.
    apply (check_cmd_keeps _ _ _ _ _ _ E). tauto.
Qed.

Lemma moves_before_filter cr be ddgi self k :
  ~ In (ATrousImage k)
      (flat_map cmd_moves
         (commands (clear_images cr self)
          ++ commands (ray_trace cr be ddgi (object (clear_images cr self)))
          ++ commands (reset_args (object (clear_images cr self)))
          ++ commands (temporal_accumulation cr be
                         (object (clear_images cr self))))).
Proof.
  rewrite !flat_map_app, !in_app_iff.
  unfold clear_images, ray_trace, reset_args, temporal_accumulation, bind,
    this, pipeline_barrier, set_image_layout, record.
  destruct (m_first_frame self); simpl;
    intuition discriminate.
Qed.

(** X10: with denoising on and no filter iteration (a count of zero or
    less), everything [render] records before the barrier that closes
    the A-Trous stage is right about layouts (on a first frame, or with
    the history images readable), but that barrier names the general
    layout as the old layout of A-Trous image 1, which no command of the
    frame has put there: unless the image was in the general layout
    before the frame, the barrier is wrong about it. *)
Theorem no_iteration_closing_barrier cr be ddgi self b (L : Layouts) :
  m_denoise self = true ->
  filter_iterations (m_a_trous self) <= 0 ->
  (m_first_frame self = false -> history_readable L) ->
  L (ATrousImage 1) <> LAYOUT_GENERAL ->
  let closing :=
    PipelineBarrier
      [memory_barrier ACCESS_SHADER_WRITE_BIT ACCESS_SHADER_READ_BIT]
      [image_memory_barrier (ATrousImage 1) LAYOUT_GENERAL
         LAYOUT_SHADER_READ_ONLY_OPTIMAL ACCESS_SHADER_WRITE_BIT
         ACCESS_SHADER_READ_BIT]
      []
      PIPELINE_STAGE_COMPUTE_SHADER_BIT
      (Z.lor PIPELINE_STAGE_FRAGMENT_SHADER_BIT
         PIPELINE_STAGE_COMPUTE_SHADER_BIT) in
  exists front rest b1 L1,
    commands (render cr be ddgi self) = front ++ closing :: rest
    /\ check front (b, L) = Some (b1, L1)
    /\ check_cmd (b1, L1) closing = None
    /\ check (commands (render cr be ddgi self)) (b, L) = None.
Proof.
  intros Hd Hn Hhist HL. cbv zeta.
  rewrite render_commands. cbv zeta. rewrite Hd.
  destruct (clear_images_keeps cr self)
    as (_ & _ & _ & _ & _ & _ & _ & _ & Hat & _).
  rewrite a_trous_filter_commands, Hat.
  replace (Z.to_nat (filter_iterations (m_a_trous self))) with O by lia.
  cbn [a_trous_loop commands result ret snd fst app a_trous_locals_init
         loc_write_idx].
  pose proof (moves_before_filter cr be ddgi self 1) as Hm.
  (* the passes before the barrier *)
  assert (Hfront : exists b1 L1,
             check (commands (clear_images cr self)
                    ++ commands (ray_trace cr be ddgi
                                   (object (clear_images cr self)))
                    ++ commands (reset_args (object (clear_images cr self)))
                    ++ commands (temporal_accumulation cr be
                                   (object (clear_images cr self))))
               (b, L) = Some (b1, L1)).
  { destruct (clear_images_check cr self b L)
      as (b1 & L1 & Hc1 & Hfirst & Hnot & Hk1).
    rewrite check_app, Hc1.
    destruct (ray_trace_check cr be ddgi (object (clear_images cr self))
                b1 L1) as (b2 & L2 & Hc2 & Hrt & Hk2).
    rewrite check_app, Hc2.
    destruct (reset_args_check (object (clear_images cr self)) b2 L2)
      as (b3 & Hc3).
    rewrite check_app, Hc3.
    assert (Hh : L2 PrevImage = LAYOUT_SHADER_READ_ONLY_OPTIMAL
                 /\ L2 (CurrentOutputImage (Z.b2z (negb (ping_pong cr))))
                    = LAYOUT_SHADER_READ_ONLY_OPTIMAL
                 /\ L2 (CurrentMomentsImage (Z.b2z (negb (ping_pong cr))))
                    = LAYOUT_SHADER_READ_ONLY_OPTIMAL).
    { rewrite !Hk2 by discriminate.
      destruct (m_first_frame self).
      - apply Hfirst. reflexivity.
      - rewrite (Hnot eq_refl). destruct (Hhist eq_refl) as (Hp & Hq).
        split; [exact Hp | apply Hq]. }
    destruct Hh as (Hprev & Hout & Hmom).
    destruct (temporal_accumulation_check cr be
                (object (clear_images cr self)) b3 L2 Hrt Hprev Hout Hmom)
      as (b4 & L4 & Hc4 & _).
    exists b4, L4. exact Hc4. }
  destruct Hfront as (b1 & L1 & Hfront).
  remember (commands (clear_images cr self)) as c eqn:Ec.
  remember (commands (ray_trace cr be ddgi (object (clear_images cr self))))
    as r eqn:Er.
  remember (commands (reset_args (object (clear_images cr self)))) as a
    eqn:Ea.
  remember (commands (temporal_accumulation cr be
                        (object (clear_images cr self)))) as t eqn:Et.
  clear Ec Er Ea Et.
  assert (Hre : forall x : list Cmd,
             c ++ r ++ a ++ t ++ x = (c ++ r ++ a ++ t) ++ x)
    by (intros; rewrite <- !app_assoc; reflexivity).
  rewrite Hre.
  pose proof (check_keeps (ATrousImage 1) _ _ _ _ _ Hfront Hm) as Hkeep.
  assert (Hbar : check_cmd (b1, L1)
                   (PipelineBarrier
                      [memory_barrier ACCESS_SHADER_WRITE_BIT
                         ACCESS_SHADER_READ_BIT]
                      [image_memory_barrier (ATrousImage 1) LAYOUT_GENERAL
                         LAYOUT_SHADER_READ_ONLY_OPTIMAL
                         ACCESS_SHADER_WRITE_BIT ACCESS_SHADER_READ_BIT]
                      []
                      PIPELINE_STAGE_COMPUTE_SHADER_BIT
                      (Z.lor PIPELINE_STAGE_FRAGMENT_SHADER_BIT
                         PIPELINE_STAGE_COMPUTE_SHADER_BIT)) = None).
  { unfold check_cmd.
    cbn [track fst snd move_layouts ib_image ib_old_layout ib_new_layout
           image_memory_barrier].
    unfold move_layout. cbn [is_undefined orb]. rewrite Hkeep.
    destruct (L (ATrousImage 1)); try reflexivity. congruence. }
  eexists (c ++ r ++ a ++ t), _, b1, L1.
  split; [reflexivity|]. split; [exact Hfront|]. split; [exact Hbar|].
  rewrite check_app, Hfront. cbn [app check]. rewrite Hbar. reflexivity.
Qed.

Lemma no_iteration_closing_barrier_witness :
  let self := Sample.fresh 0 0 true false RAY_TRACE_SCALE_HALF_RES in
  let closing :=
    PipelineBarrier
      [memory_barrier ACCESS_SHADER_WRITE_BIT ACCESS_SHADER_READ_BIT]
      [image_memory_barrier (ATrousImage 1) LAYOUT_GENERAL
         LAYOUT_SHADER_READ_ONLY_OPTIMAL ACCESS_SHADER_WRITE_BIT
         ACCESS_SHADER_READ_BIT]
      []
      PIPELINE_STAGE_COMPUTE_SHADER_BIT
      (Z.lor PIPELINE_STAGE_FRAGMENT_SHADER_BIT
         PIPELINE_STAGE_COMPUTE_SHADER_BIT) in
  exists front rest b1 L1,
    commands (render Sample.cr Sample.backend Sample.ddgi self)
    = front ++ closing :: rest
    /\ check front (no_bindings, fresh_layouts) = Some (b1, L1)
    /\ check_cmd (b1, L1) closing = None
    /\ check (commands (render Sample.cr Sample.backend Sample.ddgi self))
         (no_bindings, fresh_layouts) = None.
Proof.
  apply (no_iteration_closing_barrier Sample.cr Sample.backend Sample.ddgi
           (Sample.fresh 0 0 true false RAY_TRACE_SCALE_HALF_RES)
           no_bindings fresh_layouts);
    [reflexivity | vm_compute; discriminate | simpl; discriminate
     | discriminate].
Defined.

(** ** What the launches of a frame are given *)

Section GpuDataFlow.

Variables texels bufdata external : Type.
Variable shader_image : ShaderInput texels bufdata external -> nat -> texels.
Variable shader_buffer : ShaderInput texels bufdata external -> nat -> bufdata.
Variable cleared : float32 * float32 * float32 * float32 -> texels.
Variable discarded : texels -> texels.
Variable ext : external.

Local Notation "'gpu'" :=
  (exec shader_image shader_buffer cleared discarded ext).
Local Notation "'seen'" :=
  (inputs_log shader_image shader_buffer cleared discarded ext).
Local Notation "'State'" := (Bindings * Memory texels bufdata)%type.

Lemma exec_app c1 c2 (s : State) : gpu (c1 ++ c2) s = gpu c2 (gpu c1 s).
Proof. unfold exec. apply fold_left_app. Qed.

Lemma inputs_log_app c1 : forall c2 (s : State),
  seen (c1 ++ c2) s = seen c1 s ++ seen c2 (gpu c1 s).
Proof.
  induction c1 as [|c rest IH]; intros c2 s; [reflexivity|].
  simpl. rewrite IH, <- app_assoc. reflexivity.
Qed.


Lemma stage_inputs_app p (l1 l2 : list (ShaderInput texels bufdata external)) :
  stage_inputs p (l1 ++ l2) = stage_inputs p l1 ++ stage_inputs p l2.
Proof. apply filter_app. Qed.

Lemma fed_app t (l1 l2 : list (ShaderInput texels bufdata external)) :
  fed shader_image t (l1 ++ l2)
  <-> fed shader_image t l1
      /\ fed shader_image (chain_out shader_image t l1) l2.
Proof.
  revert t. induction l1 as [|inp rest IH]; intros t; simpl.
  - tauto.
  - rewrite IH. tauto.
Qed.

Lemma chain_out_app t (l1 l2 : list (ShaderInput texels bufdata external)) :
  chain_out shader_image t (l1 ++ l2)
  = chain_out shader_image (chain_out shader_image t l1) l2.
Proof.
  revert t. induction l1 as [|inp rest IH]; intros t; simpl;
    [reflexivity | apply IH].
Qed.

(** One turn of the loop: the filter launch samples the input image and
    leaves its result in the slot it writes; images that are neither
    A-Trous images nor the previous image keep their contents. *)
Lemma a_trous_iteration_inputs cr i loc self (s : State) :
  let input := if i =? 0
               then CurrentOutputImage (Z.b2z (ping_pong cr))
               else ATrousImage (Z.b2z (loc_ping_pong loc)) in
  let log := seen (commands (a_trous_iteration cr i loc self)) s in
  let after := gpu (commands (a_trous_iteration cr i loc self)) s in
  exists f,
    stage_inputs ATrousPipeline log = [f]
    /\ (forall p, p <> ATrousPipeline -> p <> CopyTilesPipeline ->
        stage_inputs p log = [])
    /\ si_sampled _ _ _ f = [images (snd s) input]
    /\ images (snd after) (ATrousImage (Z.b2z (negb (loc_ping_pong loc))))
       = shader_image f 0%nat
    /\ images (snd after) PrevImage
       = (if (feedback_iteration (m_a_trous self) =? i)
             && blur_as_input (m_temporal_accumulation self)
          then shader_image f 0%nat
          else images (snd s) PrevImage)
    /\ (forall img, (forall k, img <> ATrousImage k) -> img <> PrevImage ->
        images (snd after) img = images (snd s) img).
Proof.
  cbv zeta. rewrite a_trous_iteration_commands.
  unfold a_trous_dispatches, feedback_copy, bind, this, pipeline_barrier,
    set_image_layout, record.
  destruct ((feedback_iteration (m_a_trous self) =? i)
            && blur_as_input (m_temporal_accumulation self));
    destruct (i =? 0); destruct (loc_ping_pong loc); destruct (ping_pong cr);
    eexists; (split; [reflexivity|]);
    (split; [intros p H1 H2; destruct p; try reflexivity; congruence|]);
    (split; [reflexivity|]);
    (split; [reflexivity|]);
    (split; [reflexivity|]);
    intros img Hk Hp; simpl;
    repeat match goal with
           | |- context [Image_eq_dec ?a ?b] =>
               let E := fresh "E" in
               destruct (Image_eq_dec a b) as [E|E];
               [try (exfalso; apply (Hk _ E)); try contradiction|]
           end; reflexivity.
Qed.

(** The turns of the loop form a chain that starts from the contents of
    the input image of the first turn. *)
Lemma a_trous_loop_inputs cr self count : forall i loc (s : State),
  0 <= i ->
  let input := if i =? 0
               then CurrentOutputImage (Z.b2z (ping_pong cr))
               else ATrousImage (Z.b2z (loc_ping_pong loc)) in
  let log := seen (commands (a_trous_loop cr count i loc self)) s in
  let after := gpu (commands (a_trous_loop cr count i loc self)) s in
  fed shader_image (images (snd s) input) (stage_inputs ATrousPipeline log)
  /\ length (stage_inputs ATrousPipeline log) = count
  /\ (forall p, p <> ATrousPipeline -> p <> CopyTilesPipeline ->
      stage_inputs p log = [])
  /\ (count <> O ->
      images (snd after)
        (ATrousImage
           (loc_write_idx (result (a_trous_loop cr count i loc self))))
      = chain_out shader_image (images (snd s) input)
          (stage_inputs ATrousPipeline log))
  /\ images (snd after) PrevImage
     = match feedback_launch self i (stage_inputs ATrousPipeline log) with
       | Some f => shader_image f 0%nat
       | None => images (snd s) PrevImage
       end
  /\ (forall img, (forall k, img <> ATrousImage k) -> img <> PrevImage ->
      images (snd after) img = images (snd s) img).
Proof.
  induction count as [|count IH]; intros i loc s Hi; cbv zeta.
  - simpl. repeat split; try congruence.
    unfold feedback_launch.
    destruct (blur_as_input (m_temporal_accumulation self)
              && (i <=? feedback_iteration (m_a_trous self)));
      [|reflexivity].
    destruct (Z.to_nat (feedback_iteration (m_a_trous self) - i));
      reflexivity.
  - rewrite a_trous_loop_commands, a_trous_loop_result_step.
    rewrite inputs_log_app, exec_app, !stage_inputs_app.
    destruct (a_trous_iteration_inputs cr i loc self s)
      as (f & Hf & Hno & Hs & Hw & Hp & Hk).
    rewrite Hf.
    remember (gpu (commands (a_trous_iteration cr i loc self)) s) as s1
      eqn:Es1.
    clear Es1.
    destruct (IH (i + 1) (next_locals loc) s1 ltac:(lia))
      as (Hfed & Hlen & Hno' & Hout & Hp' & Hk').
    replace (i + 1 =? 0) with false in Hfed, Hout
      by (symmetry; apply Z.eqb_neq; lia).
    cbn [next_locals loc_ping_pong] in Hfed, Hout.
    rewrite Hw in Hfed, Hout.
    cbn [app fed chain_out length].
    split; [split; [exact Hs | exact Hfed]|].
    split; [rewrite Hlen; reflexivity|].
    split;
      [intros p H1 H2; rewrite stage_inputs_app, Hno, Hno' by assumption;
       reflexivity|].
    split; [|split].
    + intros _. destruct count as [|count'].
      * simpl. exact Hw.
      * apply Hout. discriminate.
    + rewrite Hp', Hp. clear Hp' Hp.
      unfold feedback_launch.
      destruct (blur_as_input (m_temporal_accumulation self));
        rewrite ?andb_true_r, ?andb_false_r; cbn [andb]; [|reflexivity].
      destruct (Z.eqb_spec (feedback_iteration (m_a_trous self)) i) as [E|E].
      * rewrite E.
        replace (i + 1 <=? i) with false by (symmetry; apply Z.leb_gt; lia).
        rewrite Z.leb_refl, Z.sub_diag. reflexivity.
      * destruct (Z.leb_spec (i + 1) (feedback_iteration (m_a_trous self)))
          as [L|L].
        -- replace (i <=? feedback_iteration (m_a_trous self)) with true
             by (symmetry; apply Z.leb_le; lia).
           replace (Z.to_nat (feedback_iteration (m_a_trous self) - i))
             with (S (Z.to_nat (feedback_iteration (m_a_trous self)
                                - (i + 1)))) by lia.
           reflexivity.
        -- replace (i <=? feedback_iteration (m_a_trous self)) with false
             by (symmetry; apply Z.leb_gt; lia).
           reflexivity.
    + intros img H1 H2. rewrite Hk', Hk by assumption. reflexivity.
Qed.

(** The passes before the loop, one by one. *)
Lemma clear_images_inputs cr self (s : State) :
  let after := gpu (commands (clear_images cr self)) s in
  seen (commands (clear_images cr self)) s = []
  /\ (m_first_frame self = true ->
      images (snd after) PrevImage = cleared (0, 0, 0, 0)
      /\ images (snd after) (CurrentOutputImage (Z.b2z (negb (ping_pong cr))))
         = cleared (0, 0, 0, 0)
      /\ images (snd after) (CurrentMomentsImage (Z.b2z (negb (ping_pong cr))))
         = cleared (0, 0, 0, 0))
  /\ (m_first_frame self = false -> after = s).
Proof.
  cbv zeta. unfold clear_images, bind, this.
  destruct (m_first_frame self); destruct (ping_pong cr);
    (split; [reflexivity|]);
    (split; [intros; try discriminate; repeat split|]);
    intros; try discriminate; reflexivity.
Qed.

Lemma ray_trace_inputs cr be ddgi self (s : State) :
  let log := seen (commands (ray_trace cr be ddgi self)) s in
  let after := gpu (commands (ray_trace cr be ddgi self)) s in
  exists rt,
    log = [rt]
    /\ d_pipeline (si_launch _ _ _ rt) = Some RayTracePipeline
    /\ images (snd after) RayTraceImage = shader_image rt 0%nat
    /\ (forall img, img <> RayTraceImage ->
        images (snd after) img = images (snd s) img).
Proof.
  cbv zeta. eexists. repeat split.
  intros img H. simpl.
  destruct (Image_eq_dec img RayTraceImage); [contradiction | reflexivity].
Qed.

Lemma reset_args_inputs self (s : State) :
  let log := seen (commands (reset_args self)) s in
  let after := gpu (commands (reset_args self)) s in
  exists ra,
    log = [ra]
    /\ d_pipeline (si_launch _ _ _ ra) = Some ResetArgsPipeline
    /\ (forall img, images (snd after) img = images (snd s) img).
Proof. cbv zeta. eexists. repeat split. Qed.

Lemma temporal_accumulation_inputs cr be self (s : State) :
  let log := seen (commands (temporal_accumulation cr be self)) s in
  let after := gpu (commands (temporal_accumulation cr be self)) s in
  exists ta,
    log = [ta]
    /\ d_pipeline (si_launch _ _ _ ta) = Some TemporalAccumulationPipeline
    /\ si_sampled _ _ _ ta
       = [images (snd s) RayTraceImage;
          images (snd s)
            (if blur_as_input (m_temporal_accumulation self)
             then PrevImage
             else CurrentOutputImage (Z.b2z (negb (ping_pong cr))));
          images (snd s) (CurrentMomentsImage (Z.b2z (negb (ping_pong cr))))]
    /\ images (snd after) (CurrentOutputImage (Z.b2z (ping_pong cr)))
       = shader_image ta 0%nat
    /\ images (snd after) (CurrentMomentsImage (Z.b2z (ping_pong cr)))
       = shader_image ta 1%nat
    /\ (forall img,
          img <> CurrentOutputImage (Z.b2z (ping_pong cr)) ->
          img <> CurrentMomentsImage (Z.b2z (ping_pong cr)) ->
          images (snd after) img = images (snd s) img).
Proof.
  cbv zeta.
  unfold temporal_accumulation, bind, this, pipeline_barrier, record.
  destruct (ping_pong cr);
    destruct (blur_as_input (m_temporal_accumulation self));
    eexists; (split; [reflexivity|]); (split; [reflexivity|]);
    (split; [reflexivity|]); (split; [reflexivity|]);
    (split; [reflexivity|]);
    intros img H1 H2; simpl;
    repeat match goal with
           | |- context [Image_eq_dec ?a ?b] =>
               destruct (Image_eq_dec a b); [contradiction|]
           end; reflexivity.
Qed.

Lemma upsample_inputs be self (s : State) :
  let log := seen (commands (upsample be self)) s in
  let after := gpu (commands (upsample be self)) s in
  exists u,
    log = [u]
    /\ d_pipeline (si_launch _ _ _ u) = Some UpsamplePipeline
    /\ si_sampled _ _ _ u
       = [images (snd s) (ATrousImage (read_idx (m_a_trous self)))]
    /\ images (snd after) UpsampleImage = shader_image u 0%nat
    /\ (forall img, img <> UpsampleImage ->
        images (snd after) img = images (snd s) img).
Proof.
  cbv zeta. eexists. repeat split.
  intros img H. simpl.
  destruct (Image_eq_dec img UpsampleImage); [contradiction | reflexivity].
Qed.

Lemma closing_barrier_inputs w (s : State) :
  let closing :=
    [PipelineBarrier
       [memory_barrier ACCESS_SHADER_WRITE_BIT ACCESS_SHADER_READ_BIT]
       [image_memory_barrier (ATrousImage w) LAYOUT_GENERAL
          LAYOUT_SHADER_READ_ONLY_OPTIMAL ACCESS_SHADER_WRITE_BIT
          ACCESS_SHADER_READ_BIT]
       []
       PIPELINE_STAGE_COMPUTE_SHADER_BIT
       (Z.lor PIPELINE_STAGE_FRAGMENT_SHADER_BIT
          PIPELINE_STAGE_COMPUTE_SHADER_BIT)] in
  seen closing s = []
  /\ forall img, images (snd (gpu closing s)) img = images (snd s) img.
Proof. split; reflexivity. Qed.

Lemma stage_inputs_single p q (inp : ShaderInput texels bufdata external) :
  d_pipeline (si_launch _ _ _ inp) = Some q ->
  stage_inputs p [inp] = if Pipeline_eqb p q then [inp] else [].
Proof.
  intros H. unfold stage_inputs, runs. simpl. rewrite H. reflexivity.
Qed.

(** The flow of image contents through a frame that denoises. *)
Lemma render_dataflow cr be ddgi self (s : State) :
  m_denoise self = true ->
  let log := seen (commands (render cr be ddgi self)) s in
  let after := gpu (commands (render cr be ddgi self)) s in
  let n := filter_iterations (m_a_trous self) in
  let r := read_idx (m_a_trous (object (render cr be ddgi self))) in
  exists rt ta,
    stage_inputs RayTracePipeline log = [rt]
    /\ stage_inputs TemporalAccumulationPipeline log = [ta]
    /\ si_sampled _ _ _ ta
       = [shader_image rt 0%nat;
          if m_first_frame self then cleared (0, 0, 0, 0)
          else images (snd s)
                 (if blur_as_input (m_temporal_accumulation self)
                  then PrevImage
                  else CurrentOutputImage (Z.b2z (negb (ping_pong cr))));
          if m_first_frame self then cleared (0, 0, 0, 0)
          else images (snd s)
                 (CurrentMomentsImage (Z.b2z (negb (ping_pong cr))))]
    /\ fed shader_image (shader_image ta 0%nat)
         (stage_inputs ATrousPipeline log)
    /\ length (stage_inputs ATrousPipeline log) = Z.to_nat n
    /\ images (snd after) RayTraceImage = shader_image rt 0%nat
    /\ images (snd after) (CurrentOutputImage (Z.b2z (ping_pong cr)))
       = shader_image ta 0%nat
    /\ (1 <= n ->
        images (snd after) (ATrousImage r)
        = chain_out shader_image (shader_image ta 0%nat)
            (stage_inputs ATrousPipeline log))
    /\ (if scale_eqb (m_scale self) RAY_TRACE_SCALE_FULL_RES
        then stage_inputs UpsamplePipeline log = []
        else exists u,
            stage_inputs UpsamplePipeline log = [u]
            /\ si_sampled _ _ _ u = [images (snd after) (ATrousImage r)]
            /\ images (snd after) UpsampleImage = shader_image u 0%nat)
    /\ images (snd after) (CurrentMomentsImage (Z.b2z (ping_pong cr)))
       = shader_image ta 1%nat
    /\ images (snd after) PrevImage
       = match feedback_launch self 0 (stage_inputs ATrousPipeline log) with
         | Some f => shader_image f 0%nat
         | None => if m_first_frame self then cleared (0, 0, 0, 0)
                   else images (snd s) PrevImage
         end.
Proof.
  intros Hd. cbv zeta.
  rewrite render_commands, render_object, Hd. cbv zeta.
  destruct (clear_images_keeps cr self)
    as (Hsc & _ & _ & _ & _ & _ & _ & Hta & Hat & _).
  rewrite a_trous_filter_commands, a_trous_filter_object.
  unfold set_read_idx at 1. cbn [m_a_trous read_idx].
  rewrite Hat.
  set (count := Z.to_nat (filter_iterations (m_a_trous self))).
  (* the clear *)
  destruct (clear_images_inputs cr self s) as (HlC & HfC & HnC).
  rewrite !inputs_log_app, !exec_app, HlC.
  remember (gpu (commands (clear_images cr self)) s) as s1 eqn:E1. clear E1.
  remember (object (clear_images cr self)) as cl eqn:Ecl. clear Ecl.
  (* the ray trace *)
  destruct (ray_trace_inputs cr be ddgi cl s1) as (rt & HlR & HpR & HwR & HkR).
  rewrite HlR.
  remember (gpu (commands (ray_trace cr be ddgi cl)) s1) as s2 eqn:E2. clear E2.
  (* the reset of the arguments *)
  destruct (reset_args_inputs cl s2) as (ra & HlA & HpA & HkA).
  rewrite HlA.
  remember (gpu (commands (reset_args cl)) s2) as s3 eqn:E3. clear E3.
  (* the temporal accumulation *)
  destruct (temporal_accumulation_inputs cr be cl s3)
    as (ta & HlT & HpT & HsT & HwT & HmT & HkT).
  rewrite HlT.
  remember (gpu (commands (temporal_accumulation cr be cl)) s3) as s4 eqn:E4.
  clear E4.
  (* the loop *)
  destruct (a_trous_loop_inputs cr cl count 0 a_trous_locals_init s4
              ltac:(lia)) as (HfL & HnL & HoL & HwL & HpL & HkL).
  change (0 =? 0) with true in HfL, HwL. cbv iota in HfL, HwL.
  rewrite HwT in HfL, HwL.
  remember (seen (commands (a_trous_loop cr count 0 a_trous_locals_init cl))
              s4) as logL eqn:EL.
  clear EL.
  remember (gpu (commands (a_trous_loop cr count 0 a_trous_locals_init cl))
              s4) as s5 eqn:E5.
  clear E5.
  remember (loc_write_idx
              (result (a_trous_loop cr count 0 a_trous_locals_init cl)))
    as w eqn:Ew.
  clear Ew.
  destruct (closing_barrier_inputs w s5) as (HlB & HkB).
  cbv zeta in HlB, HkB. rewrite HlB.
  match goal with
  | |- context [gpu ?c s5] => remember (gpu c s5) as s6 eqn:E6
  end.
  clear E6 HlB.
  assert (Hhist :
            si_sampled _ _ _ ta
            = [shader_image rt 0%nat;
               if m_first_frame self then cleared (0, 0, 0, 0)
               else images (snd s)
                      (if blur_as_input (m_temporal_accumulation self)
                       then PrevImage
                       else CurrentOutputImage
                              (Z.b2z (negb (ping_pong cr))));
               if m_first_frame self then cleared (0, 0, 0, 0)
               else images (snd s)
                      (CurrentMomentsImage (Z.b2z (negb (ping_pong cr))))]).
  { rewrite HsT, Hta, !HkA, HwR.
    rewrite !HkR
      by (destruct (blur_as_input (m_temporal_accumulation self));
          discriminate).
    destruct (m_first_frame self).
    - destruct (HfC eq_refl) as (H1 & H2 & H3).
      rewrite H3.
      destruct (blur_as_input (m_temporal_accumulation self));
        [rewrite H1 | rewrite H2]; reflexivity.
    - rewrite (HnC eq_refl). reflexivity. }
  assert (Hrt6 : images (snd s6) RayTraceImage = shader_image rt 0%nat).
  { rewrite HkB, HkL by discriminate.
    rewrite HkT by discriminate. rewrite HkA. exact HwR. }
  assert (Hout6 : images (snd s6) (CurrentOutputImage (Z.b2z (ping_pong cr)))
                  = shader_image ta 0%nat).
  { rewrite HkB, HkL by discriminate. exact HwT. }
  assert (Hmom6 : images (snd s6)
                    (CurrentMomentsImage (Z.b2z (ping_pong cr)))
                  = shader_image ta 1%nat).
  { rewrite HkB, HkL by discriminate. exact HmT. }
  assert (Hprev6 : images (snd s6) PrevImage
                   = match feedback_launch self 0
                             (stage_inputs ATrousPipeline logL) with
                     | Some f => shader_image f 0%nat
                     | None => if m_first_frame self then cleared (0, 0, 0, 0)
                               else images (snd s) PrevImage
                     end).
  { rewrite HkB, HpL.
    replace (feedback_launch cl 0 (stage_inputs ATrousPipeline logL))
      with (feedback_launch self 0 (stage_inputs ATrousPipeline logL))
      by (unfold feedback_launch; rewrite Hta, Hat; reflexivity).
    destruct (feedback_launch self 0 (stage_inputs ATrousPipeline logL));
      [reflexivity|].
    rewrite HkT by discriminate. rewrite HkA.
    rewrite HkR by discriminate.
    destruct (m_first_frame self).
    - apply (HfC eq_refl).
    - rewrite (HnC eq_refl). reflexivity. }
  assert (Hw6 : 1 <= filter_iterations (m_a_trous self) ->
                images (snd s6) (ATrousImage w)
                = chain_out shader_image (shader_image ta 0%nat)
                    (stage_inputs ATrousPipeline logL)).
  { intros Hn. rewrite HkB. apply HwL. subst count. lia. }
  rewrite !stage_inputs_app.
  rewrite !(stage_inputs_single _ _ _ HpR), !(stage_inputs_single _ _ _ HpA),
    !(stage_inputs_single _ _ _ HpT).
  rewrite !(HoL RayTracePipeline), !(HoL TemporalAccumulationPipeline),
    !(HoL UpsamplePipeline) by discriminate.
  change (stage_inputs ?p []) with (@nil (ShaderInput texels bufdata external)).
  repeat match goal with
         | |- context [Pipeline_eqb ?a ?b] =>
             let v := eval vm_compute in (Pipeline_eqb a b) in
             change (Pipeline_eqb a b) with v
         end.
  cbv iota. cbn [app]. rewrite !app_nil_r.
  exists rt, ta.
  destruct (scale_eqb (m_scale self) RAY_TRACE_SCALE_FULL_RES);
    cbn [negb]; cbv iota.
  - change (seen [] s6) with (@nil (ShaderInput texels bufdata external)).
    change (gpu [] s6) with s6.
    change (stage_inputs ?p []) with (@nil (ShaderInput texels bufdata external)).
    rewrite !app_nil_r.
    repeat split; try assumption; try reflexivity.
  - destruct (upsample_inputs be (set_read_idx w cl) s6)
      as (u & HlU & HpU & HsU & HwU & HkU).
    rewrite HlU.
    remember (gpu (commands (upsample be (set_read_idx w cl))) s6) as s7
      eqn:E7.
    clear E7.
    rewrite !(stage_inputs_single _ _ _ HpU).
    repeat match goal with
           | |- context [Pipeline_eqb ?a ?b] =>
               let v := eval vm_compute in (Pipeline_eqb a b) in
               change (Pipeline_eqb a b) with v
           end.
    cbv iota. rewrite !app_nil_r.
    cbn [set_read_idx m_a_trous read_idx] in *.
    rewrite (HkU RayTraceImage), (HkU (CurrentOutputImage _)),
      (HkU (CurrentMomentsImage _)), (HkU PrevImage), !(HkU (ATrousImage w))
      by discriminate.
    repeat split; try assumption; try reflexivity.
    exists u. repeat split; [exact HsU | exact HwU].
Qed.


(** X11: in a frame that denoises, the temporal accumulation launch
    samples what the ray trace launch of the same frame wrote, and as
    history, on the first frame of an instance, images cleared to zero,
    and on later frames the contents the history images had before the
    frame (the previous image with [blur_as_input], else the output of
    slot [!ping_pong]; and the moments of slot [!ping_pong]). *)
Theorem temporal_accumulation_history cr be ddgi self (s : State) :
  m_denoise self = true ->
  let log := seen (commands (render cr be ddgi self)) s in
  exists rt ta,
    stage_inputs RayTracePipeline log = [rt]
    /\ stage_inputs TemporalAccumulationPipeline log = [ta]
    /\ si_sampled _ _ _ ta
       = [shader_image rt 0%nat;
          if m_first_frame self then cleared (0, 0, 0, 0)
          else images (snd s)
                 (if blur_as_input (m_temporal_accumulation self)
                  then PrevImage
                  else CurrentOutputImage (Z.b2z (negb (ping_pong cr))));
          if m_first_frame self then cleared (0, 0, 0, 0)
          else images (snd s)
                 (CurrentMomentsImage (Z.b2z (negb (ping_pong cr))))].
Proof.
  intros Hd. cbv zeta.
  destruct (render_dataflow cr be ddgi self s Hd)
    as (rt & ta & H1 & H2 & H3 & _).
  exists rt, ta. auto.
Qed.

(** X12: in a frame that denoises, the filter launches of the A-Trous
    loop form a chain: there are [filter_iterations] of them (none for a
    count below one), the first samples the output the temporal
    accumulation launch wrote, each later one samples what the one before
    it wrote, and with at least one iteration the A-Trous image of the
    recorded read index holds at the end of the frame what the last one
    wrote. *)
Theorem a_trous_chain cr be ddgi self (s : State) :
  m_denoise self = true ->
  let log := seen (commands (render cr be ddgi self)) s in
  let after := gpu (commands (render cr be ddgi self)) s in
  let n := filter_iterations (m_a_trous self) in
  let r := read_idx (m_a_trous (object (render cr be ddgi self))) in
  exists ta,
    stage_inputs TemporalAccumulationPipeline log = [ta]
    /\ fed shader_image (shader_image ta 0%nat)
         (stage_inputs ATrousPipeline log)
    /\ length (stage_inputs ATrousPipeline log) = Z.to_nat n
    /\ (1 <= n ->
        images (snd after) (ATrousImage r)
        = chain_out shader_image (shader_image ta 0%nat)
            (stage_inputs ATrousPipeline log)).
Proof.
  intros Hd. cbv zeta.
  destruct (render_dataflow cr be ddgi self s Hd)
    as (rt & ta & _ & H2 & _ & H4 & H5 & _ & _ & H8 & _).
  exists ta. auto.
Qed.

(** X13: the descriptor set [output_ds] returns after [render] shows the
    result of the selected stage of this very frame.  Without denoising
    it is what the ray trace launch wrote.  With denoising and at least
    one filter iteration it is, by selected output: what the ray trace
    launch wrote; what the temporal accumulation launch wrote; the
    result of the A-Trous chain; and for the upsample output, at full
    resolution the result of the chain, else what the upsample launch
    wrote, which sampled the result of the chain. *)
Theorem output_is_stage_result cr be ddgi self (s : State) :
  (m_denoise self = true -> 1 <= filter_iterations (m_a_trous self)) ->
  let log := seen (commands (render cr be ddgi self)) s in
  let after := gpu (commands (render cr be ddgi self)) s in
  let shown :=
    exposed (output_ds cr (object (render cr be ddgi self))) (snd after) in
  exists rt,
    stage_inputs RayTracePipeline log = [rt]
    /\ if m_denoise self then
         exists ta,
           stage_inputs TemporalAccumulationPipeline log = [ta]
           /\ let filtered :=
                chain_out shader_image (shader_image ta 0%nat)
                  (stage_inputs ATrousPipeline log) in
              match m_current_output self with
              | OUTPUT_RAY_TRACE => shown = [shader_image rt 0%nat]
              | OUTPUT_TEMPORAL_ACCUMULATION =>
                  shown = [shader_image ta 0%nat]
              | OUTPUT_ATROUS => shown = [filtered]
              | OUTPUT_UPSAMPLE =>
                  if scale_eqb (m_scale self) RAY_TRACE_SCALE_FULL_RES
                  then shown = [filtered]
                  else exists u,
                      stage_inputs UpsamplePipeline log = [u]
                      /\ si_sampled _ _ _ u = [filtered]
                      /\ shown = [shader_image u 0%nat]
              end
       else shown = [shader_image rt 0%nat].
Proof.
  intros Hn. cbv zeta.
  destruct (render_keeps cr be ddgi self) as (Hsc & Hde & Hco & _).
  unfold output_ds. rewrite Hsc, Hde, Hco.
  destruct (m_denoise self) eqn:Hd.
  - specialize (Hn eq_refl).
    destruct (render_dataflow cr be ddgi self s Hd)
      as (rt & ta & H1 & H2 & _ & _ & _ & H6 & H7 & H8 & H9 & _).
    cbv zeta in H8, H9. specialize (H8 Hn).
    exists rt. split; [exact H1|]. exists ta. split; [exact H2|].
    destruct (m_current_output self); unfold exposed; simpl.
    + rewrite H6. reflexivity.
    + rewrite H7. reflexivity.
    + rewrite H8. reflexivity.
    + destruct (scale_eqb (m_scale self) RAY_TRACE_SCALE_FULL_RES); simpl.
      * rewrite H8. reflexivity.
      * destruct H9 as (u & Hu1 & Hu2 & Hu3).
        exists u. rewrite Hu1, Hu2, Hu3, H8. auto.
  - rewrite render_commands. cbv zeta. rewrite Hd, app_nil_r.
    destruct (clear_images_inputs cr self s) as (HlC & _ & _).
    rewrite inputs_log_app, exec_app, HlC.
    destruct (ray_trace_inputs cr be ddgi (object (clear_images cr self))
                (gpu (commands (clear_images cr self)) s))
      as (rt & HlR & HpR & HwR & _).
    rewrite HlR. exists rt. split.
    + rewrite app_nil_l, (stage_inputs_single _ _ _ HpR). reflexivity.
    + unfold exposed. cbn [ds_sampled_images map]. rewrite HwR. reflexivity.
Qed.

(** X14: the history of a frame is the result of the frame before.  For
    two frames in a row that both denoise, the second with the same
    instance, the temporal accumulation launch of the second frame
    samples, after this frame's ray trace result: as moments what the
    temporal accumulation launch of the first frame wrote into its
    second storage image; as colour, without [blur_as_input], what that
    launch wrote into its first; and with [blur_as_input], what the
    filter launch of iteration [feedback_iteration] of the first frame
    wrote, if the first frame made the feedback copy, and else what the
    previous image held before the first frame (the zero clear colour if
    that was the first frame of the instance). *)
Theorem history_is_previous_frame h inp1 inp2 a (s : State) b2 :
  gui_denoise (fi_gui inp1) = true ->
  gui_denoise (fi_gui inp2) = true ->
  fi_scale inp2 = None ->
  let self1 := settings_window h inp1 (reflections a) in
  let frame1 := frame_commands h inp1 a in
  let frame2 := frame_commands h inp2 (update h inp1 a) in
  let log1 := seen frame1 s in
  let log2 := seen frame2 (b2, snd (gpu frame1 s)) in
  exists ta1 rt2 ta2,
    stage_inputs TemporalAccumulationPipeline log1 = [ta1]
    /\ stage_inputs RayTracePipeline log2 = [rt2]
    /\ stage_inputs TemporalAccumulationPipeline log2 = [ta2]
    /\ si_sampled _ _ _ ta2
       = [shader_image rt2 0%nat;
          if gui_blur_as_input (fi_gui inp2)
          then match feedback_launch self1 0
                       (stage_inputs ATrousPipeline log1) with
               | Some f => shader_image f 0%nat
               | None => if m_first_frame self1 then cleared (0, 0, 0, 0)
                         else images (snd s) PrevImage
               end
          else shader_image ta1 0%nat;
          shader_image ta1 1%nat].
Proof.
  intros Hd1 Hd2 Hs2. cbv zeta. unfold frame_commands.
  destruct (settings_window_fields h inp1 (reflections a)) as (Hde1 & _ & _).
  rewrite Hd1 in Hde1.
  destruct (render_dataflow (frame_common inp1 (common a)) (fi_backend inp1)
              (fi_ddgi inp1) (settings_window h inp1 (reflections a)) s Hde1)
    as (rt1 & ta1 & _ & Hta1 & _ & _ & _ & _ & Hout1 & _ & _ & Hmom1 & Hprev1).
  cbv zeta in Hout1, Hmom1, Hprev1.
  destruct (settings_window_fields h inp2 (reflections (update h inp1 a)))
    as (Hde2 & Hff2 & _).
  rewrite Hd2 in Hde2. rewrite Hs2 in Hff2.
  destruct (update_common h inp1 a) as (Hpp & _ & _ & Hff1).
  rewrite Hff1 in Hff2.
  destruct (render_dataflow (frame_common inp2 (common (update h inp1 a)))
              (fi_backend inp2) (fi_ddgi inp2)
              (settings_window h inp2 (reflections (update h inp1 a)))
              (b2, snd (gpu (commands
                               (render (frame_common inp1 (common a))
                                  (fi_backend inp1) (fi_ddgi inp1)
                                  (settings_window h inp1 (reflections a))))
                          s))
              Hde2)
    as (rt2 & ta2 & Hrt2 & Hta2 & Hs & _).
  rewrite Hff2, settings_window_blur in Hs.
  cbn [snd frame_common ping_pong] in Hs. rewrite Hpp in Hs.
  rewrite Bool.negb_involutive in Hs.
  cbn [frame_common ping_pong] in Hout1, Hmom1.
  exists ta1, rt2, ta2.
  split; [exact Hta1|]. split; [exact Hrt2|]. split; [exact Hta2|].
  rewrite Hs, Hmom1.
  destruct (gui_blur_as_input (fi_gui inp2));
    [rewrite Hprev1 | rewrite Hout1]; reflexivity.
Qed.

End GpuDataFlow.

Lemma temporal_accumulation_history_witness :
  let self := Sample.fresh 3 2 true true RAY_TRACE_SCALE_HALF_RES in
  let log := inputs_log Sample.toy_image Sample.toy_buffer Sample.toy_cleared
               Sample.toy_discarded tt
               (commands (render Sample.cr Sample.backend Sample.ddgi self))
               (no_bindings, Sample.stale) in
  exists rt ta,
    stage_inputs RayTracePipeline log = [rt]
    /\ stage_inputs TemporalAccumulationPipeline log = [ta]
    /\ si_sampled _ _ _ ta
       = [Sample.toy_image rt 0%nat; Sample.toy_cleared (0, 0, 0, 0);
          Sample.toy_cleared (0, 0, 0, 0)].
Proof.
  apply (temporal_accumulation_history Z unit unit Sample.toy_image
           Sample.toy_buffer Sample.toy_cleared Sample.toy_discarded tt
           Sample.cr Sample.backend Sample.ddgi
           (Sample.fresh 3 2 true true RAY_TRACE_SCALE_HALF_RES)
           (no_bindings, Sample.stale)).
  reflexivity.
Defined.

Lemma a_trous_chain_witness :
  let self := Sample.fresh 3 2 true true RAY_TRACE_SCALE_HALF_RES in
  let frame := render Sample.cr Sample.backend Sample.ddgi self in
  let log := inputs_log Sample.toy_image Sample.toy_buffer Sample.toy_cleared
               Sample.toy_discarded tt (commands frame)
               (no_bindings, Sample.stale) in
  exists ta,
    stage_inputs TemporalAccumulationPipeline log = [ta]
    /\ fed Sample.toy_image (Sample.toy_image ta 0%nat)
         (stage_inputs ATrousPipeline log)
    /\ length (stage_inputs ATrousPipeline log) = 3%nat
    /\ (1 <= 3 ->
        images (Sample.toy_exec (commands frame) Sample.stale)
          (ATrousImage (read_idx (m_a_trous (object frame))))
        = chain_out Sample.toy_image (Sample.toy_image ta 0%nat)
            (stage_inputs ATrousPipeline log)).
Proof.
  apply (a_trous_chain Z unit unit Sample.toy_image
           Sample.toy_buffer Sample.toy_cleared Sample.toy_discarded tt
           Sample.cr Sample.backend Sample.ddgi
           (Sample.fresh 3 2 true true RAY_TRACE_SCALE_HALF_RES)
           (no_bindings, Sample.stale)).
  reflexivity.
Defined.

Lemma output_is_stage_result_witness :
  let self := Sample.fresh 3 2 true true RAY_TRACE_SCALE_FULL_RES in
  let frame := render Sample.cr Sample.backend Sample.ddgi self in
  let log := inputs_log Sample.toy_image Sample.toy_buffer Sample.toy_cleared
               Sample.toy_discarded tt (commands frame)
               (no_bindings, Sample.stale) in
  exists rt,
    stage_inputs RayTracePipeline log = [rt]
    /\ exists ta,
        stage_inputs TemporalAccumulationPipeline log = [ta]
        /\ exposed (output_ds Sample.cr (object frame))
             (Sample.toy_exec (commands frame) Sample.stale)
           = [chain_out Sample.toy_image (Sample.toy_image ta 0%nat)
                (stage_inputs ATrousPipeline log)].
Proof.
  apply (output_is_stage_result Z unit unit Sample.toy_image
           Sample.toy_buffer Sample.toy_cleared Sample.toy_discarded tt
           Sample.cr Sample.backend Sample.ddgi
           (Sample.fresh 3 2 true true RAY_TRACE_SCALE_FULL_RES)
           (no_bindings, Sample.stale)).
  intros _. vm_compute. discriminate.
Defined.

Lemma history_is_previous_frame_witness :
  let h := Sample.settings 3 2 true false in
  let inp1 := SampleFrames.input true true None in
  let inp2 := SampleFrames.input true true None in
  let a := SampleFrames.host 3 2 RAY_TRACE_SCALE_HALF_RES in
  let s := (no_bindings, Sample.stale) in
  let self1 := settings_window h inp1 (reflections a) in
  let frame1 := frame_commands h inp1 a in
  let frame2 := frame_commands h inp2 (update h inp1 a) in
  let log1 := inputs_log Sample.toy_image Sample.toy_buffer
                Sample.toy_cleared Sample.toy_discarded tt frame1 s in
  let log2 := inputs_log Sample.toy_image Sample.toy_buffer
                Sample.toy_cleared Sample.toy_discarded tt frame2
                (no_bindings,
                 snd (exec Sample.toy_image Sample.toy_buffer
                        Sample.toy_cleared Sample.toy_discarded tt frame1 s))
  in
  exists ta1 rt2 ta2,
    stage_inputs TemporalAccumulationPipeline log1 = [ta1]
    /\ stage_inputs RayTracePipeline log2 = [rt2]
    /\ stage_inputs TemporalAccumulationPipeline log2 = [ta2]
    /\ si_sampled _ _ _ ta2
       = [Sample.toy_image rt2 0%nat;
          if gui_blur_as_input (fi_gui inp2)
          then match feedback_launch self1 0
                       (stage_inputs ATrousPipeline log1) with
               | Some f => Sample.toy_image f 0%nat
               | None => if m_first_frame self1
                         then Sample.toy_cleared (0, 0, 0, 0)
                         else images (snd s) PrevImage
               end
          else Sample.toy_image ta1 0%nat;
          Sample.toy_image ta1 1%nat].
Proof.
  exact (history_is_previous_frame Z unit unit Sample.toy_image
           Sample.toy_buffer Sample.toy_cleared Sample.toy_discarded tt
           (Sample.settings 3 2 true false)
           (SampleFrames.input true true None)
           (SampleFrames.input true true None)
           (SampleFrames.host 3 2 RAY_TRACE_SCALE_HALF_RES)
           (no_bindings, Sample.stale) no_bindings
           eq_refl eq_refl eq_refl).
Defined.

(** ** Resources are used as they were created *)

Lemma iteration_launches_usage cr self self' i :
  forallb (launch_usage_ok self') (iteration_launches cr self i) = true.
Proof.
  unfold iteration_launches, copy_tiles_launch, a_trous_launch,
    a_trous_input_ds.
  destruct (i =? 0); destruct (Z.odd i); destruct (ping_pong cr); reflexivity.
Qed.

Lemma forallb_flat_map {A B : Type} (p : B -> bool) (f : A -> list B) l :
  (forall a, forallb p (f a) = true) ->
  forallb p (flat_map f l) = true.
Proof.
  intros H. induction l as [|a l IH]; [reflexivity|].
  simpl. rewrite forallb_app, H, IH. reflexivity.
Qed.

Lemma extent_eqb_refl a : extent_eqb a a = true.
Proof.
  destruct a as [[w h] d]. unfold extent_eqb. rewrite !Z.eqb_refl. reflexivity.
Qed.

Lemma a_trous_iteration_transfers cr be i loc self self' :
  m_width self = m_width self' ->
  m_height self = m_height self' ->
  forallb (transfer_usage_ok be self')
    (commands (a_trous_iteration cr i loc self)) = true.
Proof.
  intros Hw Hh.
  rewrite a_trous_iteration_commands, forallb_app.
  apply andb_true_intro. split.
  - unfold a_trous_dispatches. destruct (i =? 0); reflexivity.
  - destruct ((feedback_iteration (m_a_trous self) =? i)
              && blur_as_input (m_temporal_accumulation self));
      [|reflexivity].
    simpl. rewrite Hw, Hh, !Z.eqb_refl. reflexivity.
Qed.

Lemma a_trous_loop_transfers cr be self self' count :
  m_width self = m_width self' ->
  m_height self = m_height self' ->
  forall i loc,
  forallb (transfer_usage_ok be self')
    (commands (a_trous_loop cr count i loc self)) = true.
Proof.
  intros Hw Hh.
  induction count as [|count IH]; intros i loc; [reflexivity|].
  rewrite a_trous_loop_commands, forallb_app.
  rewrite a_trous_iteration_transfers, IH by assumption.
  reflexivity.
Qed.

(** X15: every command of [render] uses the images and buffers within
    what [create_images] and [create_buffers] made them for.  The storage
    images and buffers of every launch have the storage flag and its
    sampled images the sampled flag; every indirect dispatch reads its
    arguments at offset 0 of a buffer that has the indirect flag and is
    as large as one indirect command; every clear targets an image with
    the transfer-destination flag; the feedback copy goes from an image
    with the transfer-source flag to one with the transfer-destination
    flag, and its extent is the whole extent of both. *)
Theorem render_respects_usage cr be ddgi self b :
  forallb (launch_usage_ok self)
    (dispatch_log_from b (commands (render cr be ddgi self))) = true
  /\ forallb (transfer_usage_ok be self)
       (commands (render cr be ddgi self)) = true.
Proof.
  destruct (clear_images_keeps cr self)
    as (_ & _ & Hw & Hh & _ & _ & _ & _ & _ & _).
  split.
  - rewrite render_log. cbv zeta.
    rewrite forallb_app.
    apply andb_true_intro. split; [reflexivity|].
    destruct (m_denoise self); [|reflexivity].
    rewrite !forallb_app.
    apply andb_true_intro. split; [reflexivity|].
    apply andb_true_intro. split.
    { unfold temporal_accumulation, bind, this, pipeline_barrier, record.
      destruct (ping_pong cr);
        destruct (blur_as_input
                    (m_temporal_accumulation (object (clear_images cr self))));
        reflexivity. }
    apply andb_true_intro. split.
    { apply forallb_flat_map. intros i. apply iteration_launches_usage. }
    destruct (negb (scale_eqb (m_scale self) RAY_TRACE_SCALE_FULL_RES));
      reflexivity.
  - rewrite render_commands. cbv zeta.
    rewrite !forallb_app.
    apply andb_true_intro. split.
    { unfold clear_images, bind, this.
      destruct (m_first_frame self); reflexivity. }
    apply andb_true_intro. split; [reflexivity|].
    destruct (m_denoise self); [|reflexivity].
    rewrite !forallb_app.
    apply andb_true_intro. split; [reflexivity|].
    apply andb_true_intro. split.
    { unfold temporal_accumulation, bind, this, pipeline_barrier, record.
      reflexivity. }
    apply andb_true_intro. split.
    { rewrite a_trous_filter_commands, forallb_app.
      apply andb_true_intro. split; [|reflexivity].
      apply a_trous_loop_transfers; assumption. }
    destruct (negb (scale_eqb (m_scale self) RAY_TRACE_SCALE_FULL_RES));
      reflexivity.
Qed.

Lemma ceil_div_8 w : 8 * (ceil_div w 8 - 1) < w <= 8 * ceil_div w 8.
Proof.
  unfold ceil_div.
  pose proof (Z.div_mod (w + 8 - 1) 8 ltac:(lia)) as H.
  pose proof (Z.mod_pos_bound (w + 8 - 1) 8 ltac:(lia)) as Hm.
  lia.
Qed.

(** X16: the two tile-coordinate buffers made by [create_buffers] hold
    eight bytes (one [ivec2]) for each work group of the temporal
    accumulation dispatch that [render] records, for working extents
    below 2^24. *)
Theorem tile_buffers_fit_dispatch cr be ddgi self b r :
  0 <= m_width self < 2 ^ 24 ->
  0 <= m_height self < 2 ^ 24 ->
  In r (dispatches_of TemporalAccumulationPipeline b
          (commands (render cr be ddgi self))) ->
  create_buffers self DenoiseTileCoordsBuffer = 8 * group_count (d_work r)
  /\ create_buffers self CopyTileCoordsBuffer = 8 * group_count (d_work r).
Proof.
  intros Hw Hh Hin.
  destruct (clear_images_keeps cr self)
    as (_ & _ & Ew & Eh & _ & _ & _ & _ & _ & _).
  rewrite render_temporal_launches in Hin.
  destruct (m_denoise self); [|contradiction].
  assert (Hr : d_work r
               = WorkDirect (ceil_div (m_width self) 8)
                   (ceil_div (m_height self) 8) 1).
  { unfold temporal_accumulation, bind, this, pipeline_barrier, record in Hin.
    simpl in Hin. destruct Hin as [<-|[]]. simpl. rewrite Ew, Eh.
    reflexivity. }
  rewrite Hr. unfold create_buffers, group_count, wrap_u64,
    TEMPORAL_ACCUMULATION_NUM_THREADS_X, TEMPORAL_ACCUMULATION_NUM_THREADS_Y.
  pose proof (ceil_div_8 (m_width self)) as Cw.
  pose proof (ceil_div_8 (m_height self)) as Ch.
  assert (0 <= ceil_div (m_width self) 8 < 2 ^ 24) by lia.
  assert (0 <= ceil_div (m_height self) 8 < 2 ^ 24) by lia.
  rewrite (Z.mod_small (8 * ceil_div (m_width self) 8)) by lia.
  rewrite Z.mod_small by nia.
  split; lia.
Qed.

Lemma tile_buffers_fit_dispatch_witness :
  let self := Sample.fresh 3 2 true true RAY_TRACE_SCALE_HALF_RES in
  let r := {| d_pipeline := Some TemporalAccumulationPipeline;
              d_sets := [CurrentWriteDs 0; GBufferOutputDs; GBufferHistoryDs;
                         RayTraceReadDs; PrevReadDs 1; PerFrameDs;
                         IndirectBufferDs];
              d_push :=
                Some (PushTemporalAccumulation
                        {| ta_camera_delta := (0, 0, 0); ta_frame_time := 0;
                           ta_alpha := 0; ta_moments_alpha := 0;
                           ta_g_buffer_mip := 1;
                           ta_approximate_with_ddgi := 1 |});
              d_work := WorkDirect 4 4 1 |} in
  create_buffers self DenoiseTileCoordsBuffer = 8 * group_count (d_work r)
  /\ create_buffers self CopyTileCoordsBuffer = 8 * group_count (d_work r).
Proof.
  apply (tile_buffers_fit_dispatch Sample.cr Sample.backend Sample.ddgi
           (Sample.fresh 3 2 true true RAY_TRACE_SCALE_HALF_RES)
           no_bindings).
  - vm_compute. split; [discriminate | reflexivity].
  - vm_compute. split; [discriminate | reflexivity].
  - left. reflexivity.
Defined.

Lemma covers_launches be self (l : list DispatchRecord) :
  Forall (fun r => Forall (fun img =>
                             covers (d_work r)
                               (create_images_extent be self img))
                     (written_images r)) l
  <-> forall r img, In r l -> In img (written_images r) ->
                    covers (d_work r) (create_images_extent be self img).
Proof.
  rewrite Forall_forall. split.
  - intros H r img Hr. specialize (H r Hr). rewrite Forall_forall in H.
    apply H.
  - intros H r Hr. rewrite Forall_forall. intros img. apply H. exact Hr.
Qed.

(** X17: for working and swap chain extents below 2^24, where the
    [float] arithmetic that sizes the dispatches is exact, the work size
    of every launch of [render] fits the extent [create_images] gave the
    images the launch writes: the ray trace has exactly the working
    extent, and each direct dispatch (temporal accumulation over the
    working extent, upsample over the swap chain extent) has on both axes
    just enough groups of eight to cover the image, and depth one. *)
Theorem work_covers_images cr be ddgi self b :
  0 <= m_width self < 2 ^ 24 ->
  0 <= m_height self < 2 ^ 24 ->
  0 <= swap_chain_width be < 2 ^ 24 ->
  0 <= swap_chain_height be < 2 ^ 24 ->
  Forall (fun r => Forall (fun img =>
                             covers (d_work r)
                               (create_images_extent be self img))
                     (written_images r))
    (dispatch_log_from b (commands (render cr be ddgi self))).
Proof.
  intros _ _ _ _.
  destruct (clear_images_keeps cr self)
    as (_ & _ & Ew & Eh & _ & _ & _ & _ & _ & _).
  rewrite render_log. cbv zeta.
  apply Forall_app. split.
  { simpl. rewrite Ew, Eh. repeat constructor. }
  destruct (m_denoise self); [|constructor].
  apply Forall_app. split.
  { simpl. repeat constructor. }
  apply Forall_app. split.
  { unfold temporal_accumulation, bind, this, pipeline_barrier, record.
    pose proof (ceil_div_8 (m_width self)) as Cw.
    pose proof (ceil_div_8 (m_height self)) as Ch.
    destruct (ping_pong cr);
      destruct (blur_as_input
                  (m_temporal_accumulation (object (clear_images cr self))));
      simpl; rewrite Ew, Eh;
      unfold TEMPORAL_ACCUMULATION_NUM_THREADS_X,
        TEMPORAL_ACCUMULATION_NUM_THREADS_Y;
      repeat constructor; lia. }
  apply Forall_app. split.
  { apply covers_launches. intros r img Hr Hi.
    apply in_flat_map in Hr. destruct Hr as (i & _ & Hr).
    destruct Hr as [<-|[<-|[]]]; simpl;
      destruct img; exact I. }
  destruct (negb (scale_eqb (m_scale self) RAY_TRACE_SCALE_FULL_RES));
    [|constructor].
  simpl.
  pose proof (ceil_div_8 (swap_chain_width be)) as Cw.
  pose proof (ceil_div_8 (swap_chain_height be)) as Ch.
  repeat constructor; lia.
Qed.

Lemma work_covers_images_witness :
  let self := Sample.fresh 3 2 true true RAY_TRACE_SCALE_HALF_RES in
  Forall (fun r => Forall (fun img =>
                             covers (d_work r)
                               (create_images_extent Sample.backend self img))
                     (written_images r))
    (dispatch_log_from no_bindings
       (commands (render Sample.cr Sample.backend Sample.ddgi self))).
Proof.
  apply (work_covers_images Sample.cr Sample.backend Sample.ddgi
           (Sample.fresh 3 2 true true RAY_TRACE_SCALE_HALF_RES)
           no_bindings);
    vm_compute; (split; [discriminate | reflexivity]).
Defined.

Lemma render_extent cr be ddgi self img :
  create_images_extent be (object (render cr be ddgi self)) img
  = create_images_extent be self img.
Proof.
  destruct (clear_images_keeps cr self)
    as (_ & _ & Ew & Eh & _ & _ & _ & _ & _ & _).
  unfold create_images_extent. rewrite render_object.
  destruct (m_denoise self).
  - rewrite a_trous_filter_object. unfold set_read_idx.
    cbn [m_width m_height]. rewrite Ew, Eh. reflexivity.
  - rewrite Ew, Eh. reflexivity.
Qed.

(** X18: with denoising on and the upsample output selected, the image
    behind [output_ds] after [render] has the extent of the swap chain at
    every scale, for an instance whose working extent the constructor
    computed from that swap chain: at half and quarter resolution it is
    the upsample image, and at full resolution, where the upsample pass is
    skipped, the A-Trous image, whose working extent is then the swap
    chain extent itself. *)
Theorem upsample_output_extent cr be ddgi self :
  m_width self = swap_chain_width be / 2 ^ scale_value (m_scale self) ->
  m_height self = swap_chain_height be / 2 ^ scale_value (m_scale self) ->
  m_denoise self = true ->
  m_current_output self = OUTPUT_UPSAMPLE ->
  Forall (fun img =>
            create_images_extent be (object (render cr be ddgi self)) img
            = (swap_chain_width be, swap_chain_height be, 1))
    (ds_sampled_images (output_ds cr (object (render cr be ddgi self)))).
Proof.
  intros Hw Hh Hd Ho.
  destruct (render_keeps cr be ddgi self) as (Hsc & Hde & Hco & _).
  unfold output_ds. rewrite Hsc, Hde, Hco, Hd, Ho.
  destruct (scale_eqb (m_scale self) RAY_TRACE_SCALE_FULL_RES) eqn:E.
  - apply scale_eqb_eq in E. simpl. constructor; [|constructor].
    rewrite render_extent. unfold create_images_extent.
    rewrite Hw, Hh, E. simpl. rewrite !Z.div_1_r. reflexivity.
  - simpl. constructor; [|constructor].
    rewrite render_extent. reflexivity.
Qed.

Lemma upsample_output_extent_witness :
  let self := Sample.fresh 3 2 true true RAY_TRACE_SCALE_FULL_RES in
  Forall (fun img =>
            create_images_extent Sample.backend
              (object (render Sample.cr Sample.backend Sample.ddgi self)) img
            = (swap_chain_width Sample.backend,
               swap_chain_height Sample.backend, 1))
    (ds_sampled_images
       (output_ds Sample.cr
          (object (render Sample.cr Sample.backend Sample.ddgi self)))).
Proof.
  apply (upsample_output_extent Sample.cr Sample.backend Sample.ddgi
           (Sample.fresh 3 2 true true RAY_TRACE_SCALE_FULL_RES));
    reflexivity.
Defined.

(** ** The frame loop *)

(** X19: after any positive number [k] of calls of [update], whatever
    the inputs: [ping_pong] has flipped [k] times, [num_frames] has grown
    by [k] modulo 2^32, and both first-frame flags (the one of the common
    resources and the one of the reflections instance in use) are
    false. *)
Theorem frame_counters h inps a :
  inps <> [] ->
  let a' := run_frames h inps a in
  ping_pong (common a')
  = xorb (ping_pong (common a)) (Nat.odd (length inps))
  /\ num_frames (common a')
     = wrap_u32 (num_frames (common a) + Z.of_nat (length inps))
  /\ first_frame (common a') = false
  /\ m_first_frame (reflections a') = false.
Proof.
  cbv zeta. induction inps as [|inp rest IH] using rev_ind; [congruence|].
  intros _. rewrite run_frames_snoc, length_app.
  destruct (update_common h inp (run_frames h rest a))
    as (Hp & Hf & Hn & Hm).
  rewrite Hp, Hf, Hn, Hm.
  replace (length rest + length [inp])%nat with (S (length rest))
    by (simpl; lia).
  destruct rest as [|i0 rest'].
  - simpl. split; [destruct (ping_pong (common a)); reflexivity|].
    repeat split.
  - destruct (IH ltac:(discriminate)) as (IHp & IHn & _ & _).
    rewrite IHp, IHn. split.
    + rewrite Nat.odd_succ, <- Nat.negb_odd.
      destruct (ping_pong (common a)), (Nat.odd (length (i0 :: rest')));
        reflexivity.
    + split; [|split; reflexivity].
      rewrite wrap_u32_add_1. f_equal. lia.
Qed.

Lemma frame_counters_witness :
  let a' := run_frames (Sample.settings 3 2 true false)
              [SampleFrames.input true true None;
               SampleFrames.input false true None;
               SampleFrames.input true true None]
              (SampleFrames.host 3 2 RAY_TRACE_SCALE_HALF_RES) in
  ping_pong (common a') = true
  /\ num_frames (common a') = 3
  /\ first_frame (common a') = false
  /\ m_first_frame (reflections a') = false.
Proof.
  apply (frame_counters (Sample.settings 3 2 true false)
           [SampleFrames.input true true None;
            SampleFrames.input false true None;
            SampleFrames.input true true None]
           (SampleFrames.host 3 2 RAY_TRACE_SCALE_HALF_RES)).
  discriminate.
Defined.

Lemma filter_clear_passes cr be ddgi self :
  filter is_clear (commands (render cr be ddgi self))
  = filter is_clear (commands (clear_images cr self)).
Proof.
  rewrite render_commands. cbv zeta.
  rewrite filter_app.
  assert (Hrest :
            filter is_clear
              (commands (ray_trace cr be ddgi (object (clear_images cr self)))
               ++ (if m_denoise self
                   then
                     commands (reset_args (object (clear_images cr self)))
                     ++ commands (temporal_accumulation cr be
                                    (object (clear_images cr self)))
                     ++ commands (a_trous_filter cr
                                    (object (clear_images cr self)))
                     ++ (if negb (scale_eqb (m_scale self)
                                    RAY_TRACE_SCALE_FULL_RES)
                         then commands
                                (upsample be
                                   (object (a_trous_filter cr
                                              (object (clear_images cr self)))))
                         else [])
                   else [])) = []).
  { rewrite filter_app. change (filter is_clear
             (commands (ray_trace cr be ddgi (object (clear_images cr self)))))
      with (@nil Cmd).
    destruct (m_denoise self); [|reflexivity].
    rewrite !filter_app.
    change (filter is_clear
              (commands (reset_args (object (clear_images cr self)))))
      with (@nil Cmd).
    change (filter is_clear
              (commands (temporal_accumulation cr be
                           (object (clear_images cr self)))))
      with (@nil Cmd).
    rewrite a_trous_filter_commands, filter_app.
    assert (Hloop : forall self' count i loc,
               filter is_clear (commands (a_trous_loop cr count i loc self'))
               = []).
    { intros self' count.
      induction count as [|count IH]; intros i loc; [reflexivity|].
      rewrite a_trous_loop_commands, filter_app, IH, app_nil_r.
      rewrite a_trous_iteration_commands, filter_app.
      unfold a_trous_dispatches.
      destruct (i =? 0);
        destruct ((feedback_iteration (m_a_trous self') =? i)
                  && blur_as_input (m_temporal_accumulation self'));
        reflexivity. }
    rewrite Hloop.
    destruct (negb (scale_eqb (m_scale self) RAY_TRACE_SCALE_FULL_RES));
      reflexivity. }
  rewrite Hrest, app_nil_r. reflexivity.
Qed.

(** X20: the history images are cleared when a frame renders with a new
    instance, and never else.  In a frame after the first, the commands
    of the frame contain, when a scale was picked in the settings window,
    exactly three clears to zero (the previous image, and the output and
    moments images of slot [!ping_pong]), and no clear at all when no
    scale was picked. *)
Theorem clears_only_for_new_instance h inps inp a :
  inps <> [] ->
  let now := run_frames h inps a in
  let pp := ping_pong (common now) in
  filter is_clear (frame_commands h inp now)
  = match fi_scale inp with
    | Some _ =>
        [ClearColorImage PrevImage LAYOUT_GENERAL (0, 0, 0, 0);
         ClearColorImage (CurrentOutputImage (Z.b2z (negb pp))) LAYOUT_GENERAL
           (0, 0, 0, 0);
         ClearColorImage (CurrentMomentsImage (Z.b2z (negb pp))) LAYOUT_GENERAL
           (0, 0, 0, 0)]
    | None => []
    end.
Proof.
  intros Hne. cbv zeta.
  pose proof (run_frames_first_frame h inps a Hne) as Hm.
  unfold frame_commands. rewrite filter_clear_passes.
  destruct (settings_window_fields h inp (reflections (run_frames h inps a)))
    as (_ & Hf & _).
  unfold clear_images. rewrite bind_this, Hf, Hm.
  destruct (fi_scale inp); reflexivity.
Qed.

Lemma clears_only_for_new_instance_witness :
  filter is_clear
    (frame_commands (Sample.settings 3 2 true false)
       (SampleFrames.input true true None)
       (run_frames (Sample.settings 3 2 true false)
          [SampleFrames.input true true None]
          (SampleFrames.host 3 2 RAY_TRACE_SCALE_HALF_RES)))
  = [].
Proof.
  apply (clears_only_for_new_instance (Sample.settings 3 2 true false)
           [SampleFrames.input true true None]
           (SampleFrames.input true true None)
           (SampleFrames.host 3 2 RAY_TRACE_SCALE_HALF_RES)).
  discriminate.
Defined.

(** ** Camera jitter *)

Section HaltonProperties.

Variable float_of_int : Z -> float32.
Variables fadd fmul fdiv : float32 -> float32 -> float32.

Local Notation "'loop'" := (halton_loop float_of_int fadd fmul fdiv).

Lemma halton_loop_ends base fuel : forall index f result,
  2 <= base ->
  index < 2 ^ Z.of_nat fuel ->
  exists r, loop fuel base index f result = Some r.
Proof.
  induction fuel as [|fuel IH]; intros index f result Hb Hi.
  - exists result. simpl. simpl in Hi.
    destruct (Z.gtb_spec index 0); [lia | reflexivity].
  - simpl. destruct (Z.gtb_spec index 0) as [Hp|Hp];
      [|exists result; reflexivity].
    apply IH; [exact Hb|].
    rewrite Nat2Z.inj_succ, Z.pow_succ_r in Hi by lia.
    apply Z.quot_lt_upper_bound; [lia | lia |].
    nia.
Qed.

Lemma halton_loop_more_fuel base fuel : forall index f result r extra,
  loop fuel base index f result = Some r ->
  loop (fuel + extra) base index f result = Some r.
Proof.
  induction fuel as [|fuel IH]; intros index f result r extra H.
  - simpl in H. destruct (index >? 0) eqn:E; [discriminate|].
    destruct extra; simpl; rewrite E; exact H.
  - simpl in *. destruct (index >? 0); [|exact H].
    apply IH. exact H.
Qed.

Lemma halton_loop_base_one fuel : forall index f result,
  0 < index ->
  loop fuel 1 index f result = None.
Proof.
  induction fuel as [|fuel IH]; intros index f result Hi; simpl.
  - destruct (Z.gtb_spec index 0); [reflexivity | lia].
  - destruct (Z.gtb_spec index 0); [|lia].
    rewrite Z.quot_1_r. apply IH. exact Hi.
Qed.

(** X21: for an [int] index, [halton_sequence] with a base of two or
    more leaves its loop after at most 31 turns and returns a value,
    the same however many more turns are allowed; with base one and a
    positive index the loop never ends: the index is divided by one and
    stays what it is. *)
Theorem halton_sequence_ends index :
  index < 2 ^ 31 ->
  (forall base, 2 <= base ->
     exists r, forall extra,
       halton_sequence float_of_int fadd fmul fdiv (31 + extra) base index
       = Some r)
  /\ (0 < index ->
      forall fuel,
        halton_sequence float_of_int fadd fmul fdiv fuel 1 index = None).
Proof.
  intros Hi. split.
  - intros base Hb.
    destruct (halton_loop_ends base 31 index 0x3F800000 0 Hb Hi) as (r & Hr).
    exists r. intros extra. unfold halton_sequence.
    apply halton_loop_more_fuel. exact Hr.
  - intros Hp fuel. apply halton_loop_base_one. exact Hp.
Qed.

End HaltonProperties.

Lemma halton_sequence_ends_witness :
  (forall base, 2 <= base ->
     exists r, forall extra,
       halton_sequence (fun n => n) Z.add Z.mul Z.div (31 + extra) base 16
       = Some r)
  /\ (0 < 16 ->
      forall fuel,
        halton_sequence (fun n => n) Z.add Z.mul Z.div fuel 1 16 = None).
Proof.
  apply (halton_sequence_ends (fun n => n) Z.add Z.mul Z.div 16).
  reflexivity.
Defined.

Section JitterProperties.

Variable jitter_sample : Z -> float32 * float32.
Variable per_pixel : float32 * float32 -> float32 * float32.

Lemma init_jitter_loop_length count : forall i,
  length (init_jitter_loop jitter_sample count i) = count.
Proof.
  induction count as [|count IH]; intros i; [reflexivity|].
  simpl. rewrite IH. reflexivity.
Qed.

Lemma init_jitter_loop_nth count : forall i k,
  (k < count)%nat ->
  nth_error (init_jitter_loop jitter_sample count i) k
  = Some (jitter_sample (i + Z.of_nat k)).
Proof.
  induction count as [|count IH]; intros i k Hk; [lia|].
  destruct k as [|k].
  - simpl. rewrite Z.add_0_r. reflexivity.
  - simpl nth_error. rewrite IH by lia. f_equal. f_equal. lia.
Qed.

Lemma update_camera_sample cr j :
  0 <= num_frames cr < 2 ^ 32 ->
  update_camera jitter_sample per_pixel true cr j
  = Some {| m_prev_jitter := m_current_jitter j;
            m_current_jitter :=
              per_pixel (jitter_sample (num_frames cr mod 16 + 1)) |}.
Proof.
  intros Hn. unfold update_camera, m_jitter_samples.
  rewrite init_jitter_loop_length.
  change (Z.of_nat (Z.to_nat HALTON_SAMPLES)) with 16.
  pose proof (Z.mod_pos_bound (num_frames cr) 16 ltac:(lia)) as Hm.
  unfold wrap_u32. rewrite (Z.mod_small (num_frames cr mod 16)) by lia.
  rewrite init_jitter_loop_nth
    by (change (Z.to_nat HALTON_SAMPLES) with 16%nat; lia).
  rewrite Z2Nat.id by lia.
  rewrite (Z.add_comm 1). reflexivity.
Qed.

(** X22: with TAA enabled, [update_camera] never indexes outside
    [m_jitter_samples]: in the frame with counter [n] it takes the sample
    [init] built from Halton index [n mod 16 + 1].  In the next frame,
    after [update] has counted up, it takes the next sample in cyclic
    order and keeps this frame's jitter as the previous one; this holds
    also where the 32-bit counter wraps to zero. *)
Theorem jitter_cycles h inp a j :
  0 <= num_frames (common a) < 2 ^ 32 ->
  let n := num_frames (common a) in
  let this_frame := per_pixel (jitter_sample (n mod 16 + 1)) in
  let next_frame := per_pixel (jitter_sample ((n + 1) mod 16 + 1)) in
  update_camera jitter_sample per_pixel true (common a) j
  = Some {| m_prev_jitter := m_current_jitter j;
            m_current_jitter := this_frame |}
  /\ update_camera jitter_sample per_pixel true (common (update h inp a))
       {| m_prev_jitter := m_current_jitter j;
          m_current_jitter := this_frame |}
     = Some {| m_prev_jitter := this_frame;
               m_current_jitter := next_frame |}.
Proof.
  intros Hn. cbv zeta. split.
  - apply update_camera_sample. exact Hn.
  - destruct (update_common h inp a) as (_ & _ & Hc & _).
    rewrite update_camera_sample.
    + rewrite Hc. cbn [m_current_jitter]. unfold wrap_u32.
      replace (((num_frames (common a) + 1) mod 2 ^ 32) mod 16)
        with ((num_frames (common a) + 1) mod 16); [reflexivity|].
      change (2 ^ 32) with (16 * 2 ^ 28).
      rewrite Z.rem_mul_r by lia.
      rewrite Z.mul_comm, Z.mod_add by lia.
      rewrite Z.mod_mod by lia. reflexivity.
    + rewrite Hc. unfold wrap_u32. apply Z.mod_pos_bound. lia.
Qed.

End JitterProperties.

Lemma jitter_cycles_witness :
  let sample := fun i : Z => (i, i) in
  let per_pixel := fun v : float32 * float32 => v in
  let a := {| common :=
                {| ping_pong := true; first_frame := false;
                   num_frames := 2 ^ 32 - 1; camera_delta := (0, 0, 0);
                   frame_time := 0; ubo_size := 256 |};
              reflections :=
                Sample.fresh 3 2 true true RAY_TRACE_SCALE_HALF_RES |} in
  let j := {| m_prev_jitter := (0, 0); m_current_jitter := (0, 0) |} in
  update_camera sample per_pixel true (common a) j
  = Some {| m_prev_jitter := (0, 0); m_current_jitter := (16, 16) |}
  /\ update_camera sample per_pixel true
       (common (update (Sample.settings 3 2 true false)
                  (SampleFrames.input true true None) a))
       {| m_prev_jitter := (0, 0); m_current_jitter := (16, 16) |}
     = Some {| m_prev_jitter := (16, 16); m_current_jitter := (1, 1) |}.
Proof.
  apply (jitter_cycles (fun i : Z => (i, i))
           (fun v : float32 * float32 => v)
           (Sample.settings 3 2 true false)
           (SampleFrames.input true true None)
           {| common :=
                {| ping_pong := true; first_frame := false;
                   num_frames := 2 ^ 32 - 1; camera_delta := (0, 0, 0);
                   frame_time := 0; ubo_size := 256 |};
              reflections :=
                Sample.fresh 3 2 true true RAY_TRACE_SCALE_HALF_RES |}
           {| m_prev_jitter := (0, 0); m_current_jitter := (0, 0) |}).
  vm_compute. split; [discriminate | reflexivity].
Defined.

(** ** Temporal anti-aliasing and tone mapping *)

Lemma taa_gui_keeps_reset g app :
  Main.m_taa_reset app = true ->
  Main.m_taa_reset (Main.taa_gui g app) = true.
Proof.
  intros H. unfold Main.taa_gui. cbn [Main.m_taa_reset]. rewrite H.
  destruct (Main.enabled_clicked g); [|reflexivity].
  destruct (negb (Main.m_taa_enabled app)); reflexivity.
Qed.

Lemma taa_gui_sequence_keeps_reset gs : forall app,
  Main.m_taa_reset app = true ->
  Main.m_taa_reset (fold_left (fun a g => Main.taa_gui g a) gs app) = true.
Proof.
  induction gs as [|g rest IH]; intros app H; [exact H|].
  simpl. apply IH. apply taa_gui_keeps_reset. exact H.
Qed.

Lemma taa_gui_sequence_extent gs : forall app,
  Main.m_width (fold_left (fun a g => Main.taa_gui g a) gs app)
  = Main.m_width app
  /\ Main.m_height (fold_left (fun a g => Main.taa_gui g a) gs app)
     = Main.m_height app.
Proof.
  induction gs as [|g rest IH]; intros app; [split; reflexivity|].
  simpl. destruct (IH (Main.taa_gui g app)) as (H1 & H2).
  rewrite H1, H2. split; reflexivity.
Qed.

Lemma check_frame_app c1 c2 s :
  Main.check_frame (c1 ++ c2) s =
  match Main.check_frame c1 s with
  | Some s' => Main.check_frame c2 s'
  | None => None
  end.
Proof.
  revert s. induction c1 as [|c rest IH]; intros s; [reflexivity|].
  simpl. destruct (Main.check_frame_cmd s c); [apply IH | reflexivity].
Qed.

Section FrameEnd.

Variable float_of_int : Z -> float32.
Variable fdiv : float32 -> float32 -> float32.
Variable texels : Type.
Variable shader : Main.LaunchInput texels -> nat -> texels.
Variable blitted :
  Main.VkImageBlit -> Main.Filter -> texels -> texels -> texels.
Variable discarded : texels -> texels.

Local Notation "'frame_end'" := (Main.frame_end float_of_int fdiv).
Local Notation "'given'" := (Main.frame_inputs texels shader blitted discarded).
Local Notation "'run'" := (Main.exec_frame texels shader blitted discarded).

(** X23: [m_taa_reset] is never cleared.  Starting from an application
    state in which it is set (as the member initialisers leave it),
    after any sequence of inputs to the TAA header of the settings
    window it is still set; so in every frame in which TAA runs, the
    whole history image [taa_image[!ping_pong]] is overwritten by a blit
    of this frame's deferred shading output before the TAA launch samples
    it: what the launch gets as history never depends on what an earlier
    frame's TAA wrote. *)
Theorem taa_history_is_this_frame gs app cr reflections clock
  (s : Main.FrameBindings * Main.FrameMemory texels) :
  Main.m_taa_reset app = true ->
  let app' := fold_left (fun a g => Main.taa_gui g a) gs app in
  Main.m_taa_enabled app' = true ->
  let log := given (frame_end cr reflections clock app') s in
  Main.m_taa_reset app' = true
  /\ exists ta region,
       Main.launches_of texels Main.TaaPipeline log = [ta]
       /\ Main.li_sampled texels ta
          = [blitted region Main.FILTER_NEAREST
               (snd s Main.DeferredOutputImage)
               (discarded
                  (snd s (Main.TaaImage (Z.b2z (negb (ping_pong cr))))))]
       /\ Main.blit_dst_offset0 region = (0, 0, 0)
       /\ Main.blit_dst_offset1 region
          = (wrap_s32 (Main.m_width app), wrap_s32 (Main.m_height app), 1).
Proof.
  intros Hr. cbv zeta. intros He.
  pose proof (taa_gui_sequence_keeps_reset gs app Hr) as Hr'.
  destruct (taa_gui_sequence_extent gs app) as (Hw & Hh).
  split; [exact Hr'|].
  unfold Main.frame_end, Main.temporal_aa, Main.tone_map, Main.blitt_image.
  rewrite He, Hr'.
  cbn [layout_eqb].
  unfold Main.set_image_layout, Main.image_extent, Main.visualization_ds.
  rewrite Hw, Hh.
  destruct (Main.m_current_visualization
              (fold_left (fun a g => Main.taa_gui g a) gs app));
    destruct (ping_pong cr); eexists; eexists;
    (split; [reflexivity|]); (split; [reflexivity|]);
    (split; [reflexivity|]); reflexivity.
Qed.

(** X24: the commands at the end of the frame are right about the
    layouts of the images they handle, whatever layouts the two TAA
    images are in before (the undefined one of new images included),
    provided [m_taa_reset] is set and the deferred shading output is
    shader-read-only when they start: every transition and the blit name
    the layout their image is in, the TAA launch finds its storage image
    general and its history image shader-read-only, the tone map draw
    finds the TAA image it samples shader-read-only; afterwards the
    deferred output is shader-read-only again and, when TAA ran, so are
    both TAA images. *)
Theorem frame_end_layouts app cr reflections clock b
  (L : Main.FrameLayouts) :
  Main.m_taa_reset app = true ->
  L Main.DeferredOutputImage = LAYOUT_SHADER_READ_ONLY_OPTIMAL ->
  exists b' L',
    Main.check_frame (frame_end cr reflections clock app) (b, L)
    = Some (b', L')
    /\ L' Main.DeferredOutputImage = LAYOUT_SHADER_READ_ONLY_OPTIMAL
    /\ (Main.m_taa_enabled app = true ->
        forall p : bool,
          L' (Main.TaaImage (Z.b2z p)) = LAYOUT_SHADER_READ_ONLY_OPTIMAL).
Proof.
  intros Hr Hd.
  unfold Main.frame_end, Main.temporal_aa, Main.tone_map, Main.blitt_image,
    Main.set_image_layout, Main.visualization_ds.
  rewrite Hr. cbn [layout_eqb].
  destruct (Main.m_taa_enabled app);
    destruct (Main.m_current_visualization app); destruct (ping_pong cr);
    simpl; unfold Main.check_frame_cmd; simpl; rewrite ?Hd; simpl;
    unfold Main.put_layout; simpl; rewrite ?Hd; simpl;
    eexists; eexists; (split; [reflexivity|]);
    (split; [simpl; try exact Hd; reflexivity|]);
    intros He p; try discriminate; destruct p; reflexivity.
Qed.

(** X25: what the tone map shows.  Its draw is the only launch of the
    copy pipeline, with [single_channel] set for the shadow and the
    ambient occlusion visualization only.  With TAA enabled it binds
    [taa_read_ds[ping_pong]] and samples what the TAA launch of this very
    frame wrote; with TAA disabled nothing launches the TAA pipeline and
    the draw binds the descriptor set of the selected visualization. *)
Theorem tone_map_shows_this_frame app cr reflections clock
  (s : Main.FrameBindings * Main.FrameMemory texels) :
  let log := given (frame_end cr reflections clock app) s in
  exists tm,
    Main.launches_of texels Main.CopyPipeline log = [tm]
    /\ Main.l_push (Main.li_launch texels tm)
       = Some (Main.PushToneMap
                 {| Main.single_channel :=
                      match Main.m_current_visualization app with
                      | Main.VISUALIZATION_SHADOWS
                      | Main.VISUALIZATION_AMBIENT_OCCLUSION => 1
                      | _ => 0
                      end;
                    Main.exposure := Main.m_exposure app |})
    /\ if Main.m_taa_enabled app then
         exists ta,
           Main.launches_of texels Main.TaaPipeline log = [ta]
           /\ Main.l_sets (Main.li_launch texels tm)
              = [Main.TaaReadDs (Z.b2z (ping_pong cr))]
           /\ Main.li_sampled texels tm = [shader ta 0%nat]
       else
         Main.launches_of texels Main.TaaPipeline log = []
         /\ Main.l_sets (Main.li_launch texels tm)
            = [Main.visualization_ds cr reflections app].
Proof.
  cbv zeta.
  unfold Main.frame_end, Main.temporal_aa, Main.tone_map, Main.blitt_image,
    Main.set_image_layout, Main.visualization_ds.
  cbn [layout_eqb].
  destruct (Main.m_taa_enabled app); destruct (Main.m_taa_reset app);
    destruct (Main.m_current_visualization app); destruct (ping_pong cr);
    eexists; (split; [reflexivity|]); (split; [reflexivity|]);
    try (eexists; (split; [reflexivity|]); split; reflexivity);
    split; reflexivity.
Qed.

End FrameEnd.

Lemma taa_history_is_this_frame_witness :
  let app := Main.App_new 1920 1080 (1920, 1080) in
  let click := {| Main.enabled_clicked := true; Main.sharpen_value := true;
                  Main.feedback_min_value := 0;
                  Main.feedback_max_value := 0 |} in
  let app' := fold_left (fun a g => Main.taa_gui g a) [click; click] app in
  let log := Main.frame_inputs Z (fun _ _ => 7) (fun _ _ src _ => src + 1)
               (fun t => t)
               (Main.frame_end (fun n => n) (fun a _ => a) Sample.cr
                  (Sample.fresh 3 2 true true RAY_TRACE_SCALE_HALF_RES)
                  (0, 0, 0, 0) app')
               (Main.nothing_bound, fun _ => 5) in
  Main.m_taa_reset app' = true
  /\ exists ta region,
       Main.launches_of Z Main.TaaPipeline log = [ta]
       /\ Main.li_sampled Z ta = [5 + 1]
       /\ Main.blit_dst_offset0 region = (0, 0, 0)
       /\ Main.blit_dst_offset1 region
          = (wrap_s32 1920, wrap_s32 1080, 1).
Proof.
  apply (taa_history_is_this_frame (fun n => n) (fun a _ => a) Z
           (fun _ _ => 7) (fun _ _ src _ => src + 1) (fun t => t)
           [{| Main.enabled_clicked := true; Main.sharpen_value := true;
               Main.feedback_min_value := 0; Main.feedback_max_value := 0 |};
            {| Main.enabled_clicked := true; Main.sharpen_value := true;
               Main.feedback_min_value := 0; Main.feedback_max_value := 0 |}]
           (Main.App_new 1920 1080 (1920, 1080)) Sample.cr
           (Sample.fresh 3 2 true true RAY_TRACE_SCALE_HALF_RES)
           (0, 0, 0, 0) (Main.nothing_bound, fun _ => 5));
    reflexivity.
Defined.

Lemma frame_end_layouts_witness :
  let L := fun img => match img with
                      | Main.DeferredOutputImage =>
                          LAYOUT_SHADER_READ_ONLY_OPTIMAL
                      | Main.TaaImage _ => LAYOUT_UNDEFINED
                      end in
  exists b' L',
    Main.check_frame
      (Main.frame_end (fun n => n) (fun a _ => a) Sample.cr
         (Sample.fresh 3 2 true true RAY_TRACE_SCALE_HALF_RES)
         (0, 0, 0, 0) (Main.App_new 1920 1080 (1920, 1080)))
      (Main.nothing_bound, L) = Some (b', L')
    /\ L' Main.DeferredOutputImage = LAYOUT_SHADER_READ_ONLY_OPTIMAL
    /\ (true = true ->
        forall p : bool,
          L' (Main.TaaImage (Z.b2z p)) = LAYOUT_SHADER_READ_ONLY_OPTIMAL).
Proof.
  apply (frame_end_layouts (fun n => n) (fun a _ => a)
           (Main.App_new 1920 1080 (1920, 1080)) Sample.cr
           (Sample.fresh 3 2 true true RAY_TRACE_SCALE_HALF_RES)
           (0, 0, 0, 0) Main.nothing_bound
           (fun img => match img with
                       | Main.DeferredOutputImage =>
                           LAYOUT_SHADER_READ_ONLY_OPTIMAL
                       | Main.TaaImage _ => LAYOUT_UNDEFINED
                       end));
    reflexivity.
Defined.

(** ** Keyboard and mouse *)

Lemma handle_all_snoc es e c :
  Main.handle_all (es ++ [e]) c = Main.handle e (Main.handle_all es c).
Proof. unfold Main.handle_all. rewrite fold_left_app. reflexivity. Qed.

Lemma handle_camera_speed e c :
  Main.m_camera_speed (Main.handle e c) = Main.m_camera_speed c.
Proof. destruct e; reflexivity. Qed.

(** X26: whatever events arrive, in whatever order, the camera speed
    field is never changed, and each of the two movement speeds is zero,
    the camera speed, or its negation, if it was so before (as it is
    after construction, where both are zero). *)
Theorem speeds_stay_in_range es c :
  let ok := fun v => v = Main.f_zero \/ v = Main.m_camera_speed c
                     \/ v = Main.fneg (Main.m_camera_speed c) in
  ok (Main.m_heading_speed c) ->
  ok (Main.m_sideways_speed c) ->
  Main.m_camera_speed (Main.handle_all es c) = Main.m_camera_speed c
  /\ ok (Main.m_heading_speed (Main.handle_all es c))
  /\ ok (Main.m_sideways_speed (Main.handle_all es c)).
Proof.
  cbv zeta. intros Hh Hs.
  induction es as [|e rest IH] using rev_ind.
  - auto.
  - rewrite handle_all_snoc. destruct IH as (IHc & IHh & IHs).
    split; [rewrite handle_camera_speed; exact IHc|].
    destruct e as [code|code|code|code]; simpl; rewrite ?IHc.
    + split.
      * destruct (code =? Main.GLFW_KEY_W); [tauto|].
        destruct (code =? Main.GLFW_KEY_S); tauto.
      * destruct (code =? Main.GLFW_KEY_A); [tauto|].
        destruct (code =? Main.GLFW_KEY_D); tauto.
    + split.
      * destruct ((code =? Main.GLFW_KEY_W) || (code =? Main.GLFW_KEY_S));
          tauto.
      * destruct ((code =? Main.GLFW_KEY_A) || (code =? Main.GLFW_KEY_D));
          tauto.
    + tauto.
    + tauto.
Qed.

Lemma speeds_stay_in_range_witness :
  let c := Main.handle_all
             [Main.KeyPressed Main.GLFW_KEY_S; Main.KeyPressed Main.GLFW_KEY_W;
              Main.KeyReleased Main.GLFW_KEY_W; Main.MousePressed 1;
              Main.KeyPressed Main.GLFW_KEY_A]
             Main.Controls_new in
  Main.m_camera_speed c = Main.m_camera_speed Main.Controls_new
  /\ (Main.m_heading_speed c = Main.f_zero
      \/ Main.m_heading_speed c = Main.m_camera_speed Main.Controls_new
      \/ Main.m_heading_speed c
         = Main.fneg (Main.m_camera_speed Main.Controls_new))
  /\ (Main.m_sideways_speed c = Main.f_zero
      \/ Main.m_sideways_speed c = Main.m_camera_speed Main.Controls_new
      \/ Main.m_sideways_speed c
         = Main.fneg (Main.m_camera_speed Main.Controls_new)).
Proof.
  apply (speeds_stay_in_range
           [Main.KeyPressed Main.GLFW_KEY_S; Main.KeyPressed Main.GLFW_KEY_W;
            Main.KeyReleased Main.GLFW_KEY_W; Main.MousePressed 1;
            Main.KeyPressed Main.GLFW_KEY_A]
           Main.Controls_new);
    left; reflexivity.
Defined.

(** X27: the settings window is shown or hidden by the G key alone: after
    any events, [m_debug_gui] is what it was, flipped once for every
    press of G; releases, other keys and mouse buttons do not touch
    it. *)
Theorem debug_gui_counts_g es c :
  Main.m_debug_gui (Main.handle_all es c)
  = xorb (Main.m_debug_gui c)
      (Nat.odd (length (filter (Main.presses_of Main.GLFW_KEY_G) es))).
Proof.
  induction es as [|e rest IH] using rev_ind.
  - simpl. destruct (Main.m_debug_gui c); reflexivity.
  - rewrite handle_all_snoc, filter_app, length_app.
    destruct e as [code|code|code|code]; simpl;
      rewrite ?Nat.add_0_r; try exact IH.
    destruct (code =? Main.GLFW_KEY_G).
    + rewrite IH. simpl length. rewrite Nat.add_1_r, Nat.odd_succ.
      rewrite <- Nat.negb_odd.
      destruct (Main.m_debug_gui c),
        (Nat.odd (length (filter (Main.presses_of Main.GLFW_KEY_G) rest)));
        reflexivity.
    + simpl. rewrite Nat.add_0_r. exact IH.
Qed.

(** ** Binds against the pipeline layouts *)

Lemma pushes_from_app c1 : forall c2 last,
  pushes_from last (c1 ++ c2)
  = pushes_from last c1 ++ pushes_from (last_bound last c1) c2.
Proof.
  induction c1 as [|c c1 IH]; intros c2 last; [reflexivity|].
  destruct c; simpl; rewrite IH; reflexivity.
Qed.

Lemma pushes_fit_app c1 c2 :
  (forall last, Forall push_fits (pushes_from last c1)) ->
  (forall last, Forall push_fits (pushes_from last c2)) ->
  forall last, Forall push_fits (pushes_from last (c1 ++ c2)).
Proof.
  intros H1 H2 last. rewrite pushes_from_app.
  apply Forall_app. split; [apply H1 | apply H2].
Qed.

Lemma Forall_flat_map_all {A B : Type} (P : B -> Prop) (f : A -> list B) l :
  (forall a, Forall P (f a)) -> Forall P (flat_map f l).
Proof.
  intros H. induction l as [|a l IH]; [constructor|].
  simpl. apply Forall_app. split; [apply H | exact IH].
Qed.

Lemma no_set_of_scene ds :
  allocated_with ds <> Some scene_descriptor_set_layout.
Proof. destruct ds; discriminate. Qed.

Lemma no_set_of_g_buffer ds :
  allocated_with ds <> Some g_buffer_ds_layout.
Proof. destruct ds; discriminate. Qed.

Lemma no_set_of_ddgi ds :
  allocated_with ds <> Some ddgi_read_ds_layout.
Proof. destruct ds; discriminate. Qed.

Ltac fits :=
  repeat match goal with
         | |- Forall _ nil => constructor
         | |- Forall _ (_ :: _) => constructor
         | |- Forall2 _ nil nil => constructor
         | |- Forall2 _ (_ :: _) (_ :: _) => constructor
         | |- _ /\ _ => split
         | |- launch_fits _ =>
             cbv [launch bind_sets]; red;
             cbn [d_pipeline d_sets d_push create_pipelines set_layouts
                  push_constant_range compute_pipeline ray_tracing_pipeline
                  compute_sets ray_tracing_sets pushed pipeline_set_count
                  pipeline_has_push_constants firstn skipn app length]
         | |- slot_fits _ _ =>
             first [ exact eq_refl
                   | exact no_set_of_scene
                   | exact no_set_of_g_buffer
                   | exact no_set_of_ddgi ]
         | |- written_as_declared _ => first [exact eq_refl | exact I]
         | |- push_fits _ => exact eq_refl
         | |- _ = _ => reflexivity
         end.

Lemma iteration_launches_fit cr self i :
  Forall launch_fits (iteration_launches cr self i).
Proof.
  unfold iteration_launches, copy_tiles_launch, a_trous_launch,
    a_trous_input_ds.
  destruct (i =? 0); fits.
Qed.

Lemma a_trous_iteration_pushes cr i loc self last :
  Forall push_fits
    (pushes_from last (commands (a_trous_iteration cr i loc self))).
Proof.
  rewrite a_trous_iteration_commands. revert last.
  apply pushes_fit_app; intros last.
  - unfold a_trous_dispatches. destruct (i =? 0); simpl; fits.
  - destruct ((feedback_iteration (m_a_trous self) =? i)
              && blur_as_input (m_temporal_accumulation self));
      simpl; fits.
Qed.

Lemma a_trous_loop_pushes cr self count : forall i loc last,
  Forall push_fits
    (pushes_from last (commands (a_trous_loop cr count i loc self))).
Proof.
  induction count as [|count IH]; intros i loc last; [constructor|].
  rewrite a_trous_loop_commands. revert last.
  apply pushes_fit_app; intros last.
  - apply a_trous_iteration_pushes.
  - apply IH.
Qed.

(** X28: every launch of [render] fits the pipeline layout that
    [create_pipelines] gave its pipeline.  At every set index it binds a
    descriptor set that [create_descriptor_sets] (of the denoiser or of
    [main.cpp]) allocated with the very layout the pipeline layout
    declares there, or, for the sets of the scene, the G-buffer and the
    DDGI object, a set in a slot whose layout no set allocated here has;
    it binds as many sets as the layout declares; every set of the
    denoiser it binds was written one descriptor of the declared type
    per binding of its layout; every binding of these layouts is visible
    to a stage of the pipeline; and the launch has pushed the block of
    its own pipeline exactly when the layout declares a push constant
    range.  Every [vkCmdPushConstants] of [render] names the stage flags,
    offset 0 and block size of the range declared by the layout of the
    pipeline bound just before.  This holds for every iteration count,
    scale, output and denoise setting, and whatever was bound before. *)
Theorem render_binds_fit_layouts cr be ddgi self b last :
  Forall launch_fits
    (dispatch_log_from b (commands (render cr be ddgi self)))
  /\ Forall push_fits
       (pushes_from last (commands (render cr be ddgi self))).
Proof.
  split.
  - rewrite render_log. cbv zeta.
    apply Forall_app. split.
    { unfold ray_trace, bind, this, pipeline_barrier, record. simpl.
      fits. }
    destruct (m_denoise self); [|constructor].
    apply Forall_app. split.
    { simpl. fits. }
    apply Forall_app. split.
    { unfold temporal_accumulation, bind, this, pipeline_barrier, record.
      destruct (blur_as_input
                  (m_temporal_accumulation (object (clear_images cr self))));
        simpl; fits. }
    apply Forall_app. split.
    { apply Forall_flat_map_all. intros i. apply iteration_launches_fit. }
    destruct (negb (scale_eqb (m_scale self) RAY_TRACE_SCALE_FULL_RES));
      [|constructor].
    simpl. fits.
  - rewrite render_commands. cbv zeta. revert last.
    apply pushes_fit_app; intros last.
    { unfold clear_images, bind, this.
      destruct (m_first_frame self); simpl; fits. }
    revert last. apply pushes_fit_app; intros last.
    { unfold ray_trace, bind, this, pipeline_barrier, record. simpl. fits. }
    destruct (m_denoise self); [|constructor].
    revert last. apply pushes_fit_app; intros last.
    { simpl. fits. }
    revert last. apply pushes_fit_app; intros last.
    { unfold temporal_accumulation, bind, this, pipeline_barrier, record.
      simpl. fits. }
    revert last. apply pushes_fit_app; intros last.
    { rewrite a_trous_filter_commands. revert last.
      apply pushes_fit_app; intros last.
      - apply a_trous_loop_pushes.
      - simpl. fits. }
    destruct (negb (scale_eqb (m_scale self) RAY_TRACE_SCALE_FULL_RES));
      [|constructor].
    simpl. fits.
Qed.

Section FrameBinds.

Variable float_of_int : Z -> float32.
Variable fdiv : float32 -> float32 -> float32.

Ltac frame_fits :=
  repeat match goal with
         | |- Forall _ nil => constructor
         | |- Forall _ (_ :: _) => constructor
         | |- Forall2 _ nil nil => constructor
         | |- Forall2 _ (_ :: _) (_ :: _) => constructor
         | |- _ /\ _ => split
         | |- frame_launch_fits _ =>
             cbv [Main.launch_of]; red;
             cbn [Main.l_pipeline Main.l_sets Main.l_push
                  create_frame_pipeline set_layouts push_constant_range
                  Main.compute_pipeline Main.graphics_pipeline
                  Main.compute_sets Main.graphics_sets Main.pushed
                  Main.pipeline_set_count firstn skipn app length]
         | |- frame_slot_fits _ _ => first [exact eq_refl | exact I]
         | |- frame_push_fits _ => exact eq_refl
         | |- _ = _ => reflexivity
         end.

(** X29: the temporal anti-aliasing dispatch and the tone map draw fit
    the pipeline layouts of [create_taa_pipeline] and
    [create_tone_map_pipeline].  The TAA sets sit in slots declared with
    the layout they were allocated with, and when the reflections are
    shown, the set that [RayTracedReflections::output_ds] returns was
    allocated with the one-binding combined-sampler layout that both
    pipeline layouts declare for the shown image, for every output and
    scale of the denoiser and with denoising off (the temporal
    accumulation output is shown through [output_only_read_ds], not
    through the two-binding [current_read_ds]).  The bindings of the
    layouts are visible to a stage of the pipeline, each launch has
    pushed the block of its own pipeline, and each [vkCmdPushConstants]
    names the stage flags, offset and size of the declared range. *)
Theorem frame_end_binds_fit_layouts cr reflections clock app b last :
  let cmds := Main.frame_end float_of_int fdiv cr reflections clock app in
  Forall frame_launch_fits (frame_launches b cmds)
  /\ Forall frame_push_fits (frame_pushes_from last cmds).
Proof.
  cbv zeta.
  unfold Main.frame_end, Main.temporal_aa, Main.tone_map, Main.blitt_image,
    Main.set_image_layout, Main.visualization_ds, output_ds.
  destruct (Main.m_taa_enabled app); destruct (Main.m_taa_reset app);
    destruct (Main.m_current_visualization app);
    destruct (m_denoise reflections);
    destruct (m_current_output reflections);
    destruct (scale_eqb (m_scale reflections) RAY_TRACE_SCALE_FULL_RES);
    simpl; frame_fits.
Qed.

End FrameBinds.

(** ** The bilateral blur *)

Lemma blur_check z self input s :
  Blur.check (Blur.blur z self input) s
  = if Blur.BlurDs_eqb input Blur.ReadDs then None
    else Some {| Blur.pipeline_bound := true;
                 Blur.bound_sets :=
                   [Blur.WriteDs; input; Blur.GBufferOutputDs]
                   ++ skipn 3 (Blur.bound_sets s);
                 Blur.image_layout := LAYOUT_SHADER_READ_ONLY_OPTIMAL |}.
Proof. destruct input; reflexivity. Qed.

Lemma blur_check_app c1 c2 s :
  Blur.check (c1 ++ c2) s
  = match Blur.check c1 s with
    | Some s' => Blur.check c2 s'
    | None => None
    end.
Proof.
  revert s. induction c1 as [|c c1 IH]; intros s; [reflexivity|].
  simpl. destruct (Blur.check_cmd s c); [apply IH | reflexivity].
Qed.

Lemma blurs_check z self inputs : forall s,
  option_map Blur.image_layout
    (Blur.check (flat_map (Blur.blur z self) inputs) s)
  = if existsb (fun ds => Blur.BlurDs_eqb ds Blur.ReadDs) inputs then None
    else Some (match inputs with
               | [] => Blur.image_layout s
               | _ => LAYOUT_SHADER_READ_ONLY_OPTIMAL
               end).
Proof.
  induction inputs as [|input rest IH]; intros s; [reflexivity|].
  cbn [flat_map existsb]. rewrite blur_check_app, blur_check.
  destruct (Blur.BlurDs_eqb input Blur.ReadDs); [reflexivity|].
  cbn [orb]. rewrite IH.
  destruct (existsb (fun ds => Blur.BlurDs_eqb ds Blur.ReadDs) rest);
    [reflexivity|].
  destruct rest; reflexivity.
Qed.

(** X30: the layout of the image of [BilateralBlur].  Whatever layout
    the image is in and whatever was bound, [blur] records valid
    transitions (its first one gives up the contents), its dispatch finds
    the image in the general layout that [m_write_ds] declares, and it
    leaves the image shader-read-only, unless the input is the blur's own
    [m_read_ds]: then the dispatch would sample the image, through a
    descriptor that declares the shader-read-only layout, while it is in
    the general layout.  So after [prepare_first_frame] and any number of
    calls of [blur], none at all included, whose inputs are not
    [output_ds()] itself, the image is in the layout that [output_ds()]
    declares. *)
Theorem blur_image_layouts z self :
  (forall s input,
     option_map Blur.image_layout (Blur.check (Blur.blur z self input) s)
     = if Blur.BlurDs_eqb input Blur.output_ds then None
       else Some LAYOUT_SHADER_READ_ONLY_OPTIMAL)
  /\ (forall s inputs,
        option_map Blur.image_layout
          (Blur.check
             (Blur.prepare_first_frame ++ flat_map (Blur.blur z self) inputs)
             s)
        = if existsb (fun ds => Blur.BlurDs_eqb ds Blur.output_ds) inputs
          then None
          else Some LAYOUT_SHADER_READ_ONLY_OPTIMAL).
Proof.
  split.
  - intros s input. rewrite blur_check.
    unfold Blur.output_ds.
    destruct (Blur.BlurDs_eqb input Blur.ReadDs); reflexivity.
  - intros s inputs. rewrite blur_check_app.
    cbn [Blur.prepare_first_frame Blur.check Blur.check_cmd is_undefined orb].
    rewrite blurs_check. unfold Blur.output_ds.
    destruct (existsb (fun ds => Blur.BlurDs_eqb ds Blur.ReadDs) inputs);
      [reflexivity|].
    destruct inputs; reflexivity.
Qed.

(** * The claims on the A-Trous loop *)

(** ** The two launches of an iteration *)

Lemma copy_tiles_launch_writes cr i :
  written_images (copy_tiles_launch cr i) = [ATrousImage ((i + 1) mod 2)].
Proof.
  unfold written_images, copy_tiles_launch, a_trous_input_ds. simpl.
  rewrite b2z_not_odd. destruct (i =? 0); reflexivity.
Qed.

Lemma copy_tiles_launch_samples cr i :
  sampled_images (copy_tiles_launch cr i) =
  [if i =? 0 then CurrentOutputImage (Z.b2z (ping_pong cr))
   else ATrousImage (i mod 2)].
Proof.
  unfold sampled_images, copy_tiles_launch, a_trous_input_ds. simpl.
  rewrite b2z_odd. destruct (i =? 0); reflexivity.
Qed.

Lemma loop_launches_filter cr self l :
  filter (fun r => runs CopyTilesPipeline r || runs ATrousPipeline r)
    (flat_map (iteration_launches cr self) l)
  = flat_map (iteration_launches cr self) l.
Proof.
  induction l as [|j l IH]; [reflexivity|]. simpl. do 2 f_equal. exact IH.
Qed.

(** The launches of the two pipelines of the loop in a frame that
    denoises: one pair per turn, in order. *)
Lemma render_loop_launches cr be ddgi self b :
  m_denoise self = true ->
  filter (fun r => runs CopyTilesPipeline r || runs ATrousPipeline r)
    (dispatch_log_from b (commands (render cr be ddgi self)))
  = flat_map (iteration_launches cr (object (clear_images cr self)))
      (loop_indices 0 (Z.to_nat (filter_iterations (m_a_trous self)))).
Proof.
  intros Hd. rewrite render_log, Hd.
  rewrite !filter_app, loop_launches_filter, filter_if.
  destruct (negb (scale_eqb (m_scale self) RAY_TRACE_SCALE_FULL_RES));
    simpl; rewrite app_nil_r; reflexivity.
Qed.

Lemma nth_iteration_launches cr self l : forall k i,
  nth_error l k = Some i ->
  nth_error (flat_map (iteration_launches cr self) l) (2 * k)
  = Some (copy_tiles_launch cr i)
  /\ nth_error (flat_map (iteration_launches cr self) l) (2 * k + 1)
     = Some (a_trous_launch cr self i).
Proof.
  induction l as [|j l IH]; intros k i Hk; [destruct k; discriminate|].
  destruct k as [|k].
  - injection Hk as <-. split; reflexivity.
  - replace (2 * S k)%nat with (S (S (2 * k))) by lia.
    replace (S (S (2 * k)) + 1)%nat with (S (S (2 * k + 1))) by lia.
    simpl. apply IH. exact Hk.
Qed.

Lemma length_iteration_launches cr self l :
  length (flat_map (iteration_launches cr self) l) = (2 * length l)%nat.
Proof. induction l as [|j l IH]; [reflexivity|]. simpl. rewrite IH. lia. Qed.

Lemma length_loop_indices count : forall i,
  length (loop_indices i count) = count.
Proof.
  induction count as [|count IH]; intros i; [reflexivity|].
  simpl. rewrite IH. reflexivity.
Qed.

(** C1, as amended.  In a frame that denoises with [filter_iterations >= 1]
    the launches of the two pipelines of the loop come in pairs, one pair
    per iteration and nothing else: iteration [i] is the copy-tiles
    launch followed by the filter launch, both write A-Trous slot
    [(i+1) mod 2], and both sample A-Trous slot [i mod 2] when [i >= 1] and
    the temporal-accumulation output of slot [ping_pong] when [i = 0].
    The read index recorded after the loop is the slot written by the
    last iteration, and it is the slot that the output selection (A-Trous
    output, or Upsample output at full resolution) and the upsample
    launch read. *)
Theorem C1_a_trous_slots cr be ddgi self b :
  m_denoise self = true ->
  1 <= filter_iterations (m_a_trous self) ->
  let n := filter_iterations (m_a_trous self) in
  let frame := render cr be ddgi self in
  let loop :=
    filter (fun r => runs CopyTilesPipeline r || runs ATrousPipeline r)
      (dispatch_log_from b (commands frame)) in
  length loop = (2 * Z.to_nat n)%nat
  /\ (forall i, 0 <= i < n ->
      let input := if i =? 0 then CurrentOutputImage (Z.b2z (ping_pong cr))
                   else ATrousImage (i mod 2) in
      exists c r,
        nth_error loop (2 * Z.to_nat i) = Some c
        /\ nth_error loop (2 * Z.to_nat i + 1) = Some r
        /\ d_pipeline c = Some CopyTilesPipeline
        /\ d_pipeline r = Some ATrousPipeline
        /\ written_images c = [ATrousImage ((i + 1) mod 2)]
        /\ written_images r = [ATrousImage ((i + 1) mod 2)]
        /\ sampled_images c = [input]
        /\ sampled_images r = [input])
  /\ read_idx (m_a_trous (object frame)) = (n - 1 + 1) mod 2
  /\ (m_current_output self = OUTPUT_ATROUS
      \/ (m_current_output self = OUTPUT_UPSAMPLE
          /\ m_scale self = RAY_TRACE_SCALE_FULL_RES) ->
      ds_sampled_images (output_ds cr (object frame))
      = [ATrousImage (read_idx (m_a_trous (object frame)))])
  /\ (forall r, In r (dispatches_of UpsamplePipeline b (commands frame)) ->
      sampled_images r = [ATrousImage (read_idx (m_a_trous (object frame)))]).
Proof.
  intros Hd Hn n frame loop.
  destruct (clear_images_keeps cr self)
    as (Hs & _ & _ & _ & Hd' & Ho & _ & _ & Ha & _).
  assert (Hobj : object frame
                 = object (a_trous_filter cr (object (clear_images cr self)))).
  { unfold frame. rewrite render_object, Hd. reflexivity. }
  assert (Hloop : loop
                  = flat_map
                      (iteration_launches cr (object (clear_images cr self)))
                      (loop_indices 0 (Z.to_nat n))).
  { unfold loop, frame. apply render_loop_launches. exact Hd. }
  split; [|split; [|split; [|split]]].
  - rewrite Hloop, length_iteration_launches, length_loop_indices. reflexivity.
  - intros i Hi input.
    exists (copy_tiles_launch cr i),
      (a_trous_launch cr (object (clear_images cr self)) i).
    assert (Hk : nth_error (loop_indices 0 (Z.to_nat n)) (Z.to_nat i) = Some i).
    { rewrite loop_indices_nth by lia. f_equal. lia. }
    destruct (nth_iteration_launches cr (object (clear_images cr self))
                _ _ _ Hk) as [Hc Hr].
    rewrite Hloop.
    split; [exact Hc|]. split; [exact Hr|].
    split; [reflexivity|]. split; [reflexivity|].
    split; [apply copy_tiles_launch_writes|].
    split; [apply a_trous_launch_writes|].
    split; [apply copy_tiles_launch_samples | apply a_trous_launch_samples].
  - unfold frame. rewrite render_read_idx by assumption. fold n.
    destruct (Z.leb_spec n 0); [lia|]. f_equal. lia.
  - intros Hout. unfold output_ds. rewrite Hobj, a_trous_filter_object.
    simpl. rewrite Hd', Ho, Hs, Hd.
    destruct Hout as [->|[-> ->]]; reflexivity.
  - intros r Hr. unfold frame in Hr.
    rewrite render_dispatches_of in Hr by discriminate.
    rewrite Hd in Hr. simpl in Hr.
    destruct (negb (scale_eqb (m_scale self) RAY_TRACE_SCALE_FULL_RES));
      simpl in Hr; [|contradiction].
    destruct Hr as [Hr|[]]. subst r. rewrite Hobj. reflexivity.
Qed.

Lemma C1_a_trous_slots_witness :
  let self := Sample.fresh 2 1 true true RAY_TRACE_SCALE_HALF_RES in
  let frame := render Sample.cr Sample.backend Sample.ddgi self in
  m_denoise self = true
  /\ 1 <= filter_iterations (m_a_trous self)
  /\ length
       (filter (fun r => runs CopyTilesPipeline r || runs ATrousPipeline r)
          (dispatch_log_from no_bindings (commands frame)))
     = (2 * Z.to_nat 2)%nat.
Proof.
  split; [reflexivity|]. split; [simpl; lia|].
  apply (C1_a_trous_slots Sample.cr Sample.backend Sample.ddgi
           (Sample.fresh 2 1 true true RAY_TRACE_SCALE_HALF_RES) no_bindings).
  - reflexivity.
  - simpl. lia.
Defined.

(** C1 as stated fails at iteration 0: with one iteration, both launches
    of the only iteration sample the temporal-accumulation output of slot
    [ping_pong = 0], not A-Trous slot [0 mod 2]. *)
Lemma C1_counterexample :
  let self := Sample.fresh 1 0 false false RAY_TRACE_SCALE_FULL_RES in
  let frame := render Sample.cr Sample.backend Sample.ddgi self in
  exists c r,
    filter (fun r => runs CopyTilesPipeline r || runs ATrousPipeline r)
      (dispatch_log_from no_bindings (commands frame)) = [c; r]
    /\ sampled_images c = [CurrentOutputImage 0]
    /\ sampled_images r = [CurrentOutputImage 0]
    /\ sampled_images r <> [ATrousImage (0 mod 2)].
Proof.
  eexists. eexists. split; [vm_compute; reflexivity|].
  split; [reflexivity|]. split; [reflexivity | discriminate].
Qed.

(** ** The feedback copy *)

Section FeedbackCopy.

Variables texels bufdata external : Type.
Variable shader_image : ShaderInput texels bufdata external -> nat -> texels.
Variable shader_buffer : ShaderInput texels bufdata external -> nat -> bufdata.
Variable cleared : float32 * float32 * float32 * float32 -> texels.
Variable discarded : texels -> texels.
Variable ext : external.

Local Notation "'gpu'" :=
  (exec shader_image shader_buffer cleared discarded ext).
Local Notation "'seen'" :=
  (inputs_log shader_image shader_buffer cleared discarded ext).
Local Notation "'State'" := (Bindings * Memory texels bufdata)%type.







End FeedbackCopy.


(** ** No iterations *)

(** With no iteration, nothing in a frame changes an A-Trous image: no
    launch writes one, no clear or copy targets one, and no transition
    takes one out of the undefined layout. *)
Lemma render_targets_no_iterations cr be ddgi self b k :
  filter_iterations (m_a_trous self) <= 0 ->
  ~ In (ATrousImage k) (targets_from b (commands (render cr be ddgi self))).
Proof.
  intros Hn H.
  destruct (clear_images_keeps cr self)
    as (_ & _ & _ & _ & _ & _ & _ & _ & Ha & _).
  rewrite render_commands, targets_from_app in H.
  apply in_app_or in H. destruct H as [H|H].
  { unfold clear_images, bind, this in H. simpl in H.
    destruct (m_first_frame self); simpl in H;
      repeat (destruct H as [H|H]; [discriminate|]); contradiction. }
  rewrite targets_from_app in H.
  apply in_app_or in H. destruct H as [H|H].
  { simpl in H. repeat (destruct H as [H|H]; [discriminate|]). contradiction. }
  destruct (m_denoise self); [|contradiction].
  rewrite targets_from_app in H.
  apply in_app_or in H. destruct H as [H|H]; [simpl in H; contradiction|].
  rewrite targets_from_app in H.
  apply in_app_or in H. destruct H as [H|H].
  { simpl in H.
    destruct (blur_as_input
                (m_temporal_accumulation (object (clear_images cr self))));
      simpl in H;
      repeat (destruct H as [H|H]; [discriminate|]); contradiction. }
  rewrite targets_from_app in H.
  apply in_app_or in H. destruct H as [H|H].
  - rewrite a_trous_filter_commands, Ha in H.
    replace (Z.to_nat (filter_iterations (m_a_trous self))) with O in H
      by lia.
    simpl in H. contradiction.
  - destruct (scale_eqb (m_scale self) RAY_TRACE_SCALE_FULL_RES);
      simpl in H; [contradiction|].
    repeat (destruct H as [H|H]; [discriminate|]). contradiction.
Qed.

(** C3, the code at [filter_iterations <= 0] with denoising on.  The loop
    launches nothing and the recorded read index is 1.  With the A-Trous
    output selected, or the Upsample output at full resolution,
    [output_ds] returns the read set of A-Trous slot 1, and at a reduced
    scale the upsample launch samples that slot; but no command of the
    frame writes, clears or copies into an A-Trous image, while the
    temporal accumulation launch of the frame writes its output into the
    output image of slot [ping_pong].  What consumers are handed is
    therefore not the temporal-accumulation output. *)
Theorem C3_zero_iterations cr be ddgi self b :
  m_denoise self = true ->
  filter_iterations (m_a_trous self) <= 0 ->
  let frame := render cr be ddgi self in
  let shown := output_ds cr (object frame) in
  filter (fun r => runs CopyTilesPipeline r || runs ATrousPipeline r)
    (dispatch_log_from b (commands frame)) = []
  /\ read_idx (m_a_trous (object frame)) = 1
  /\ (m_current_output self = OUTPUT_ATROUS
      \/ (m_current_output self = OUTPUT_UPSAMPLE
          /\ m_scale self = RAY_TRACE_SCALE_FULL_RES) ->
      shown = ATrousReadDs 1 /\ ds_sampled_images shown = [ATrousImage 1])
  /\ (forall r, In r (dispatches_of UpsamplePipeline b (commands frame)) ->
      sampled_images r = [ATrousImage 1])
  /\ (forall k, ~ In (ATrousImage k) (targets_from b (commands frame)))
  /\ In (CurrentOutputImage (Z.b2z (ping_pong cr)))
       (produced_images b (commands frame)).
Proof.
  intros Hd Hn frame shown.
  destruct (render_keeps cr be ddgi self) as (Hs & Hde & Ho & _).
  assert (Hr : read_idx (m_a_trous (object frame)) = 1).
  { unfold frame. rewrite render_read_idx by assumption.
    destruct (Z.leb_spec (filter_iterations (m_a_trous self)) 0);
      [reflexivity | lia]. }
  split; [|split; [exact Hr|split; [|split; [|split]]]].
  - unfold frame. rewrite render_loop_launches by assumption.
    replace (Z.to_nat (filter_iterations (m_a_trous self))) with O by lia.
    reflexivity.
  - intros Hsel. unfold shown, output_ds. fold frame.
    unfold frame in Hr |- *. rewrite Hde, Ho, Hs, Hd, Hr.
    destruct Hsel as [->|[-> ->]]; split; reflexivity.
  - intros r Hin. unfold frame in Hin.
    rewrite render_dispatches_of in Hin by discriminate.
    rewrite Hd in Hin. simpl in Hin.
    destruct (negb (scale_eqb (m_scale self) RAY_TRACE_SCALE_FULL_RES));
      simpl in Hin; [|contradiction].
    destruct Hin as [Hin|[]]. subst r.
    change (sampled_images
              {| d_pipeline := Some UpsamplePipeline;
                 d_sets := _; d_push := _; d_work := _ |})
      with [ATrousImage
              (read_idx
                 (m_a_trous
                    (object (a_trous_filter cr
                               (object (clear_images cr self))))))].
    unfold frame in Hr. rewrite render_object, Hd in Hr. rewrite Hr.
    reflexivity.
  - intros k. apply render_targets_no_iterations. exact Hn.
  - unfold frame. rewrite produced_images_render, Hd. simpl. auto.
Qed.

Lemma C3_zero_iterations_witness :
  let self := set_current_output OUTPUT_ATROUS
                (Sample.fresh 0 0 false false RAY_TRACE_SCALE_FULL_RES) in
  let frame := render Sample.cr Sample.backend Sample.ddgi self in
  m_denoise self = true
  /\ filter_iterations (m_a_trous self) <= 0
  /\ read_idx (m_a_trous (object frame)) = 1.
Proof.
  split; [reflexivity|]. split; [simpl; lia|].
  apply (C3_zero_iterations Sample.cr Sample.backend Sample.ddgi
           (set_current_output OUTPUT_ATROUS
              (Sample.fresh 0 0 false false RAY_TRACE_SCALE_FULL_RES))
           no_bindings).
  - reflexivity.
  - simpl. lia.
Defined.

(** ** What [output_ds] hands out *)

(** C10, as amended.  The image behind the descriptor set that
    [output_ds] returns after [render] is written by a launch of that
    same [render], for every setting except one: denoising on with the
    A-Trous result shown (A-Trous output, or Upsample output at full
    resolution) needs [filter_iterations >= 1].  For every iteration
    count: with denoising off the raw ray trace set is returned whatever
    the selected output, and with the Upsample output selected at full
    resolution no upsample launch is recorded, the upsample image is not
    written, and the A-Trous set of the recorded read index is returned. *)
Theorem C10_output_is_produced cr be ddgi self b :
  let frame := render cr be ddgi self in
  let shown := output_ds cr (object frame) in
  let a_trous_shown :=
    m_denoise self = true
    /\ (m_current_output self = OUTPUT_ATROUS
        \/ (m_current_output self = OUTPUT_UPSAMPLE
            /\ m_scale self = RAY_TRACE_SCALE_FULL_RES)) in
  (exists img, ds_sampled_images shown = [img])
  /\ ((a_trous_shown -> 1 <= filter_iterations (m_a_trous self)) ->
      forall img,
        In img (ds_sampled_images shown) ->
        In img (produced_images b (commands frame)))
  /\ (m_denoise self = false ->
      shown = RayTraceReadDs /\ ds_sampled_images shown = [RayTraceImage])
  /\ (m_denoise self = true ->
      m_current_output self = OUTPUT_UPSAMPLE ->
      m_scale self = RAY_TRACE_SCALE_FULL_RES ->
      shown = ATrousReadDs (read_idx (m_a_trous (object frame)))
      /\ dispatches_of UpsamplePipeline b (commands frame) = []
      /\ ~ In UpsampleImage (produced_images b (commands frame))).
Proof.
  cbv zeta.
  destruct (render_keeps cr be ddgi self) as (Hs & Hd & Ho & _).
  split; [|split; [|split]].
  - unfold output_ds. rewrite Hd, Ho, Hs.
    destruct (m_denoise self); [|eexists; reflexivity].
    destruct (m_current_output self);
      try destruct (scale_eqb (m_scale self) RAY_TRACE_SCALE_FULL_RES);
      eexists; reflexivity.
  - intros Hn img. unfold output_ds. rewrite Hd, Ho, Hs.
    rewrite produced_images_render.
    destruct (m_denoise self) eqn:Ed.
    + assert (Hlast :
        m_current_output self = OUTPUT_ATROUS
        \/ (m_current_output self = OUTPUT_UPSAMPLE
            /\ m_scale self = RAY_TRACE_SCALE_FULL_RES) ->
        In (ATrousImage (read_idx (m_a_trous (object (render cr be ddgi self)))))
          (flat_map written_images
             (flat_map (iteration_launches cr (object (clear_images cr self)))
                (loop_indices 0
                   (Z.to_nat (filter_iterations (m_a_trous self))))))).
      { intros Hsel. specialize (Hn (conj eq_refl Hsel)).
        rewrite render_read_idx by assumption.
        destruct (Z.leb_spec (filter_iterations (m_a_trous self)) 0);
          [lia|].
        apply last_slot_written. exact Hn. }
      destruct (m_current_output self).
      * simpl. intros [<-|[]]. auto.
      * simpl. intros [<-|[]]. auto.
      * simpl ds_sampled_images. intros [<-|[]].
        apply in_or_app. right. apply in_or_app. right.
        apply in_or_app. left. apply Hlast. left. reflexivity.
      * destruct (scale_eqb (m_scale self) RAY_TRACE_SCALE_FULL_RES) eqn:E.
        -- apply scale_eqb_eq in E.
           simpl ds_sampled_images. intros [<-|[]].
           apply in_or_app. right. apply in_or_app. right.
           apply in_or_app. left. apply Hlast. right. split;
             [reflexivity | exact E].
        -- simpl ds_sampled_images. intros [<-|[]].
           apply in_or_app. right. apply in_or_app. right.
           apply in_or_app. right. simpl. auto.
    + simpl. intros [<-|[]]. auto.
  - intros Hoff. unfold output_ds. rewrite Hd, Hoff. split; reflexivity.
  - intros Hon Hup Hfull.
    split; [|split].
    + unfold output_ds. rewrite Hd, Ho, Hs, Hon, Hup, Hfull. reflexivity.
    + rewrite render_dispatches_of by discriminate.
      rewrite Hon, Hfull. reflexivity.
    + rewrite produced_images_render, Hon, Hfull.
      cbn [scale_eqb scale_value Z.eqb negb app].
      rewrite app_nil_r. intros H.
      destruct H as [H|H]; [discriminate|].
      destruct H as [H|H]; [discriminate|].
      destruct H as [H|H]; [discriminate|].
      apply in_flat_map in H. destruct H as (r & Hr & Hi).
      apply in_flat_map in Hr. destruct Hr as (i & _ & Hr).
      destruct Hr as [<-|[<-|[]]].
      * rewrite copy_tiles_launch_writes in Hi.
        destruct Hi as [Hi|[]]. discriminate.
      * rewrite a_trous_launch_writes in Hi.
        destruct Hi as [Hi|[]]. discriminate.
Qed.

Lemma C10_output_is_produced_witness :
  let self := Sample.fresh 2 1 true true RAY_TRACE_SCALE_FULL_RES in
  let frame := render Sample.cr Sample.backend Sample.ddgi self in
  1 <= filter_iterations (m_a_trous self)
  /\ forall img,
       In img (ds_sampled_images (output_ds Sample.cr (object frame))) ->
       In img (produced_images no_bindings (commands frame)).
Proof.
  split; [simpl; lia|].
  apply (C10_output_is_produced Sample.cr Sample.backend Sample.ddgi
           (Sample.fresh 2 1 true true RAY_TRACE_SCALE_FULL_RES) no_bindings).
  intros _. simpl. lia.
Defined.

(** C10 as stated fails with no iterations: with the A-Trous output
    selected, [output_ds] returns A-Trous slot 1, which no launch of the
    frame writes. *)
Lemma C10_counterexample :
  let self := set_current_output OUTPUT_ATROUS
                (Sample.fresh 0 0 false false RAY_TRACE_SCALE_FULL_RES) in
  let frame := render Sample.cr Sample.backend Sample.ddgi self in
  ds_sampled_images (output_ds Sample.cr (object frame)) = [ATrousImage 1]
  /\ produced_images no_bindings (commands frame)
     = [RayTraceImage; CurrentOutputImage 0; CurrentMomentsImage 0]
  /\ ~ In (ATrousImage 1) (produced_images no_bindings (commands frame)).
Proof.
  split; [reflexivity|]. split; [reflexivity|].
  simpl. intros [H|[H|[H|[]]]]; discriminate.
Qed.
